(** * Adaptive IoT traffic control: allocation engine, demand source, scheduler

    A shallow embedding of [src/js/controller.js] (class AdaptiveController),
    [VirtualSensor.js] (class VirtualSensor) and [src/js/simulator.js]
    (class Simulator), with the state and history of [src/js/dashboard.js]
    (class Dashboard) and the density slider of [Interactions.js], followed
    by the properties of the specification that concern them and by further
    properties of the code.

    Numbers.  A JavaScript number is modelled as an exact rational ([Q], kept
    in lowest terms) or [NaN]; IEEE rounding and the infinities are not
    modelled.  The only division of the allocation engine is guarded by
    [total === 0], so no infinity can arise there from finite readings.

    Objects.  A JavaScript object with string keys is an association list in
    insertion order, which is the order [Object.keys], [Object.values] and
    [Object.entries] enumerate.

    Mutation.  Every method takes the receiver's state and returns the new
    state next to its outcome; a method that throws still returns the state
    it left behind. *)

From Stdlib Require Import QArith Qround Lqa ZArith Lia List String Bool Permutation Sorted.
Import ListNotations.

Set Implicit Arguments.

Open Scope string_scope.
Open Scope Q_scope.

(* ------------------------------------------------------------------ *)
(** ** JavaScript values, arithmetic and objects *)

Module JS.

(** Primitive values that can sit in a reading set or a configuration
    object: [undefined], [NaN] and the finite numbers. *)
Inductive value : Type :=
| Undefined
| NaN
| Num (q : Q).

Definition num (q : Q) : value := Num (Qred q).

Definition of_nat (n : nat) : value := Num (inject_Z (Z.of_nat n)).

(** [a + b], [a - b], [a * b], [a / b] on primitives: [undefined] converts
    to [NaN], and [NaN] is absorbing. *)
Definition add (a b : value) : value :=
  match a, b with
  | Num x, Num y => num (x + y)
  | _, _ => NaN
  end.

Definition sub (a b : value) : value :=
  match a, b with
  | Num x, Num y => num (x - y)
  | _, _ => NaN
  end.

Definition mul (a b : value) : value :=
  match a, b with
  | Num x, Num y => num (x * y)
  | _, _ => NaN
  end.

Definition div (a b : value) : value :=
  match a, b with
  | Num x, Num y => if Qeq_bool y 0 then NaN else num (x / y)
  | _, _ => NaN
  end.

Definition Math_floor (a : value) : value :=
  match a with
  | Num x => Num (inject_Z (Qfloor x))
  | _ => NaN
  end.

Definition Math_max (a b : value) : value :=
  match a, b with
  | Num x, Num y => Num (if Qle_bool x y then y else x)
  | _, _ => NaN
  end.

Definition Math_min (a b : value) : value :=
  match a, b with
  | Num x, Num y => Num (if Qle_bool x y then x else y)
  | _, _ => NaN
  end.

Definition Math_sign (a : value) : value :=
  match a with
  | Num x =>
      match x ?= 0 with
      | Lt => Num (-1)
      | Eq => Num 0
      | Gt => Num 1
      end
  | _ => NaN
  end.

(** Relational operators: any comparison that involves [NaN] (or
    [undefined], which converts to it) is false. *)
Definition le (a b : value) : bool :=
  match a, b with
  | Num x, Num y => Qle_bool x y
  | _, _ => false
  end.

Definition ge (a b : value) : bool := le b a.

Definition lt (a b : value) : bool :=
  match a, b with
  | Num x, Num y => negb (Qle_bool y x)
  | _, _ => false
  end.

Definition gt (a b : value) : bool := lt b a.

(** [a === b] *)
Definition strict_eq (a b : value) : bool :=
  match a, b with
  | Num x, Num y => Qeq_bool x y
  | Undefined, Undefined => true
  | _, _ => false
  end.

(** Truthiness, and [a || b]. *)
Definition truthy (a : value) : bool :=
  match a with
  | Num x => negb (Qeq_bool x 0)
  | _ => false
  end.

Definition or (a b : value) : value := if truthy a then a else b.

(** Objects as association lists in insertion order. *)
Definition obj (A : Type) : Type := list (string * A).

Fixpoint lookup {A} (o : obj A) (k : string) : option A :=
  match o with
  | [] => None
  | (k', v) :: o' => if String.eqb k' k then Some v else lookup o' k
  end.

(** [o[k] = v]: overwrite in place, or append a new key. *)
Fixpoint set {A} (o : obj A) (k : string) (v : A) : obj A :=
  match o with
  | [] => [(k, v)]
  | (k', v') :: o' =>
      if String.eqb k' k then (k', v) :: o' else (k', v') :: set o' k v
  end.

Definition keys {A} (o : obj A) : list string := map fst o.
Definition values {A} (o : obj A) : list A := map snd o.

(** [o[k]] on an object of primitives: a missing key reads [undefined]. *)
Definition get (o : obj value) (k : string) : value :=
  match lookup o k with
  | Some v => v
  | None => Undefined
  end.

(** [l.includes(x)] on an array of strings. *)
Definition includes (l : list string) (x : string) : bool :=
  existsb (String.eqb x) l.

(** What a call can be handed where an object is expected: a primitive,
    [null], or an object whose properties hold numbers, [NaN] or
    [undefined].  Properties of other types (strings, [BigInt], [Symbol],
    nested objects) are outside the model. *)
Inductive arg : Type :=
| APrim (v : value)
| ANull
| AObj (o : obj value).

(** Errors thrown by the modelled classes, one constructor per [throw]. *)
Inductive error : Type :=
| DensitiesMustBeObject
| MinGreenNotLessThanMaxGreen
| CycleTooShort
| TimingNotPositive
| InvalidLane
| EmaOutOfRange
| SpeedOutOfRange
| ReduceOfEmptyArray
| ToFixedOfUndefined.

Inductive outcome (A : Type) : Type :=
| Ok (a : A)
| Throw (e : error).
Arguments Throw {A} e.

(** [Array.prototype.sort(cmp)] as a stable insertion sort: [x] moves
    behind [y] only when [cmp(x, y) > 0].  For a comparator that returns
    numbers this is the order the language prescribes.  A comparator that
    returns [NaN] leaves the order to the engine; here such a comparison
    counts as equal, and nothing below relies on the order in that case. *)
Section Sort.
Variable cmp : string -> string -> value.

Fixpoint insert (x : string) (l : list string) : list string :=
  match l with
  | [] => [x]
  | y :: l' => if gt (cmp x y) (Num 0) then y :: insert x l' else x :: l
  end.

Fixpoint sort (l : list string) : list string :=
  match l with
  | [] => []
  | x :: l' => insert x (sort l')
  end.
End Sort.

End JS.

(* ------------------------------------------------------------------ *)
(** ** AdaptiveController (src/js/controller.js) *)

Module AdaptiveController.
Import JS.

Record controller : Type := mkController {
  cycleLength : value;
  minGreen : value;
  maxGreen : value;
  yellowTime : value;
  allRedTime : value;
  lanes : list string
}.

Definition lanes_length (c : controller) : value := of_nat (List.length (lanes c)).

(** [_validateConfig()] *)
Definition _validateConfig (c : controller) : outcome unit :=
  if ge (minGreen c) (maxGreen c) then Throw MinGreenNotLessThanMaxGreen
  else
    let fixedTime := mul (lanes_length c) (add (yellowTime c) (allRedTime c)) in
    let minAvailable := mul (lanes_length c) (minGreen c) in
    if gt (add fixedTime minAvailable) (cycleLength c) then Throw CycleTooShort
    else if le (cycleLength c) (Num 0) || lt (minGreen c) (Num 0)
               || lt (maxGreen c) (Num 0)
         then Throw TimingNotPositive
         else Ok tt.

(** The fields as the constructor assigns them, before validation:
    [config.f || default]. *)
Definition defaulted (config : obj value) : controller :=
  {| cycleLength := or (get config "cycleLength") (Num 60);
     minGreen := or (get config "minGreen") (Num 10);
     maxGreen := or (get config "maxGreen") (Num 60);
     yellowTime := or (get config "yellowTime") (Num 3);
     allRedTime := or (get config "allRedTime") (Num 2);
     lanes := ["north"; "south"; "east"; "west"] |}.

(** [new AdaptiveController(config)]; [None] is the omitted argument,
    which defaults to [{}]. *)
Definition constructor (config : option (obj value)) : outcome controller :=
  let c := defaulted (match config with Some o => o | None => [] end) in
  match _validateConfig c with
  | Ok _ => Ok c
  | Throw e => Throw e
  end.

(** The loop of [_redistribute]: one walk over the sorted lanes, carrying
    the allocation and the remaining [diff]. *)
Fixpoint redistribute_loop (c : controller) (sortedLanes : list string)
         (greenTimes : obj value) (diff : value) : obj value * value :=
  match sortedLanes with
  | [] => (greenTimes, diff)
  | lane :: rest =>
      if strict_eq diff (Num 0) then (greenTimes, diff)
      else
        let adjustment := Math_sign diff in
        let newValue := add (get greenTimes lane) adjustment in
        if ge newValue (minGreen c) && le newValue (maxGreen c)
        then redistribute_loop c rest (set greenTimes lane newValue)
                               (sub diff adjustment)
        else redistribute_loop c rest greenTimes diff
  end.

Definition sum_values (o : obj value) : value :=
  fold_left (fun sum g => add sum g) (values o) (Num 0).

(** The comparator handed to [sort] in [_redistribute]. *)
Definition by_density_desc (densities : obj value) (a b : string) : value :=
  sub (get densities b) (get densities a).

(** [_redistribute(greenTimes, targetSum, densities)].  [this.lanes.sort]
    sorts the controller's own array in place, so the new lane order is
    part of the state returned. *)
Definition _redistribute (c : controller) (greenTimes : obj value)
           (targetSum : value) (densities : obj value)
  : controller * obj value :=
  let currentSum := sum_values greenTimes in
  let diff := sub targetSum currentSum in
  if strict_eq diff (Num 0) then (c, greenTimes)
  else
    let sortedLanes := sort (by_density_desc densities) (lanes c) in
    let c' := {| cycleLength := cycleLength c; minGreen := minGreen c;
                 maxGreen := maxGreen c; yellowTime := yellowTime c;
                 allRedTime := allRedTime c; lanes := sortedLanes |} in
    (c', fst (redistribute_loop c' sortedLanes greenTimes diff)).

Definition availableTime (c : controller) : value :=
  let fixedTimePerLane := add (yellowTime c) (allRedTime c) in
  let totalFixedTime := mul (lanes_length c) fixedTimePerLane in
  sub (cycleLength c) totalFixedTime.

(** Step 2 of [computeGreenTimes]. *)
Definition rawGreen (c : controller) (densities : obj value) (total : value)
  : obj value :=
  fold_left
    (fun o lane =>
       let proportion := div (get densities lane) total in
       set o lane (mul proportion (availableTime c)))
    (lanes c) [].

(** Step 3 of [computeGreenTimes]. *)
Definition constrained (c : controller) (raw : obj value) : obj value :=
  fold_left
    (fun o lane =>
       set o lane
           (Math_max (minGreen c)
                     (Math_min (maxGreen c) (Math_floor (get raw lane)))))
    (lanes c) [].

Definition total_density (densities : obj value) : value :=
  fold_left (fun sum d => add sum d) (values densities) (Num 0).

(** [computeGreenTimes(densities)] *)
Definition computeGreenTimes (c : controller) (densities : arg)
  : controller * outcome (obj value) :=
  match densities with
  | APrim _ | ANull => (c, Throw DensitiesMustBeObject)
  | AObj d =>
      let total := total_density d in
      if strict_eq total (Num 0)
      then (c, Ok (fold_left (fun o lane => set o lane (minGreen c))
                             (lanes c) []))
      else
        let raw := rawGreen c d total in
        let con := constrained c raw in
        let (c', g) := _redistribute c con (availableTime c) d in
        (c', Ok g)
  end.

Definition set_if_defined (v old : value) : value :=
  match v with
  | Undefined => old
  | _ => v
  end.

(** The configuration after the five assignments of [updateConfig]. *)
Definition merged (c : controller) (newConfig : obj value) : controller :=
  {| cycleLength := set_if_defined (get newConfig "cycleLength") (cycleLength c);
     minGreen := set_if_defined (get newConfig "minGreen") (minGreen c);
     maxGreen := set_if_defined (get newConfig "maxGreen") (maxGreen c);
     yellowTime := set_if_defined (get newConfig "yellowTime") (yellowTime c);
     allRedTime := set_if_defined (get newConfig "allRedTime") (allRedTime c);
     lanes := lanes c |}.

(** [updateConfig(newConfig)]: the fields are assigned first, then the
    controller validates itself. *)
Definition updateConfig (c : controller) (newConfig : obj value)
  : controller * outcome unit :=
  let c' := merged c newConfig in
  (c', _validateConfig c').

(** [getConfig()] *)
Definition getConfig (c : controller) : obj value :=
  [("cycleLength", cycleLength c); ("minGreen", minGreen c);
   ("maxGreen", maxGreen c); ("yellowTime", yellowTime c);
   ("allRedTime", allRedTime c)].

(** [calculateEfficiency(densities, greenTimes)].  A division by zero with
    a non-zero numerator is an infinity in JavaScript and [NaN] here; it
    needs a lane whose larger ratio is 0 and whose smaller one is
    negative, or a [cycleLength] of 0. *)
Definition calculateEfficiency (c : controller) (densities greenTimes : obj value)
  : value :=
  let maxScore := lanes_length c in
  let totalScore :=
    fold_left
      (fun totalScore lane =>
         let densityRatio := div (get densities lane) (Num 100) in
         let greenRatio := div (get greenTimes lane) (cycleLength c) in
         let alignment :=
           div (Math_min densityRatio greenRatio)
               (Math_max densityRatio greenRatio) in
         add totalScore alignment)
      (lanes c) (Num 0) in
  mul (div totalScore maxScore) (Num 100).

End AdaptiveController.

(* ------------------------------------------------------------------ *)
(** ** VirtualSensor (VirtualSensor.js) *)

Module VirtualSensor.
Import JS.

(** [overrideDensity] is [null] ([None]) or a number; [smoothedDensity]
    is [Undefined] until the first sample creates the property. *)
Record sensor : Type := mkSensor {
  lane : string;
  lastDensity : value;
  emaCoefficient : value;
  overrideDensity : option value;
  smoothedDensity : value
}.

Definition known_lanes : list string := ["north"; "south"; "east"; "west"].

(** [new VirtualSensor(lane, config)] *)
Definition constructor (lane : string) (config : option (obj value))
  : outcome sensor :=
  let config := match config with Some o => o | None => [] end in
  let s := {| lane := lane;
              lastDensity := or (get config "initialDensity") (Num 50);
              emaCoefficient := or (get config "emaCoefficient") (Num (7 # 10));
              overrideDensity := None;
              smoothedDensity := Undefined |} in
  if negb (includes known_lanes lane) then Throw InvalidLane
  else if lt (emaCoefficient s) (Num 0) || gt (emaCoefficient s) (Num 1)
       then Throw EmaOutOfRange
       else Ok s.

Definition peakFactor (hour : value) : value :=
  if (ge hour (Num 7) && le hour (Num 9))
     || (ge hour (Num 17) && le hour (Num 19))
  then Num (3 # 2)
  else if ge hour (Num 22) || le hour (Num 5) then Num (3 # 10)
       else Num 1.

Definition clamp_percent (v : value) : value :=
  Math_max (Num 0) (Math_min (Num 100) v).

(** [generateDensity(timestampMs)].  The two things the method reads from
    its environment are parameters here: [hour], what [date.getHours()]
    returns ([NaN] for an invalid date), and [randomGaussian], what
    [_gaussianRandom(50, 15)] returns. *)
Definition generateDensity (s : sensor) (hour randomGaussian : value)
  : sensor * value :=
  let computedPercent := clamp_percent (mul randomGaussian (peakFactor hour)) in
  let targetDensity :=
    match overrideDensity s with
    | Some o => o
    | None => computedPercent
    end in
  let smoothed :=
    match smoothedDensity s with
    | Undefined => targetDensity
    | sm => add sm (mul (emaCoefficient s) (sub targetDensity sm))
    end in
  let finalDensity := clamp_percent smoothed in
  ({| lane := lane s; lastDensity := finalDensity;
      emaCoefficient := emaCoefficient s;
      overrideDensity := overrideDensity s;
      smoothedDensity := smoothed |},
   finalDensity).

(** [setDensity(value)], for a numeric (or [undefined]) argument. *)
Definition setDensity (s : sensor) (v : value) : sensor :=
  let percent := clamp_percent (match v with Undefined => NaN | _ => v end) in
  {| lane := lane s; lastDensity := percent;
     emaCoefficient := emaCoefficient s;
     overrideDensity := Some percent;
     smoothedDensity :=
       match smoothedDensity s with
       | Undefined => Undefined
       | _ => percent
       end |}.

(** [reset()]: two assignments; [smoothedDensity] is not touched. *)
Definition reset (s : sensor) : sensor :=
  {| lane := lane s; lastDensity := Num 50;
     emaCoefficient := emaCoefficient s;
     overrideDensity := None;
     smoothedDensity := smoothedDensity s |}.

End VirtualSensor.

(* ------------------------------------------------------------------ *)
(** ** Simulator (src/js/simulator.js) *)

Module Simulator.
Import JS.

Inductive signal : Type := RED | GREEN.

(** The record handed to [dashboard.update]; the [timestamp] and the
    random [latency] of the source record are left out. *)
Record tick_state : Type := mkTickState {
  st_cycleCount : value;
  st_densities : obj value;
  st_greenTimes : obj value;
  st_signals : obj signal;
  st_messagesProcessed : value;
  st_elapsedTime : value;
  st_totalDuration : value
}.

(** The calls the simulator makes on its dashboard. *)
Inductive dashboard_call : Type :=
| DashReset
| DashUpdate (st : tick_state).

(** The dashboard is the sink.  It is modelled by the calls it [received],
    oldest first, and by the one fact about the page it renders into that
    decides whether [update] returns: whether the document has the body of
    the status table, the element [intersectionTableBody].  The page is not
    among the sources. *)
Record sink : Type := mkSink {
  received : list dashboard_call;
  intersectionTableBody : bool
}.

(** [this.lanes] of the dashboard. *)
Definition dashboard_lanes : list string := ["north"; "south"; "east"; "west"].

(** [dashboard.reset()].  The dashboard returns to its own initial state,
    on which none of the display updates that follow can fail. *)
Definition dashboard_reset (d : sink) : sink :=
  {| received := (received d ++ [DashReset])%list;
     intersectionTableBody := intersectionTableBody d |}.

(** How [dashboard.update(state)] ends.  [Dashboard.update] first stores
    the record and extends its history.  After that [updateMetrics]
    reduces [Object.values(state.densities)] without an initial value,
    which throws on an empty reading set; and [updateIntersectionView],
    when the page has the status table, calls [toFixed] on the reading of
    each of the dashboard's four lanes, which throws on a lane without a
    reading.  The DOM setters and Chart.js are taken not to throw. *)
Definition update_outcome (tableBody : bool) (st : tick_state) : outcome unit :=
  match values (st_densities st) with
  | [] => Throw ReduceOfEmptyArray
  | _ :: _ =>
      if tableBody
         && existsb (fun lane => match get (st_densities st) lane with
                                 | Undefined => true
                                 | _ => false
                                 end)
                    dashboard_lanes
      then Throw ToFixedOfUndefined
      else Ok tt
  end.

(** [dashboard.update(state)], as far as the simulator can tell: the
    record has been received, and the call returns or throws. *)
Definition dashboard_update (d : sink) (st : tick_state) : sink * outcome unit :=
  ({| received := (received d ++ [DashUpdate st])%list;
      intersectionTableBody := intersectionTableBody d |},
   update_outcome (intersectionTableBody d) st).

(** [intervalId] holds the period of the live [setInterval] timer, [None]
    when there is none (never set, or cleared).  [simulationStartTime] is
    [None] for [null]. *)
Record simulator : Type := mkSimulator {
  sensors : obj VirtualSensor.sensor;
  controller : AdaptiveController.controller;
  dashboard : sink;
  isPaused : bool;
  isRunning : bool;
  speedMultiplier : value;
  tickInterval : value;
  intervalId : option value;
  cycleCount : value;
  simulationDurationSeconds : value;
  simulationStartTime : option value;
  elapsedTimeSeconds : value;
  pausedAtSeconds : value
}.

(** [new Simulator(sensors, controller, dashboard)] *)
Definition constructor (sensors : obj VirtualSensor.sensor)
           (controller : AdaptiveController.controller)
           (dashboard : sink) : simulator :=
  {| sensors := sensors; controller := controller; dashboard := dashboard;
     isPaused := false; isRunning := false;
     speedMultiplier := Num 1; tickInterval := Num 2000;
     intervalId := None; cycleCount := Num 0;
     simulationDurationSeconds := Num 0; simulationStartTime := None;
     elapsedTimeSeconds := Num 0; pausedAtSeconds := Num 0 |}.

(** [null] converts to [0] in arithmetic. *)
Definition startTime_number (s : simulator) : value :=
  match simulationStartTime s with
  | Some t => t
  | None => Num 0
  end.

(** [stop()] *)
Definition stop (s : simulator) : simulator :=
  {| sensors := sensors s; controller := controller s;
     dashboard := dashboard s;
     isPaused := false; isRunning := false;
     speedMultiplier := speedMultiplier s; tickInterval := tickInterval s;
     intervalId := None; cycleCount := cycleCount s;
     simulationDurationSeconds := simulationDurationSeconds s;
     simulationStartTime := simulationStartTime s;
     elapsedTimeSeconds := elapsedTimeSeconds s;
     pausedAtSeconds := pausedAtSeconds s |}.

(** [_computeSignals(greenTimes)]; [reduce] without an initial value
    throws on an empty array. *)
Definition maxLane (greenTimes : obj value) : outcome string :=
  match keys greenTimes with
  | [] => Throw ReduceOfEmptyArray
  | k :: ks =>
      Ok (fold_left
            (fun a b => if gt (get greenTimes a) (get greenTimes b) then a else b)
            ks k)
  end.

Definition _computeSignals (greenTimes : obj value) : outcome (obj signal) :=
  let signals :=
    fold_left (fun o lane => set o lane RED) (keys greenTimes) [] in
  match maxLane greenTimes with
  | Throw e => Throw e
  | Ok m => Ok (set signals m GREEN)
  end.

(** The sampling loop of [tick]: every sensor is sampled in the order of
    [Object.entries(this.sensors)].  [generateDensity()] is called without
    a timestamp, so the date is invalid and [getHours()] is [NaN]. *)
Fixpoint sample (rand : string -> value) (ss : obj VirtualSensor.sensor)
         (densities : obj value)
  : obj VirtualSensor.sensor * obj value :=
  match ss with
  | [] => ([], densities)
  | (lane, sensor) :: rest =>
      let (sensor', d) := VirtualSensor.generateDensity sensor NaN (rand lane) in
      let (rest', densities') := sample rand rest (set densities lane d) in
      ((lane, sensor') :: rest', densities')
  end.

(** [tick()], at wall-clock instant [now] (what [Date.now()] returns), with
    [rand lane] the Gaussian draw of that lane's sensor.  An exception
    inside the [try] block is caught and logged; the assignments made
    before it stay.  [dashboard.update] is the last call before
    [this.cycleCount++], so when it throws the record has been handed
    over and the cycle is not counted. *)
Definition tick (s : simulator) (now : value) (rand : string -> value)
  : simulator :=
  if isPaused s || negb (isRunning s) then s
  else
    let realElapsedMs := sub now (startTime_number s) in
    let simulationElapsedMs :=
      mul (div realElapsedMs (Num 1000)) (speedMultiplier s) in
    let upd sensors' controller' dashboard' cycleCount' :=
      {| sensors := sensors'; controller := controller';
         dashboard := dashboard';
         isPaused := isPaused s; isRunning := isRunning s;
         speedMultiplier := speedMultiplier s; tickInterval := tickInterval s;
         intervalId := intervalId s; cycleCount := cycleCount';
         simulationDurationSeconds := simulationDurationSeconds s;
         simulationStartTime := simulationStartTime s;
         elapsedTimeSeconds := simulationElapsedMs;
         pausedAtSeconds := pausedAtSeconds s |} in
    if gt (simulationDurationSeconds s) (Num 0)
       && ge simulationElapsedMs (simulationDurationSeconds s)
    then stop (upd (sensors s) (controller s) (dashboard s) (cycleCount s))
    else
      let (sensors', densities) := sample rand (sensors s) [] in
      let (controller', r) :=
        AdaptiveController.computeGreenTimes (controller s) (AObj densities) in
      match r with
      | Throw _ => upd sensors' controller' (dashboard s) (cycleCount s)
      | Ok greenTimes =>
          match _computeSignals greenTimes with
          | Throw _ => upd sensors' controller' (dashboard s) (cycleCount s)
          | Ok signals =>
              let state :=
                {| st_cycleCount := cycleCount s;
                   st_densities := densities;
                   st_greenTimes := greenTimes;
                   st_signals := signals;
                   st_messagesProcessed := add (cycleCount s) (Num 1);
                   st_elapsedTime := simulationElapsedMs;
                   st_totalDuration := simulationDurationSeconds s |} in
              let (dashboard', updated) := dashboard_update (dashboard s) state in
              match updated with
              | Throw _ => upd sensors' controller' dashboard' (cycleCount s)
              | Ok _ =>
                  upd sensors' controller' dashboard' (add (cycleCount s) (Num 1))
              end
          end
      end.

(** [start(durationSeconds = 0)] at wall-clock instant [now]. *)
Definition start (s : simulator) (now : value) (durationSeconds : value)
  : simulator :=
  let durationSeconds :=
    match durationSeconds with Undefined => Num 0 | d => d end in
  if isRunning s && negb (isPaused s) then s
  else if isPaused s then
    {| sensors := sensors s; controller := controller s;
       dashboard := dashboard s;
       isPaused := false; isRunning := isRunning s;
       speedMultiplier := speedMultiplier s; tickInterval := tickInterval s;
       intervalId := intervalId s; cycleCount := cycleCount s;
       simulationDurationSeconds := simulationDurationSeconds s;
       simulationStartTime := simulationStartTime s;
       elapsedTimeSeconds := elapsedTimeSeconds s;
       pausedAtSeconds := pausedAtSeconds s |}
  else
    let adjustedInterval := div (tickInterval s) (speedMultiplier s) in
    {| sensors := sensors s; controller := controller s;
       dashboard := dashboard_reset (dashboard s);
       isPaused := false; isRunning := true;
       speedMultiplier := speedMultiplier s; tickInterval := tickInterval s;
       intervalId := Some adjustedInterval; cycleCount := Num 0;
       simulationDurationSeconds := durationSeconds;
       simulationStartTime := Some now;
       elapsedTimeSeconds := Num 0;
       pausedAtSeconds := Num 0 |}.

(** [pause()] *)
Definition pause (s : simulator) : simulator :=
  if negb (isRunning s) then s
  else
    {| sensors := sensors s; controller := controller s;
       dashboard := dashboard s;
       isPaused := true; isRunning := isRunning s;
       speedMultiplier := speedMultiplier s; tickInterval := tickInterval s;
       intervalId := intervalId s; cycleCount := cycleCount s;
       simulationDurationSeconds := simulationDurationSeconds s;
       simulationStartTime := simulationStartTime s;
       elapsedTimeSeconds := elapsedTimeSeconds s;
       pausedAtSeconds := elapsedTimeSeconds s |}.

(** [resume()] at wall-clock instant [now]. *)
Definition resume (s : simulator) (now : value) : simulator :=
  if negb (isRunning s) || negb (isPaused s) then s
  else
    {| sensors := sensors s; controller := controller s;
       dashboard := dashboard s;
       isPaused := false; isRunning := isRunning s;
       speedMultiplier := speedMultiplier s; tickInterval := tickInterval s;
       intervalId := intervalId s; cycleCount := cycleCount s;
       simulationDurationSeconds := simulationDurationSeconds s;
       simulationStartTime :=
         Some (sub now (mul (pausedAtSeconds s) (Num 1000)));
       elapsedTimeSeconds := elapsedTimeSeconds s;
       pausedAtSeconds := pausedAtSeconds s |}.

(** [reset()] *)
Definition reset (s : simulator) : simulator :=
  {| sensors := map (fun kv => (fst kv, VirtualSensor.reset (snd kv))) (sensors s);
     controller := controller s;
     dashboard := dashboard_reset (dashboard s);
     isPaused := false; isRunning := false;
     speedMultiplier := Num 1; tickInterval := tickInterval s;
     intervalId := None; cycleCount := Num 0;
     simulationDurationSeconds := Num 0; simulationStartTime := None;
     elapsedTimeSeconds := Num 0; pausedAtSeconds := Num 0 |}.

(** [setSpeed(multiplier)] *)
Definition setSpeed (s : simulator) (multiplier : value)
  : simulator * outcome unit :=
  if le multiplier (Num 0) || gt multiplier (Num 10)
  then (s, Throw SpeedOutOfRange)
  else
    ({| sensors := sensors s; controller := controller s;
        dashboard := dashboard s;
        isPaused := isPaused s; isRunning := isRunning s;
        speedMultiplier := multiplier; tickInterval := tickInterval s;
        intervalId :=
          if isRunning s && negb (isPaused s)
          then Some (div (tickInterval s) multiplier)
          else intervalId s;
        cycleCount := cycleCount s;
        simulationDurationSeconds := simulationDurationSeconds s;
        simulationStartTime := simulationStartTime s;
        elapsedTimeSeconds := elapsedTimeSeconds s;
        pausedAtSeconds := pausedAtSeconds s |},
     Ok tt).

(** [step()] *)
Definition step (s : simulator) (now : value) (rand : string -> value)
  : simulator :=
  if negb (isPaused s) || negb (isRunning s) then s
  else tick s now rand.

(** [getRemainingTime()] *)
Definition getRemainingTime (s : simulator) : value :=
  if strict_eq (simulationDurationSeconds s) (Num 0) || negb (isRunning s)
  then Num 0
  else Math_max (Num 0) (sub (simulationDurationSeconds s) (elapsedTimeSeconds s)).

End Simulator.

(* ------------------------------------------------------------------ *)
(** ** Vocabulary of the specification *)

Module Spec.
Import JS.

(** The lane set of the intersection. *)
Definition lane_names : list string := ["north"; "south"; "east"; "west"].

Definition is_num (v : value) : bool :=
  match v with
  | Num _ => true
  | _ => false
  end.

Fixpoint nodupb (l : list string) : bool :=
  match l with
  | [] => true
  | x :: l' => negb (includes l' x) && nodupb l'
  end.

Definition subset (a b : list string) : bool := forallb (includes b) a.

(** [ks] lists exactly the lanes [ls], each once, in any order. *)
Definition same_lanes (ks ls : list string) : bool :=
  nodupb ks && subset ks ls && subset ls ks.

(** An object of numbers over the four lanes (a demand reading set, or an
    allocation): exactly the four keys, every value a number. *)
Definition numeric_over_lanes (d : obj value) : bool :=
  same_lanes (keys d) lane_names && forallb is_num (values d).

(** The configuration invariant: [minGreen < maxGreen] and
    [laneCount * (yellowTime + allRedTime) + laneCount * minGreen <=
    cycleLength].  Both comparisons are false on a non-number, so the
    invariant makes all five fields numbers. *)
Definition config_invariant (c : AdaptiveController.controller) : bool :=
  let n := AdaptiveController.lanes_length c in
  lt (AdaptiveController.minGreen c) (AdaptiveController.maxGreen c)
  && le (add (mul n (add (AdaptiveController.yellowTime c)
                         (AdaptiveController.allRedTime c)))
             (mul n (AdaptiveController.minGreen c)))
        (AdaptiveController.cycleLength c).

(** The controller's lane array holds the four lanes, in some order. *)
Definition lanes_known (c : AdaptiveController.controller) : bool :=
  same_lanes (AdaptiveController.lanes c) lane_names.

(** [v] is a number in the closed interval [minGreen, maxGreen]. *)
Definition within_green (c : AdaptiveController.controller) (v : value) : bool :=
  le (AdaptiveController.minGreen c) v && le v (AdaptiveController.maxGreen c).

(** A whole number of seconds. *)
Definition is_int (v : value) : bool :=
  match v with
  | Num q => Qeq_bool (inject_Z (Qfloor q)) q
  | _ => false
  end.

(** The value [v] is the number [q], up to the representation of [q]. *)
Definition denotes (v : value) (q : Q) : Prop :=
  exists q', v = Num q' /\ q' == q.

(** The exact sum of the numbers of an object; other values count 0. *)
Fixpoint qsum (o : obj value) : Q :=
  match o with
  | [] => 0
  | (_, Num q) :: o' => q + qsum o'
  | _ :: o' => qsum o'
  end.

(** A rational that is a whole number. *)
Definition whole (q : Q) : Prop := exists z : Z, q == inject_Z z.

(** The defaults of the controller's configuration. *)
Definition default_config : obj value :=
  [("cycleLength", Num 60); ("minGreen", Num 10); ("maxGreen", Num 60);
   ("yellowTime", Num 3); ("allRedTime", Num 2)].

(** The five configuration fields. *)
Definition config_fields : list string :=
  ["cycleLength"; "minGreen"; "maxGreen"; "yellowTime"; "allRedTime"].

Definition whole_seconds (c : AdaptiveController.controller) : bool :=
  is_int (AdaptiveController.cycleLength c)
  && is_int (AdaptiveController.minGreen c)
  && is_int (AdaptiveController.maxGreen c)
  && is_int (AdaptiveController.yellowTime c)
  && is_int (AdaptiveController.allRedTime c).

End Spec.

(* ------------------------------------------------------------------ *)
(** ** Concrete controllers, readings and runs used below *)

Module Examples.
Import JS.

Definition controller_of (config : obj value) : AdaptiveController.controller :=
  match AdaptiveController.constructor (Some config) with
  | Ok c => c
  | Throw _ => AdaptiveController.defaulted config
  end.

(** The controller of Main.js: 60 s cycle, green in [10, 60], 3 s yellow,
    2 s all-red. *)
Definition main_controller : AdaptiveController.controller :=
  controller_of [("cycleLength", Num 60); ("minGreen", Num 10);
                 ("maxGreen", Num 60); ("yellowTime", Num 3);
                 ("allRedTime", Num 2)].

(** A long cycle with a narrow green window: 200 s, green in [10, 20]. *)
Definition narrow_controller : AdaptiveController.controller :=
  controller_of [("cycleLength", Num 200); ("minGreen", Num 10);
                 ("maxGreen", Num 20)].

(** A 90 s cycle, other fields default: 70 s to distribute. *)
Definition controller_90 : AdaptiveController.controller :=
  controller_of [("cycleLength", Num 90)].

Definition readings (n s e w : Q) : obj value :=
  [("north", Num n); ("south", Num s); ("east", Num e); ("west", Num w)].

(** [n] walks of the loop of [_redistribute], one after the other, each
    starting from the allocation and the difference the walk before it
    left: what the README's pseudocode ([while] the difference is not 0,
    walk the sorted lanes) does with the walk of the code. *)
Fixpoint walks (n : nat) (c : AdaptiveController.controller)
         (sortedLanes : list string) (greenTimes : obj value) (diff : value)
  : obj value * value :=
  match n with
  | O => (greenTimes, diff)
  | S n' =>
      let (greenTimes', diff') :=
        AdaptiveController.redistribute_loop c sortedLanes greenTimes diff in
      walks n' c sortedLanes greenTimes' diff'
  end.

Definition sensor_of (lane : string) (config : obj value) : VirtualSensor.sensor :=
  match VirtualSensor.constructor lane (Some config) with
  | Ok s => s
  | Throw _ => VirtualSensor.mkSensor lane NaN NaN None Undefined
  end.

(** The sensors of Main.js. *)
Definition main_sensors : obj VirtualSensor.sensor :=
  [("north", sensor_of "north" [("initialDensity", Num 40)]);
   ("south", sensor_of "south" [("initialDensity", Num 35)]);
   ("east", sensor_of "east" [("initialDensity", Num 45)]);
   ("west", sensor_of "west" [("initialDensity", Num 38)])].

(** The simulator of Main.js, with a fresh dashboard in a page that has
    the status table. *)
Definition main_simulator : Simulator.simulator :=
  Simulator.constructor main_sensors main_controller (Simulator.mkSink [] true).

(** Gaussian draws of one tick: 80, 20, 60, 40. *)
Definition draws (lane : string) : value :=
  get (readings 80 20 60 40) lane.

(** Started at instant 0, one tick at 2000 ms, then paused. *)
Definition paused_after_one_tick : Simulator.simulator :=
  Simulator.pause
    (Simulator.tick (Simulator.start main_simulator (Num 0) (Num 0))
                    (Num 2000) draws).

End Examples.

(* ------------------------------------------------------------------ *)
(** ** Dashboard (src/js/dashboard.js): state and history *)

Module Dashboard.
Import JS.

(** The rolling history.  A timestamp is a [Date] the simulator's record
    does not carry here; only the number of timestamps matters to the
    code, so each one is a [tt]. *)
Record history : Type := mkHistory {
  timestamps : list unit;
  h_densities : obj (list value);
  h_greenTimes : obj (list value);
  efficiency : list value
}.

(** The part of the dashboard that is not DOM or Chart.js. *)
Record dashboard : Type := mkDashboard {
  state : Simulator.tick_state;
  hist : history
}.

Definition lanes : list string := ["north"; "south"; "east"; "west"].

Definition maxHistoryPoints : nat := 100.

Definition initial_state : Simulator.tick_state :=
  {| Simulator.st_cycleCount := Num 0;
     Simulator.st_densities :=
       [("north", Num 0); ("south", Num 0); ("east", Num 0); ("west", Num 0)];
     Simulator.st_greenTimes :=
       [("north", Num 10); ("south", Num 10); ("east", Num 10); ("west", Num 10)];
     Simulator.st_signals :=
       [("north", Simulator.RED); ("south", Simulator.RED);
        ("east", Simulator.RED); ("west", Simulator.RED)];
     Simulator.st_messagesProcessed := Num 0;
     Simulator.st_elapsedTime := Undefined;
     Simulator.st_totalDuration := Undefined |}.

Definition empty_history : history :=
  {| timestamps := [];
     h_densities := [("north", []); ("south", []); ("east", []); ("west", [])];
     h_greenTimes := [("north", []); ("south", []); ("east", []); ("west", [])];
     efficiency := [] |}.

(** [new Dashboard()] *)
Definition constructor : dashboard :=
  {| state := initial_state; hist := empty_history |}.

(** [calculateEfficiency()] of the dashboard: cycle length fixed at 60, and
    0.01 added to the green ratio in the divisor. *)
Definition calculateEfficiency (d : dashboard) : value :=
  let cycleLength := Num 60 in
  let totalScore :=
    fold_left
      (fun totalScore lane =>
         let density := get (Simulator.st_densities (state d)) lane in
         let greenTime := get (Simulator.st_greenTimes (state d)) lane in
         let densityRatio := div density (Num 100) in
         let greenRatio := div greenTime cycleLength in
         let alignment :=
           div (Math_min densityRatio greenRatio)
               (Math_max densityRatio (add greenRatio (Num (1 # 100)))) in
         add totalScore alignment)
      lanes (Num 0) in
  mul (div totalScore (of_nat (List.length lanes))) (Num 100).

(** [series[lane]], the array of one lane. *)
Definition series (h : obj (list value)) (lane : string) : list value :=
  match lookup h lane with
  | Some l => l
  | None => []
  end.

(** [for (lane of this.lanes) series[lane].push(from[lane])] *)
Definition push_all (h : obj (list value)) (from : obj value) : obj (list value) :=
  fold_left (fun h lane => set h lane (series h lane ++ [get from lane])%list)
            lanes h.

(** [for (lane of this.lanes) series[lane].shift()] *)
Definition shift_all (h : obj (list value)) : obj (list value) :=
  fold_left (fun h lane => set h lane (tl (series h lane))) lanes h.

(** [addToHistory()] *)
Definition addToHistory (d : dashboard) : dashboard :=
  let h := hist d in
  let pushed :=
    {| timestamps := (timestamps h ++ [tt])%list;
       h_densities := push_all (h_densities h) (Simulator.st_densities (state d));
       h_greenTimes := push_all (h_greenTimes h) (Simulator.st_greenTimes (state d));
       efficiency := (efficiency h ++ [calculateEfficiency d])%list |} in
  {| state := state d;
     hist :=
       if Nat.ltb maxHistoryPoints (List.length (timestamps pushed))
       then {| timestamps := tl (timestamps pushed);
               h_densities := shift_all (h_densities pushed);
               h_greenTimes := shift_all (h_greenTimes pushed);
               efficiency := tl (efficiency pushed) |}
       else pushed |}.

(** [update(newState)] for a record of the simulator, which carries every
    key of the state, so the spread [{...this.state, ...newState}] is
    [newState].  The DOM and chart updates that follow are left out. *)
Definition update (d : dashboard) (newState : Simulator.tick_state) : dashboard :=
  addToHistory {| state := newState; hist := hist d |}.

(** [reset()] *)
Definition reset (d : dashboard) : dashboard := constructor.

(** The dashboard after the calls a simulator made on it, oldest first. *)
Definition receive (d : dashboard) (call : Simulator.dashboard_call) : dashboard :=
  match call with
  | Simulator.DashReset => reset d
  | Simulator.DashUpdate st => update d st
  end.

Definition replay (calls : list Simulator.dashboard_call) : dashboard :=
  fold_left receive calls constructor.

(** A dashboard that shows a perfect match on every lane: density 100,
    green for the whole 60 s cycle. *)
Definition perfect_match : dashboard :=
  update constructor
    {| Simulator.st_cycleCount := Num 0;
       Simulator.st_densities :=
         [("north", Num 100); ("south", Num 100); ("east", Num 100);
          ("west", Num 100)];
       Simulator.st_greenTimes :=
         [("north", Num 60); ("south", Num 60); ("east", Num 60);
          ("west", Num 60)];
       Simulator.st_signals :=
         [("north", Simulator.RED); ("south", Simulator.RED);
          ("east", Simulator.RED); ("west", Simulator.GREEN)];
       Simulator.st_messagesProcessed := Num 1;
       Simulator.st_elapsedTime := Num 2;
       Simulator.st_totalDuration := Num 0 |}.

(** All the arrays of a history have the length [n]. *)
Definition aligned (h : history) (n : nat) : Prop :=
  List.length (timestamps h) = n /\
  List.length (efficiency h) = n /\
  Forall (fun lane =>
            List.length (series (h_densities h) lane) = n /\
            List.length (series (h_greenTimes h) lane) = n) lanes.

End Dashboard.

(* ------------------------------------------------------------------ *)
(** ** InteractionManager (Interactions.js): the handlers of the controls *)

Module InteractionManager.
Import JS.

(** [handleDensityChange(lane, value)], for a slider value that is a
    number (or [undefined]): clamp, then override the lane's sensor if
    there is one.  The sensor object is changed in place, so it keeps its
    position among the sensors. *)
Definition handleDensityChange (s : Simulator.simulator) (lane : string)
           (v : value) : Simulator.simulator :=
  let percent :=
    VirtualSensor.clamp_percent (match v with Undefined => NaN | _ => v end) in
  match lookup (Simulator.sensors s) lane with
  | Some sensor =>
      {| Simulator.sensors :=
           set (Simulator.sensors s) lane (VirtualSensor.setDensity sensor percent);
         Simulator.controller := Simulator.controller s;
         Simulator.dashboard := Simulator.dashboard s;
         Simulator.isPaused := Simulator.isPaused s;
         Simulator.isRunning := Simulator.isRunning s;
         Simulator.speedMultiplier := Simulator.speedMultiplier s;
         Simulator.tickInterval := Simulator.tickInterval s;
         Simulator.intervalId := Simulator.intervalId s;
         Simulator.cycleCount := Simulator.cycleCount s;
         Simulator.simulationDurationSeconds := Simulator.simulationDurationSeconds s;
         Simulator.simulationStartTime := Simulator.simulationStartTime s;
         Simulator.elapsedTimeSeconds := Simulator.elapsedTimeSeconds s;
         Simulator.pausedAtSeconds := Simulator.pausedAtSeconds s |}
  | None => s
  end.

End InteractionManager.

(* ------------------------------------------------------------------ *)
(** ** Sequences of calls *)

Module Playback.
Import JS.

(** One call on a simulator, with what it reads from its environment. *)
Inductive op : Type :=
| Start (now durationSeconds : value)
| Tick (now : value) (rand : string -> value)
| Pause
| Resume (now : value)
| Stop
| Reset
| SetSpeed (multiplier : value)
| Step (now : value) (rand : string -> value).

Definition apply (s : Simulator.simulator) (o : op) : Simulator.simulator :=
  match o with
  | Start now d => Simulator.start s now d
  | Tick now rand => Simulator.tick s now rand
  | Pause => Simulator.pause s
  | Resume now => Simulator.resume s now
  | Stop => Simulator.stop s
  | Reset => Simulator.reset s
  | SetSpeed m => fst (Simulator.setSpeed s m)
  | Step now rand => Simulator.step s now rand
  end.

Definition run (s : Simulator.simulator) (ops : list op) : Simulator.simulator :=
  fold_left apply ops s.

(** The elapsed simulated time a tick at instant [now] computes. *)
Definition elapsed_at (s : Simulator.simulator) (now : value) : value :=
  mul (div (sub now (Simulator.startTime_number s)) (Num 1000))
      (Simulator.speedMultiplier s).

(** The test of [tick] for a finite duration that has run out. *)
Definition duration_reached (s : Simulator.simulator) (now : value) : bool :=
  gt (Simulator.simulationDurationSeconds s) (Num 0)
  && ge (elapsed_at s now) (Simulator.simulationDurationSeconds s).

(** The [setInterval] timer is live. *)
Definition timer_live (s : Simulator.simulator) : bool :=
  match Simulator.intervalId s with
  | Some _ => true
  | None => false
  end.

(** The record a tick at instant [now] hands to the dashboard, given the
    readings, the allocation and the signals of that tick. *)
Definition record (s : Simulator.simulator) (now : value)
           (densities greenTimes : obj value) (signals : obj Simulator.signal)
  : Simulator.tick_state :=
  {| Simulator.st_cycleCount := Simulator.cycleCount s;
     Simulator.st_densities := densities;
     Simulator.st_greenTimes := greenTimes;
     Simulator.st_signals := signals;
     Simulator.st_messagesProcessed := add (Simulator.cycleCount s) (Num 1);
     Simulator.st_elapsedTime := elapsed_at s now;
     Simulator.st_totalDuration := Simulator.simulationDurationSeconds s |}.

(** The cycle counter after a tick that handed the record [st] to the
    dashboard: one more when [update] returned, unchanged when it threw. *)
Definition counted (s : Simulator.simulator) (st : Simulator.tick_state) : value :=
  match snd (Simulator.dashboard_update (Simulator.dashboard s) st) with
  | Ok _ => add (Simulator.cycleCount s) (Num 1)
  | Throw _ => Simulator.cycleCount s
  end.

(** Each of the dashboard's four lanes has a sensor. *)
Definition every_lane_sensed (sensors : obj VirtualSensor.sensor) : bool :=
  Spec.subset Simulator.dashboard_lanes (keys sensors).

(** The number of records the dashboard received since it was last
    reset. *)
Definition updates_since_reset (log : list Simulator.dashboard_call) : nat :=
  fold_left (fun n call =>
               match call with
               | Simulator.DashReset => 0%nat
               | Simulator.DashUpdate _ => S n
               end) log 0%nat.

(** One call on a sensor: a sample with its hour and draw, or a reset. *)
Inductive sensor_op : Type :=
| Sample (hour randomGaussian : value)
| SensorReset.

(** The sensor after a sequence of calls, and the readings it returned,
    oldest first. *)
Fixpoint sensor_run (s : VirtualSensor.sensor) (ops : list sensor_op)
  : VirtualSensor.sensor * list value :=
  match ops with
  | [] => (s, [])
  | Sample hour g :: rest =>
      let (s', v) := VirtualSensor.generateDensity s hour g in
      let (s'', vs) := sensor_run s' rest in
      (s'', v :: vs)
  | SensorReset :: rest => sensor_run (VirtualSensor.reset s) rest
  end.

(** A sensor whose state holds numbers only: the coefficient, the
    accumulator once it exists, the override when there is one. *)
Definition numeric_sensor (s : VirtualSensor.sensor) : bool :=
  Spec.is_num (VirtualSensor.emaCoefficient s)
  && match VirtualSensor.smoothedDensity s with
     | Undefined => true
     | v => Spec.is_num v
     end
  && match VirtualSensor.overrideDensity s with
     | None => true
     | Some v => Spec.is_num v
     end.

(** Lane [a] may stand before lane [b] in an array sorted by reading,
    densest first: the reading of [b] is no larger than that of [a]. *)
Definition no_denser (d : obj value) (a b : string) : Prop :=
  le (get d b) (get d a) = true.

(** [v] is a number in [0, 100]. *)
Definition percent (v : value) : bool := le (Num 0) v && le v (Num 100).

End Playback.

(* ------------------------------------------------------------------ *)
(** * Properties *)

Unset Implicit Arguments.

Import JS.

(** Numbers stay as the operations left them while goals are simplified. *)
#[local] Arguments Qred : simpl never.

(** ** Behaviour on concrete runs *)

Section ConcreteRuns.
Import Examples.

(** The README scenario: readings 80, 20, 60, 40 on the Main.js controller.
    40 s are available; the clamped allocation is 16, 10, 12, 10 (sum 48);
    one walk over north, east, west, south takes one second from north and
    one from east. *)
Example readme_scenario :
  AdaptiveController.availableTime main_controller = Num 40 /\
  AdaptiveController.constrained main_controller
    (AdaptiveController.rawGreen main_controller (readings 80 20 60 40)
       (AdaptiveController.total_density (readings 80 20 60 40)))
  = [("north", Num 16); ("south", Num 10); ("east", Num 12); ("west", Num 10)] /\
  AdaptiveController.computeGreenTimes main_controller (AObj (readings 80 20 60 40))
  = (AdaptiveController.mkController (Num 60) (Num 10) (Num 60) (Num 3) (Num 2)
       ["north"; "east"; "west"; "south"],
     Ok [("north", Num 15); ("south", Num 10); ("east", Num 11); ("west", Num 10)]).
Proof. repeat split; vm_compute; reflexivity. Qed.

(** All readings zero: every lane gets [minGreen]. *)
Example zero_demand_scenario :
  AdaptiveController.computeGreenTimes main_controller (AObj (readings 0 0 0 0))
  = (main_controller,
     Ok [("north", Num 10); ("south", Num 10); ("east", Num 10); ("west", Num 10)]).
Proof. vm_compute. reflexivity. Qed.

(** Equal readings on the Main.js controller: the clamped allocation
    already sums to the 40 s available and is returned as it is. *)
Example balanced_scenario :
  AdaptiveController.computeGreenTimes main_controller (AObj (readings 50 50 50 50))
  = (main_controller,
     Ok [("north", Num 10); ("south", Num 10); ("east", Num 10); ("west", Num 10)]).
Proof. vm_compute. reflexivity. Qed.

(** C3 (failing input).  [updateConfig({minGreen: 70})] on the valid
    Main.js controller throws, yet the controller it leaves behind carries
    [minGreen = 70]: the rejected update is not undone, and the prior
    valid configuration is no longer in effect. *)
Theorem updateConfig_failed_update_is_kept :
  AdaptiveController._validateConfig main_controller = Ok tt /\
  snd (AdaptiveController.updateConfig main_controller [("minGreen", Num 70)])
    = Throw MinGreenNotLessThanMaxGreen /\
  AdaptiveController.getConfig
    (fst (AdaptiveController.updateConfig main_controller [("minGreen", Num 70)]))
    = [("cycleLength", Num 60); ("minGreen", Num 70); ("maxGreen", Num 60);
       ("yellowTime", Num 3); ("allRedTime", Num 2)] /\
  AdaptiveController.getConfig main_controller
    = [("cycleLength", Num 60); ("minGreen", Num 10); ("maxGreen", Num 60);
       ("yellowTime", Num 3); ("allRedTime", Num 2)].
Proof. repeat split; reflexivity. Qed.

(** C5 (failing input).  After one tick at 2 s and a pause, [start] at
    10 s leaves [simulationStartTime] where it was, so the tick at 12 s
    reports 12 s elapsed: the 8 s spent paused are counted.  [resume] at
    the same instant moves the start time, and the same tick reports
    4 s. *)
Theorem start_while_paused_counts_the_pause :
  Simulator.isPaused paused_after_one_tick = true /\
  Simulator.elapsedTimeSeconds paused_after_one_tick = Num 2 /\
  Simulator.elapsedTimeSeconds
    (Simulator.tick (Simulator.start paused_after_one_tick (Num 10000) Undefined)
                    (Num 12000) draws) = Num 12 /\
  Simulator.elapsedTimeSeconds
    (Simulator.tick (Simulator.resume paused_after_one_tick (Num 10000))
                    (Num 12000) draws) = Num 4.
Proof. repeat split; vm_compute; reflexivity. Qed.

(** C8 (failing input).  A fresh north sensor sampled at target 80, then
    [reset()], then sampled at target 20 returns 38 = 80 + 0.7 * (20 - 80):
    the accumulator survived the reset.  A sensor whose smoothing state is
    really fresh returns 20. *)
Theorem reset_keeps_smoothing_state :
  let sampled := fst (VirtualSensor.generateDensity (sensor_of "north" []) NaN (Num 80)) in
  VirtualSensor.smoothedDensity (VirtualSensor.reset sampled) = Num 80 /\
  VirtualSensor.lastDensity (VirtualSensor.reset sampled) = Num 50 /\
  VirtualSensor.overrideDensity (VirtualSensor.reset sampled) = None /\
  snd (VirtualSensor.generateDensity (VirtualSensor.reset sampled) NaN (Num 20)) = Num 38 /\
  snd (VirtualSensor.generateDensity (sensor_of "north" []) NaN (Num 20)) = Num 20.
Proof. repeat split; vm_compute; reflexivity. Qed.

(** C9 (failing input).  On the 90 s controller, equal readings give the
    two extra seconds to north and south.  After one earlier call with
    readings 10, 20, 30, 40, the configuration is the same but the lane
    array is west, east, south, north, and the same equal readings now
    give the extra seconds to west and east, with the keys of the result
    in the new order. *)
Theorem computeGreenTimes_depends_on_earlier_calls :
  let after := fst (AdaptiveController.computeGreenTimes
                      controller_90 (AObj (readings 10 20 30 40))) in
  AdaptiveController.getConfig after = AdaptiveController.getConfig controller_90 /\
  AdaptiveController.lanes controller_90 = ["north"; "south"; "east"; "west"] /\
  AdaptiveController.lanes after = ["west"; "east"; "south"; "north"] /\
  snd (AdaptiveController.computeGreenTimes controller_90 (AObj (readings 25 25 25 25)))
    = Ok [("north", Num 18); ("south", Num 18); ("east", Num 17); ("west", Num 17)] /\
  snd (AdaptiveController.computeGreenTimes after (AObj (readings 25 25 25 25)))
    = Ok [("west", Num 18); ("east", Num 18); ("south", Num 17); ("north", Num 17)].
Proof. repeat split; vm_compute; reflexivity. Qed.

(** C1 (failing input).  The controller built without a configuration, as
    in the README's own test, which is the controller of Main.js, and the
    readings 80, 20, 60, 40 of that test.  The configuration satisfies the
    invariant, the readings are numbers over the four lanes with a
    non-zero total, and 40 s are available.  The clamped allocation sums to
    48; the one walk of [_redistribute] takes a second from north and a
    second from east and returns 15, 10, 11, 10, which sums to 46: the
    README's assertion that the sum is 40 fails.  No bound is in the way:
    north and east are above [minGreen] and one second less keeps each in
    the green window.  The same walk run once more from what the first left
    lowers them again, and six walks in a row end, with no difference left,
    at 10, 10, 10, 10, whose sum is exactly 40. *)
Theorem computeGreenTimes_single_walk_misses_sum :
  let sorted :=
    AdaptiveController.mkController (Num 60) (Num 10) (Num 60) (Num 3) (Num 2)
      ["north"; "east"; "west"; "south"] in
  let clamped := [("north", Num 16); ("south", Num 10); ("east", Num 12);
                  ("west", Num 10)] in
  let returned := [("north", Num 15); ("south", Num 10); ("east", Num 11);
                   ("west", Num 10)] in
  AdaptiveController.constructor None = Ok main_controller /\
  Spec.config_invariant main_controller = true /\
  Spec.numeric_over_lanes (readings 80 20 60 40) = true /\
  AdaptiveController.total_density (readings 80 20 60 40) = Num 200 /\
  AdaptiveController.availableTime main_controller = Num 40 /\
  AdaptiveController.constrained main_controller
    (AdaptiveController.rawGreen main_controller (readings 80 20 60 40) (Num 200))
  = clamped /\
  AdaptiveController.computeGreenTimes main_controller (AObj (readings 80 20 60 40))
  = (sorted, Ok returned) /\
  AdaptiveController.sum_values returned = Num 46 /\
  strict_eq (AdaptiveController.sum_values returned)
            (AdaptiveController.availableTime main_controller) = false /\
  Spec.within_green main_controller (sub (get returned "north") (Num 1)) = true /\
  Spec.within_green main_controller (sub (get returned "east") (Num 1)) = true /\
  AdaptiveController.redistribute_loop sorted (AdaptiveController.lanes sorted)
    returned (Num (-6))
  = ([("north", Num 14); ("south", Num 10); ("east", Num 10); ("west", Num 10)],
     Num (-4)) /\
  walks 6 sorted (AdaptiveController.lanes sorted) clamped (Num (-8))
  = ([("north", Num 10); ("south", Num 10); ("east", Num 10); ("west", Num 10)],
     Num 0) /\
  AdaptiveController.sum_values
    (fst (walks 6 sorted (AdaptiveController.lanes sorted) clamped (Num (-8))))
  = AdaptiveController.availableTime main_controller.
Proof. cbv zeta. repeat split; vm_compute; reflexivity. Qed.

(** The case of lanes pinned at a bound.  A valid configuration (200 s
    cycle, green in [10, 20]) and non-zero readings: 180 s are available,
    every lane is clamped to 20 and cannot be raised, and the allocation
    sums to 80. *)
Example pinned_lanes_scenario :
  Spec.config_invariant narrow_controller = true /\
  Spec.numeric_over_lanes (readings 25 25 25 25) = true /\
  strict_eq (AdaptiveController.total_density (readings 25 25 25 25)) (Num 0) = false /\
  AdaptiveController.availableTime narrow_controller = Num 180 /\
  exists g,
    snd (AdaptiveController.computeGreenTimes narrow_controller
           (AObj (readings 25 25 25 25))) = Ok g /\
    AdaptiveController.sum_values g = Num 80 /\
    strict_eq (AdaptiveController.sum_values g)
              (AdaptiveController.availableTime narrow_controller) = false.
Proof.
  repeat split; try (vm_compute; reflexivity).
  eexists; repeat split; vm_compute; reflexivity.
Qed.

(** C6 (counterexample).  Two ticks of the Main.js controller.  Equal
    readings give every lane 10 s, so all four lanes tie for the largest
    allocation.  On a fresh controller the allocation is keyed north,
    south, east, west and [_computeSignals] marks west, the lane that comes
    last.  After one earlier call with the readings 80, 20, 60, 40 the
    same equal readings give the same 10 s to every lane, keyed north,
    east, west, south, and [_computeSignals] marks south.  So no rule that
    picks the active lane from the allocations of north, south, east and
    west - the largest one, a tie going by a fixed order of the lanes -
    agrees with [_computeSignals]. *)
Lemma tie_break_counterexample :
  let fresh := [("north", Num 10); ("south", Num 10); ("east", Num 10);
                ("west", Num 10)] in
  let later := [("north", Num 10); ("east", Num 10); ("west", Num 10);
                ("south", Num 10)] in
  snd (AdaptiveController.computeGreenTimes main_controller
         (AObj (readings 50 50 50 50))) = Ok fresh /\
  snd (AdaptiveController.computeGreenTimes
         (fst (AdaptiveController.computeGreenTimes main_controller
                 (AObj (readings 80 20 60 40))))
         (AObj (readings 50 50 50 50))) = Ok later /\
  Spec.numeric_over_lanes fresh = true /\
  Spec.numeric_over_lanes later = true /\
  Forall (fun lane => get fresh lane = get later lane) Spec.lane_names /\
  Simulator._computeSignals fresh
  = Ok [("north", Simulator.RED); ("south", Simulator.RED);
        ("east", Simulator.RED); ("west", Simulator.GREEN)] /\
  Simulator._computeSignals later
  = Ok [("north", Simulator.RED); ("east", Simulator.RED);
        ("west", Simulator.RED); ("south", Simulator.GREEN)] /\
  ~ (exists rule : value -> value -> value -> value -> string,
       forall (g : obj value) (signals : obj Simulator.signal),
         Spec.numeric_over_lanes g = true ->
         Simulator._computeSignals g = Ok signals ->
         lookup signals (rule (get g "north") (get g "south")
                              (get g "east") (get g "west"))
         = Some Simulator.GREEN).
Proof.
  cbv zeta. repeat split; try (vm_compute; reflexivity).
  - repeat constructor.
  - intros [rule H].
    assert (Ef : Simulator._computeSignals
                   [("north", Num 10); ("south", Num 10); ("east", Num 10);
                    ("west", Num 10)]
                 = Ok [("north", Simulator.RED); ("south", Simulator.RED);
                       ("east", Simulator.RED); ("west", Simulator.GREEN)])
      by (vm_compute; reflexivity).
    assert (El : Simulator._computeSignals
                   [("north", Num 10); ("east", Num 10); ("west", Num 10);
                    ("south", Num 10)]
                 = Ok [("north", Simulator.RED); ("east", Simulator.RED);
                       ("west", Simulator.RED); ("south", Simulator.GREEN)])
      by (vm_compute; reflexivity).
    apply H in Ef; [|reflexivity]. apply H in El; [|reflexivity].
    rename Ef into Hfresh, El into Hlater.
    change (get _ "north") with (Num 10) in Hfresh, Hlater.
    change (get _ "south") with (Num 10) in Hfresh, Hlater.
    change (get _ "east") with (Num 10) in Hfresh, Hlater.
    change (get _ "west") with (Num 10) in Hfresh, Hlater.
    cbn [lookup] in Hfresh, Hlater.
    destruct (String.eqb "north" (rule (Num 10) (Num 10) (Num 10) (Num 10)));
      [discriminate|].
    destruct (String.eqb "east" (rule (Num 10) (Num 10) (Num 10) (Num 10)));
      [destruct (String.eqb "south" _); discriminate|].
    destruct (String.eqb "west" (rule (Num 10) (Num 10) (Num 10) (Num 10)));
      [discriminate|].
    destruct (String.eqb "south" (rule (Num 10) (Num 10) (Num 10) (Num 10)));
      discriminate.
Qed.

(** C7 (counterexample).  A reading set without the west key, one with a
    fifth key, and one whose south reading is [undefined] are all
    accepted: each call returns an allocation, none throws. *)
Lemma malformed_readings_counterexample :
  Spec.numeric_over_lanes [("north", Num 80); ("south", Num 20); ("east", Num 60)] = false /\
  snd (AdaptiveController.computeGreenTimes main_controller
         (AObj [("north", Num 80); ("south", Num 20); ("east", Num 60)]))
    = Ok [("north", Num 20); ("south", Num 10); ("east", Num 15); ("west", NaN)] /\
  Spec.numeric_over_lanes [("north", Num 80); ("south", Num 20); ("east", Num 60);
                    ("west", Num 40); ("up", Num 50)] = false /\
  snd (AdaptiveController.computeGreenTimes main_controller
         (AObj [("north", Num 80); ("south", Num 20); ("east", Num 60);
                ("west", Num 40); ("up", Num 50)]))
    = Ok [("north", Num 11); ("south", Num 10); ("east", Num 10); ("west", Num 10)] /\
  Spec.numeric_over_lanes [("north", Num 80); ("south", Undefined); ("east", Num 60);
                    ("west", Num 40)] = false /\
  snd (AdaptiveController.computeGreenTimes main_controller
         (AObj [("north", Num 80); ("south", Undefined); ("east", Num 60);
                ("west", Num 40)]))
    = Ok [("north", NaN); ("south", NaN); ("east", NaN); ("west", NaN)].
Proof. repeat split; vm_compute; reflexivity. Qed.

End ConcreteRuns.

(** ** The scheduler *)

(** C4 (failing behaviour).  [step()] never runs a cycle.  Outside
    Paused-and-Running it returns at its own guard; inside, it calls
    [tick()], whose first statement returns because the simulator is
    paused.  In every state, at every instant and for every draw, the
    simulator is left exactly as it was: no sensor sampled, no record
    emitted, cycle counter unchanged. *)
Theorem step_never_runs_a_cycle :
  forall (s : Simulator.simulator) (now : value) (rand : string -> value),
    Simulator.step s now rand = s.
Proof.
  intros s now rand. unfold Simulator.step, Simulator.tick.
  destruct (Simulator.isPaused s), (Simulator.isRunning s); reflexivity.
Qed.

(** ** Facts about numbers *)

Section NumberFacts.

Lemma Qle_bool_false (x y : Q) : Qle_bool x y = false -> y < x.
Proof.
  intros H. apply Qnot_le_lt. intros Hle.
  apply Qle_bool_iff in Hle. congruence.
Qed.

Lemma le_true (a b : value) :
  le a b = true <-> exists x y, a = Num x /\ b = Num y /\ x <= y.
Proof.
  split.
  - destruct a as [| |x], b as [| |y]; simpl; try discriminate.
    intros H. exists x, y. rewrite Qle_bool_iff in H. auto.
  - intros (x & y & -> & -> & H). simpl. now apply Qle_bool_iff.
Qed.

Lemma lt_true (a b : value) :
  lt a b = true <-> exists x y, a = Num x /\ b = Num y /\ x < y.
Proof.
  split.
  - destruct a as [| |x], b as [| |y]; simpl; try discriminate.
    intros H. exists x, y. apply negb_true_iff, Qle_bool_false in H. auto.
  - intros (x & y & -> & -> & H). simpl. apply negb_true_iff.
    destruct (Qle_bool y x) eqn:E; [|reflexivity].
    apply Qle_bool_iff in E. lra.
Qed.

Lemma lt_false_num (x y : Q) : lt (Num x) (Num y) = false -> y <= x.
Proof.
  simpl. intros H. apply negb_false_iff in H. now apply Qle_bool_iff.
Qed.

Lemma denotes_num (q : Q) : Spec.denotes (Num q) q.
Proof. exists q. split; [reflexivity | apply Qeq_refl]. Qed.

Lemma denotes_add (a b : value) (x y : Q) :
  Spec.denotes a x -> Spec.denotes b y -> Spec.denotes (add a b) (x + y).
Proof.
  intros (x' & -> & Hx) (y' & -> & Hy). simpl. unfold num.
  eexists. split; [reflexivity|]. rewrite Qred_correct, Hx, Hy. reflexivity.
Qed.

Lemma denotes_sub (a b : value) (x y : Q) :
  Spec.denotes a x -> Spec.denotes b y -> Spec.denotes (sub a b) (x - y).
Proof.
  intros (x' & -> & Hx) (y' & -> & Hy). simpl. unfold num.
  eexists. split; [reflexivity|]. rewrite Qred_correct, Hx, Hy. reflexivity.
Qed.

Lemma denotes_mul (a b : value) (x y : Q) :
  Spec.denotes a x -> Spec.denotes b y -> Spec.denotes (mul a b) (x * y).
Proof.
  intros (x' & -> & Hx) (y' & -> & Hy). simpl. unfold num.
  eexists. split; [reflexivity|]. rewrite Qred_correct, Hx, Hy. reflexivity.
Qed.

Lemma denotes_eq (v : value) (x y : Q) :
  Spec.denotes v x -> x == y -> Spec.denotes v y.
Proof.
  intros (x' & -> & Hx) Hxy. exists x'. split; [reflexivity|].
  now rewrite Hx.
Qed.

Lemma is_num_true (v : value) : Spec.is_num v = true <-> exists q, v = Num q.
Proof.
  destruct v; simpl; split; try discriminate; eauto.
  - intros (q & H). discriminate.
  - intros (q & H). discriminate.
Qed.

(** Numbers are closed under the four operations the engine uses, division
    by a non-zero number included. *)
Lemma add_num_inv (a b : value) (z : Q) :
  add a b = Num z -> exists x y, a = Num x /\ b = Num y.
Proof. destruct a, b; simpl; try discriminate; eauto. Qed.

Lemma mul_num_inv (a b : value) (z : Q) :
  mul a b = Num z -> exists x y, a = Num x /\ b = Num y.
Proof. destruct a, b; simpl; try discriminate; eauto. Qed.

Lemma mul_num (x y : Q) : exists z, mul (Num x) (Num y) = Num z.
Proof. simpl. unfold num. eauto. Qed.

Lemma div_num (x y : Q) :
  strict_eq (Num y) (Num 0) = false -> exists z, div (Num x) (Num y) = Num z.
Proof. simpl. intros ->. unfold num. eauto. Qed.

(** The clamp of step 3 lands in the interval as soon as the interval is
    not empty. *)
Lemma clamp_within (m M q : Q) :
  m <= M ->
  exists r, Math_max (Num m) (Math_min (Num M) (Num q)) = Num r /\ m <= r <= M.
Proof.
  intros HmM. simpl.
  destruct (Qle_bool M q) eqn:E1.
  - apply Qle_bool_iff in E1.
    destruct (Qle_bool m M) eqn:E2; eexists; (split; [reflexivity|]);
      [ lra | apply Qle_bool_false in E2; lra ].
  - apply Qle_bool_false in E1.
    destruct (Qle_bool m q) eqn:E2; eexists; (split; [reflexivity|]).
    + apply Qle_bool_iff in E2. lra.
    + apply Qle_bool_false in E2. lra.
Qed.

End NumberFacts.

(** ** Facts about objects *)

Section ObjectFacts.

Context {A : Type}.
Implicit Types (o : obj A) (k : string) (v : A).

Lemma lookup_set_same o k v : lookup (set o k v) k = Some v.
Proof.
  induction o as [|[k' v'] o IH]; simpl.
  - now rewrite String.eqb_refl.
  - destruct (String.eqb k' k) eqn:E; simpl; rewrite E; auto.
Qed.

Lemma lookup_set_other o k k' v :
  k <> k' -> lookup (set o k v) k' = lookup o k'.
Proof.
  intros Hne. induction o as [|[k0 v0] o IH]; simpl.
  - apply String.eqb_neq in Hne. now rewrite Hne.
  - destruct (String.eqb k0 k) eqn:E; simpl.
    + apply String.eqb_eq in E. subst k0.
      apply String.eqb_neq in Hne. now rewrite Hne.
    + destruct (String.eqb k0 k'); auto.
Qed.

Lemma in_keys_set o k v x :
  In x (keys (set o k v)) <-> x = k \/ In x (keys o).
Proof.
  induction o as [|[k0 v0] o IH]; simpl.
  - intuition.
  - destruct (String.eqb k0 k) eqn:E; simpl.
    + apply String.eqb_eq in E. subst k0. intuition.
    + rewrite IH. intuition.
Qed.

Lemma keys_set_present o k v : In k (keys o) -> keys (set o k v) = keys o.
Proof.
  induction o as [|[k0 v0] o IH]; simpl; [tauto|].
  intros H. destruct (String.eqb k0 k) eqn:E; simpl; [reflexivity|].
  f_equal. apply IH. destruct H as [H|H]; [|assumption].
  subst k0. rewrite String.eqb_refl in E. discriminate.
Qed.

Lemma keys_set_absent o k v :
  ~ In k (keys o) -> keys (set o k v) = (keys o ++ [k])%list.
Proof.
  induction o as [|[k0 v0] o IH]; simpl; [reflexivity|].
  intros H. destruct (String.eqb k0 k) eqn:E; simpl.
  - apply String.eqb_eq in E. tauto.
  - f_equal. apply IH. tauto.
Qed.

Lemma lookup_some_in o k v : lookup o k = Some v -> In (k, v) o.
Proof.
  induction o as [|[k0 v0] o IH]; simpl; [discriminate|].
  destruct (String.eqb k0 k) eqn:E.
  - apply String.eqb_eq in E. intros [= ->]. subst. now left.
  - intros H. right. auto.
Qed.

Lemma in_keys_lookup o k : In k (keys o) -> exists v, lookup o k = Some v.
Proof.
  induction o as [|[k0 v0] o IH]; simpl; [tauto|].
  intros H. destruct (String.eqb k0 k) eqn:E; [eauto|].
  destruct H as [H|H]; [|auto].
  subst k0. rewrite String.eqb_refl in E. discriminate.
Qed.

Lemma set_Forall (P : A -> Prop) o k v :
  P v -> Forall (fun kv => P (snd kv)) o ->
  Forall (fun kv => P (snd kv)) (set o k v).
Proof.
  intros Hv. induction 1 as [|[k0 v0] o H0 H IH]; simpl.
  - constructor; [assumption | constructor].
  - destruct (String.eqb k0 k); constructor; auto.
Qed.

(** The loops of the form [for (lane of ls) o[lane] = f(lane)]. *)
Section Build.

Variable f : string -> A.

Lemma build_lookup_absent ls : forall acc k,
  ~ In k ls -> lookup (fold_left (fun o lane => set o lane (f lane)) ls acc) k = lookup acc k.
Proof.
  induction ls as [|l ls IH]; intros acc k Hk; simpl; [reflexivity|].
  rewrite IH by (simpl in Hk; tauto).
  apply lookup_set_other. simpl in Hk. intuition.
Qed.

Lemma build_lookup ls : forall acc k,
  In k ls -> lookup (fold_left (fun o lane => set o lane (f lane)) ls acc) k = Some (f k).
Proof.
  induction ls as [|l ls IH]; intros acc k Hk; simpl; [destruct Hk|].
  destruct (in_dec string_dec k ls) as [Hin|Hout].
  - now apply IH.
  - destruct Hk as [->|Hk]; [|tauto].
    rewrite build_lookup_absent by assumption.
    apply lookup_set_same.
Qed.

Lemma build_keys ls : forall acc x,
  In x (keys (fold_left (fun o lane => set o lane (f lane)) ls acc)) <-> In x (keys acc) \/ In x ls.
Proof.
  induction ls as [|l ls IH]; intros acc x; simpl; [tauto|].
  rewrite IH, in_keys_set. intuition.
Qed.

Lemma build_keys_nodup ls : forall acc,
  NoDup ls -> (forall x, In x ls -> ~ In x (keys acc)) ->
  keys (fold_left (fun o lane => set o lane (f lane)) ls acc) = (keys acc ++ ls)%list.
Proof.
  induction ls as [|l ls IH]; intros acc Hnd Hdisj; simpl.
  - now rewrite app_nil_r.
  - inversion Hnd as [|? ? Hl Hnd']; subst.
    rewrite IH; [| assumption |].
    + rewrite keys_set_absent by (apply Hdisj; now left).
      now rewrite <- app_assoc.
    + intros x Hx Hin. apply in_keys_set in Hin.
      destruct Hin as [->|Hin]; [tauto|].
      apply (Hdisj x); [now right | assumption].
Qed.

Lemma build_Forall (P : A -> Prop) ls : forall acc,
  (forall l, In l ls -> P (f l)) ->
  Forall (fun kv => P (snd kv)) acc ->
  Forall (fun kv => P (snd kv)) (fold_left (fun o lane => set o lane (f lane)) ls acc).
Proof.
  induction ls as [|l ls IH]; intros acc Hf Hacc; simpl; [assumption|].
  apply IH.
  - intros l' Hl'. apply Hf. now right.
  - apply set_Forall; [apply Hf; now left | assumption].
Qed.

End Build.

End ObjectFacts.

Section LaneSetFacts.

Lemma includes_true (l : list string) (x : string) :
  includes l x = true <-> In x l.
Proof.
  unfold includes. rewrite existsb_exists. split.
  - intros (y & Hy & E). apply String.eqb_eq in E. now subst.
  - intros H. exists x. split; [assumption | apply String.eqb_refl].
Qed.

Lemma nodupb_true (l : list string) : Spec.nodupb l = true -> NoDup l.
Proof.
  induction l as [|x l IH]; simpl; [constructor|].
  intros H. apply andb_true_iff in H. destruct H as [Hx Hl].
  constructor; [|auto].
  intros Hin. apply includes_true in Hin. rewrite Hin in Hx. discriminate.
Qed.

Lemma subset_true (a b : list string) :
  Spec.subset a b = true -> forall x, In x a -> In x b.
Proof.
  unfold Spec.subset. rewrite forallb_forall. intros H x Hx.
  apply includes_true. auto.
Qed.

Lemma same_lanes_true (ks ls : list string) :
  Spec.same_lanes ks ls = true ->
  NoDup ks /\ forall x, In x ks <-> In x ls.
Proof.
  unfold Spec.same_lanes. intros H.
  apply andb_true_iff in H. destruct H as [H H3].
  apply andb_true_iff in H. destruct H as [H1 H2].
  split; [now apply nodupb_true|].
  intros x. split; eapply subset_true; eassumption.
Qed.

(** Every lane of an object of numbers over the four lanes reads a
    number. *)
Lemma numeric_over_lanes_get (d : obj value) :
  Spec.numeric_over_lanes d = true ->
  forall lane, In lane Spec.lane_names -> exists q, get d lane = Num q.
Proof.
  unfold Spec.numeric_over_lanes. intros H lane Hlane.
  apply andb_true_iff in H. destruct H as [Hk Hv].
  apply same_lanes_true in Hk. destruct Hk as [_ Hk].
  apply Hk, in_keys_lookup in Hlane. destruct Hlane as (v & Hv').
  unfold get. rewrite Hv'.
  apply lookup_some_in in Hv'.
  rewrite forallb_forall in Hv.
  apply is_num_true, Hv. unfold values.
  change v with (snd (lane, v)). now apply in_map.
Qed.

End LaneSetFacts.

(** ** The allocation engine *)

Section AllocationFacts.

Import AdaptiveController.

Variable c : controller.

Lemma fold_add_numeric (vs : list value) : forall acc : Q,
  forallb Spec.is_num vs = true ->
  exists t, fold_left (fun sum d => add sum d) vs (Num acc) = Num t.
Proof.
  induction vs as [|v vs IH]; intros acc H; simpl; [eauto|].
  simpl in H. apply andb_true_iff in H. destruct H as [Hv Hvs].
  apply is_num_true in Hv. destruct Hv as (q & ->).
  simpl. unfold num. now apply IH.
Qed.

Lemma config_invariant_fields :
  Spec.config_invariant c = true ->
  exists m M a,
    minGreen c = Num m /\ maxGreen c = Num M /\ m < M /\
    availableTime c = Num a.
Proof.
  unfold Spec.config_invariant. intros H.
  apply andb_true_iff in H. destruct H as [Hlt Hle].
  apply lt_true in Hlt. destruct Hlt as (m & M & Hm & HM & HmM).
  apply le_true in Hle. destruct Hle as (x & y & Hx & Hy & _).
  apply add_num_inv in Hx. destruct Hx as (x1 & x2 & Hx1 & _).
  apply mul_num_inv in Hx1. destruct Hx1 as (n & yr & _ & Hyr).
  exists m, M. unfold availableTime. rewrite Hyr, Hy.
  unfold lanes_length, of_nat. simpl. unfold num. eauto.
Qed.

(** Within one controller state the green window is what the guard of the
    redistribution loop tests. *)
Lemma within_green_guard (v : value) :
  ge v (minGreen c) && le v (maxGreen c) = Spec.within_green c v.
Proof. reflexivity. Qed.

Lemma redistribute_loop_within (ls : list string) :
  forall (g : obj value) (diff : value),
    Forall (fun kv => Spec.within_green c (snd kv) = true) g ->
    Forall (fun kv => Spec.within_green c (snd kv) = true)
           (fst (redistribute_loop c ls g diff)).
Proof.
  induction ls as [|lane ls IH]; intros g diff Hg; simpl; [assumption|].
  destruct (strict_eq diff (Num 0)); [assumption|].
  rewrite within_green_guard.
  destruct (Spec.within_green c (add (get g lane) (Math_sign diff))) eqn:E.
  - apply IH. apply (set_Forall (fun v => Spec.within_green c v = true)); assumption.
  - now apply IH.
Qed.

Lemma redistribute_loop_keys (ls : list string) :
  forall (g : obj value) (diff : value) (x : string),
    In x (keys g) -> In x (keys (fst (redistribute_loop c ls g diff))).
Proof.
  induction ls as [|lane ls IH]; intros g diff x Hx; simpl; [assumption|].
  destruct (strict_eq diff (Num 0)); [assumption|].
  destruct (ge _ _ && le _ _); apply IH; [|assumption].
  apply in_keys_set. now right.
Qed.

(** The walk creates no key but those of the lanes it visits. *)
Lemma redistribute_loop_keys_from (ls : list string) :
  forall (g : obj value) (diff : value) (x : string),
    In x (keys (fst (redistribute_loop c ls g diff))) ->
    In x (keys g) \/ In x ls.
Proof.
  induction ls as [|lane ls IH]; intros g diff x Hx; simpl in *; [tauto|].
  destruct (strict_eq diff (Num 0)); [tauto|].
  destruct (ge _ _ && le _ _); apply IH in Hx.
  - destruct Hx as [Hx|Hx]; [|tauto].
    apply in_keys_set in Hx. destruct Hx as [->|Hx]; tauto.
  - tauto.
Qed.

(** The three loops over [this.lanes]. *)
Lemma rawGreen_get (d : obj value) (total : value) (lane : string) :
  In lane (lanes c) ->
  get (rawGreen c d total) lane
  = mul (div (get d lane) total) (availableTime c).
Proof.
  intros H. unfold get at 1, rawGreen.
  now rewrite (build_lookup
                 (fun l => mul (div (get d l) total) (availableTime c))).
Qed.

Lemma constrained_get (raw : obj value) (lane : string) :
  In lane (lanes c) ->
  get (constrained c raw) lane
  = Math_max (minGreen c) (Math_min (maxGreen c) (Math_floor (get raw lane))).
Proof.
  intros H. unfold get at 1, constrained.
  now rewrite (build_lookup
                 (fun l => Math_max (minGreen c)
                             (Math_min (maxGreen c) (Math_floor (get raw l))))).
Qed.

Lemma within_green_num (m M q : Q) :
  minGreen c = Num m -> maxGreen c = Num M -> m <= q <= M ->
  Spec.within_green c (Num q) = true.
Proof.
  intros Hm HM [H1 H2]. unfold Spec.within_green. rewrite Hm, HM. simpl.
  apply andb_true_iff. split; now apply Qle_bool_iff.
Qed.

(** Every entry of the clamped allocation is in the green window, whenever
    the readings are numbers with a non-zero total. *)
Lemma constrained_within (d : obj value) :
  Spec.config_invariant c = true ->
  (forall lane, In lane (lanes c) -> exists q, get d lane = Num q) ->
  forallb Spec.is_num (values d) = true ->
  strict_eq (total_density d) (Num 0) = false ->
  Forall (fun kv => Spec.within_green c (snd kv) = true)
         (constrained c (rawGreen c d (total_density d))).
Proof.
  intros Hc Hd Hnum Hz.
  destruct (config_invariant_fields Hc) as (m & M & a & Hm & HM & HmM & Ha).
  destruct (fold_add_numeric (values d) 0 Hnum) as (t & Ht).
  fold (total_density d) in Ht.
  unfold constrained.
  apply (build_Forall _ (fun v => Spec.within_green c v = true));
    [|constructor].
  intros lane Hlane.
  rewrite rawGreen_get by assumption.
  destruct (Hd lane Hlane) as (q & ->).
  rewrite Ht in Hz |- *.
  destruct (div_num q t Hz) as (z & ->).
  rewrite Ha, Hm, HM.
  destruct (mul_num z a) as (w & ->).
  change (Math_floor (Num w)) with (Num (inject_Z (Qfloor w))).
  destruct (clamp_within m M (inject_Z (Qfloor w)) (Qlt_le_weak _ _ HmM))
    as (r & -> & Hr).
  eapply within_green_num; eauto.
Qed.

End AllocationFacts.

Section RedistributeFacts.

Import AdaptiveController.

Variable c : controller.

Lemma redistribute_within (g : obj value) (target : value) (d : obj value) :
  Forall (fun kv => Spec.within_green c (snd kv) = true) g ->
  Forall (fun kv => Spec.within_green c (snd kv) = true)
         (snd (_redistribute c g target d))
  /\ forall x, In x (keys g) -> In x (keys (snd (_redistribute c g target d))).
Proof.
  intros Hg. unfold _redistribute.
  destruct (strict_eq (sub target (sum_values g)) (Num 0)); simpl; [tauto|].
  split.
  - apply (redistribute_loop_within
             (mkController (cycleLength c) (minGreen c) (maxGreen c)
                (yellowTime c) (allRedTime c)
                (sort (by_density_desc d) (lanes c)))).
    exact Hg.
  - intros x. apply redistribute_loop_keys.
Qed.

Lemma within_get (g : obj value) (lane : string) :
  Forall (fun kv => Spec.within_green c (snd kv) = true) g ->
  In lane (keys g) ->
  Spec.within_green c (get g lane) = true.
Proof.
  intros Hg Hin. apply in_keys_lookup in Hin. destruct Hin as (v & Hv).
  unfold get. rewrite Hv. apply lookup_some_in in Hv.
  rewrite Forall_forall in Hg. exact (Hg _ Hv).
Qed.

(** The fallback allocation of the zero-traffic case. *)
Lemma fallback_get (lane : string) :
  In lane (lanes c) ->
  get (fold_left (fun o l => set o l (minGreen c)) (lanes c) []) lane
  = minGreen c.
Proof.
  intros H. unfold get.
  now rewrite (build_lookup (fun _ : string => minGreen c)).
Qed.

End RedistributeFacts.

(** ** The controller's lane array *)

Section LaneArray.

Import AdaptiveController.

Lemma insert_permutation (cmp : string -> string -> value) (x : string)
      (l : list string) :
  Permutation (insert cmp x l) (x :: l).
Proof.
  induction l as [|y l IH]; cbn [insert]; [reflexivity|].
  destruct (gt (cmp x y) (Num 0)); [|reflexivity].
  rewrite IH. apply perm_swap.
Qed.

Lemma sort_permutation (cmp : string -> string -> value) (l : list string) :
  Permutation (sort cmp l) l.
Proof.
  induction l as [|x l IH]; simpl; [reflexivity|].
  rewrite insert_permutation. now constructor.
Qed.

Lemma nodupb_complete (l : list string) : NoDup l -> Spec.nodupb l = true.
Proof.
  induction 1 as [|x l Hx Hl IH]; simpl; [reflexivity|].
  rewrite IH, andb_true_r. apply negb_true_iff.
  destruct (includes l x) eqn:E; [|reflexivity].
  apply includes_true in E. contradiction.
Qed.

Lemma same_lanes_complete (ks ls : list string) :
  NoDup ks -> (forall x, In x ks <-> In x ls) -> Spec.same_lanes ks ls = true.
Proof.
  intros Hnd Hin. unfold Spec.same_lanes, Spec.subset.
  rewrite (nodupb_complete ks Hnd). simpl.
  apply andb_true_iff. split; apply forallb_forall; intros x Hx;
    apply includes_true; now apply Hin.
Qed.

(** The constructor installs the four lanes, and no method changes more
    than their order. *)
Lemma constructor_lanes_known (config : option (obj value)) (c : controller) :
  constructor config = Ok c -> Spec.lanes_known c = true.
Proof.
  unfold constructor. destruct (_validateConfig _); [|discriminate].
  intros [= <-]. reflexivity.
Qed.

Lemma computeGreenTimes_lanes_known (c : controller) (a : arg) :
  Spec.lanes_known c = true ->
  Spec.lanes_known (fst (computeGreenTimes c a)) = true.
Proof.
  intros H. destruct a as [v| |d]; try exact H.
  unfold computeGreenTimes.
  destruct (strict_eq (total_density d) (Num 0)); [exact H|].
  unfold _redistribute.
  destruct (strict_eq _ (Num 0)); [exact H|].
  cbn [fst]. unfold Spec.lanes_known in *. cbn [lanes].
  apply same_lanes_true in H. destruct H as [Hnd Hin].
  pose proof (sort_permutation (by_density_desc d) (lanes c)) as Hp.
  apply same_lanes_complete.
  - apply (Permutation_NoDup (Permutation_sym Hp) Hnd).
  - intros x. rewrite <- Hin. split; apply Permutation_in;
      [assumption | now apply Permutation_sym].
Qed.

Lemma updateConfig_lanes (c : controller) (newConfig : obj value) :
  lanes (fst (updateConfig c newConfig)) = lanes c.
Proof. reflexivity. Qed.

End LaneArray.

Section AllocationBounds.

Import AdaptiveController.

(** C2.  For every configuration that satisfies the invariant and every
    reading set of numbers over the four lanes, [computeGreenTimes] returns
    an allocation, and the value of every lane is a number in
    [minGreen, maxGreen]: in the zero-total fallback, after the clamping
    step, and after redistribution. *)
Theorem allocation_within_bounds (c : controller) (d : obj value) :
  Spec.config_invariant c = true ->
  Spec.lanes_known c = true ->
  Spec.numeric_over_lanes d = true ->
  exists c' g,
    computeGreenTimes c (AObj d) = (c', Ok g) /\
    (forall lane, In lane Spec.lane_names ->
       Spec.within_green c (get g lane) = true) /\
    (strict_eq (total_density d) (Num 0) = false ->
     forall lane, In lane Spec.lane_names ->
       Spec.within_green c
         (get (constrained c (rawGreen c d (total_density d))) lane) = true).
Proof.
  intros Hc Hl Hd.
  apply same_lanes_true in Hl. destruct Hl as [_ Hl].
  assert (Hget : forall lane, In lane (lanes c) -> exists q, get d lane = Num q).
  { intros lane Hlane. apply (numeric_over_lanes_get d Hd). now apply Hl. }
  assert (Hnum : forallb Spec.is_num (values d) = true).
  { unfold Spec.numeric_over_lanes in Hd. now apply andb_true_iff in Hd. }
  destruct (config_invariant_fields c Hc) as (m & M & a & Hm & HM & HmM & Ha).
  unfold computeGreenTimes.
  destruct (strict_eq (total_density d) (Num 0)) eqn:Ez.
  - eexists; eexists. split; [reflexivity|]. split; [|discriminate].
    intros lane Hlane. rewrite fallback_get by now apply Hl.
    rewrite Hm. eapply within_green_num; eauto. lra.
  - pose proof (constrained_within c d Hc Hget Hnum Ez) as Hcon.
    assert (Hkeys : forall lane, In lane Spec.lane_names ->
              In lane (keys (constrained c (rawGreen c d (total_density d))))).
    { intros lane Hlane. unfold constrained.
      apply build_keys. right. now apply Hl. }
    destruct (redistribute_within c _ (availableTime c) d Hcon) as [Hw Hk].
    destruct (_redistribute c (constrained c (rawGreen c d (total_density d)))
                (availableTime c) d) as [c' g].
    simpl in Hw, Hk.
    exists c', g. split; [reflexivity|]. split.
    + intros lane Hlane. apply within_get; auto.
    + intros _ lane Hlane. apply within_get; auto.
Qed.

(** The Main.js controller with readings 80, 20, 60, 40. *)
Lemma allocation_within_bounds_witness :
  exists c' g,
    computeGreenTimes Examples.main_controller
      (AObj (Examples.readings 80 20 60 40)) = (c', Ok g) /\
    (forall lane, In lane Spec.lane_names ->
       Spec.within_green Examples.main_controller (get g lane) = true) /\
    (strict_eq (total_density (Examples.readings 80 20 60 40)) (Num 0) = false ->
     forall lane, In lane Spec.lane_names ->
       Spec.within_green Examples.main_controller
         (get (constrained Examples.main_controller
                 (rawGreen Examples.main_controller
                    (Examples.readings 80 20 60 40)
                    (total_density (Examples.readings 80 20 60 40)))) lane)
       = true).
Proof.
  apply (allocation_within_bounds Examples.main_controller
           (Examples.readings 80 20 60 40)); vm_compute; reflexivity.
Defined.

End AllocationBounds.

Section InputChecks.

Import AdaptiveController.

(** C7 (amended).  [computeGreenTimes] fails, with the error "Densities
    must be an object", when its argument is not an object ([undefined],
    [null], a number), and leaves the controller as it was.  It compares no
    key with the lane set and checks no reading for being a number: handed
    an object whose readings are numbers, [NaN] or [undefined], whatever
    its keys, it does not fail, and the allocation it returns has the lanes
    of the controller for its keys, and no other key. *)
Theorem computeGreenTimes_throws_only_on_non_objects (c : controller) (a : arg) :
  match a with
  | AObj d =>
      exists c' g,
        computeGreenTimes c a = (c', Ok g) /\
        forall lane, In lane (keys g) <-> In lane (lanes c)
  | _ => computeGreenTimes c a = (c, Throw DensitiesMustBeObject)
  end.
Proof.
  destruct a as [v| |d]; try reflexivity.
  unfold computeGreenTimes.
  destruct (strict_eq (total_density d) (Num 0)).
  - eexists; eexists. split; [reflexivity|].
    intros lane. rewrite build_keys. cbn [keys map In]. tauto.
  - set (con := constrained c (rawGreen c d (total_density d))).
    assert (Hk : forall lane, In lane (keys con) <-> In lane (lanes c)).
    { intros lane. unfold con, constrained. rewrite build_keys.
      cbn [keys map In]. tauto. }
    assert (Hr : forall x,
               In x (keys (snd (_redistribute c con (availableTime c) d)))
               <-> In x (keys con)).
    { intros x. unfold _redistribute.
      destruct (strict_eq _ _); cbn [snd]; [tauto|]. split.
      - intros Hx. apply redistribute_loop_keys_from in Hx.
        destruct Hx as [Hx|Hx]; [assumption|]. apply Hk.
        apply (Permutation_in x (sort_permutation (by_density_desc d) (lanes c))).
        exact Hx.
      - apply redistribute_loop_keys. }
    destruct (_redistribute c con (availableTime c) d) as [c' g].
    exists c', g. split; [reflexivity|].
    intros lane. cbn [snd] in Hr. rewrite Hr. apply Hk.
Qed.

(** C10.  [config.f || default] takes a configured 0 for an absent value.
    A sensor built for a known lane with [emaCoefficient] 0 is built, with
    coefficient 0.7.  In a controller, a field passed as 0 holds its
    default when validation runs, the constructor's outcome is that of
    validating the defaulted fields, and no controller that the constructor
    returns has a field equal to 0. *)
Theorem zero_is_taken_for_absent
        (lane : string) (sensorConfig config : obj value) (f : string) :
  includes VirtualSensor.known_lanes lane = true ->
  strict_eq (get sensorConfig "emaCoefficient") (Num 0) = true ->
  In f Spec.config_fields ->
  strict_eq (get config f) (Num 0) = true ->
  (exists s, VirtualSensor.constructor lane (Some sensorConfig) = Ok s /\
             VirtualSensor.emaCoefficient s = Num (7 # 10)) /\
  get (getConfig (defaulted config)) f = get Spec.default_config f /\
  constructor (Some config)
  = match _validateConfig (defaulted config) with
    | Ok _ => Ok (defaulted config)
    | Throw e => Throw e
    end /\
  forall (any : obj value) (built : controller) (field : string),
    constructor (Some any) = Ok built ->
    In field Spec.config_fields ->
    strict_eq (get (getConfig built) field) (Num 0) = false.
Proof.
  intros Hlane Hema Hf Hzero.
  assert (Hor : forall v dflt, strict_eq v (Num 0) = true -> or v dflt = dflt).
  { intros v dflt Hv. destruct v as [| |q]; try reflexivity.
    unfold or. simpl in *. now rewrite Hv. }
  assert (Hnz : forall v dflt, strict_eq dflt (Num 0) = false ->
                               strict_eq (or v dflt) (Num 0) = false).
  { intros v dflt Hd. unfold or. destruct (truthy v) eqn:E; [|assumption].
    destruct v as [| |q]; try discriminate. simpl in *.
    now apply negb_true_iff in E. }
  repeat split.
  - unfold VirtualSensor.constructor.
    rewrite Hlane, (Hor _ (Num (7 # 10)) Hema).
    eexists. split; reflexivity.
  - simpl in Hf.
    destruct Hf as [<-|[<-|[<-|[<-|[<-|[]]]]]]; cbn; now rewrite (Hor _ _ Hzero).
  - intros any built field Hbuilt Hfield. unfold constructor in Hbuilt.
    destruct (_validateConfig (defaulted any)); [|discriminate].
    injection Hbuilt as <-. simpl in Hfield.
    destruct Hfield as [<-|[<-|[<-|[<-|[<-|[]]]]]]; cbn; now apply Hnz.
Qed.

(** A north sensor configured with coefficient 0, a controller configured
    with [yellowTime] 0. *)
Lemma zero_is_taken_for_absent_witness :
  (exists s,
     VirtualSensor.constructor "north" (Some [("emaCoefficient", Num 0)]) = Ok s /\
     VirtualSensor.emaCoefficient s = Num (7 # 10)) /\
  get (getConfig (defaulted [("yellowTime", Num 0)])) "yellowTime"
  = get Spec.default_config "yellowTime" /\
  constructor (Some [("yellowTime", Num 0)])
  = match _validateConfig (defaulted [("yellowTime", Num 0)]) with
    | Ok _ => Ok (defaulted [("yellowTime", Num 0)])
    | Throw e => Throw e
    end /\
  forall (any : obj value) (built : controller) (field : string),
    constructor (Some any) = Ok built ->
    In field Spec.config_fields ->
    strict_eq (get (getConfig built) field) (Num 0) = false.
Proof.
  apply (zero_is_taken_for_absent "north" [("emaCoefficient", Num 0)]
           [("yellowTime", Num 0)] "yellowTime").
  - reflexivity.
  - reflexivity.
  - simpl. tauto.
  - reflexivity.
Defined.

End InputChecks.

(** ** The signal snapshot *)

Section Signals.

Import Simulator.

Variable greenTimes : obj value.

(** The [reduce] of [_computeSignals] returns one of the keys.  When the
    values are numbers it is the last key of largest value: everything
    before it is no larger, everything after it is strictly smaller. *)
Lemma reduce_picks_last_maximum (ks : list string) : forall k : string,
  exists m pre post,
    m = fold_left
          (fun a b => if gt (get greenTimes a) (get greenTimes b) then a else b)
          ks k /\
    k :: ks = (pre ++ m :: post)%list /\
    ((forall x, In x (k :: ks) -> exists q, get greenTimes x = Num q) ->
     (forall x, In x pre -> le (get greenTimes x) (get greenTimes m) = true) /\
     (forall x, In x post -> lt (get greenTimes x) (get greenTimes m) = true)).
Proof.
  induction ks as [|b ks IH] using rev_ind; intros k.
  - exists k, [], []. simpl. repeat split; intros x [].
  - destruct (IH k) as (m & pre & post & Em & Hsplit & Hord).
    rewrite fold_left_app. cbn [fold_left]. rewrite <- Em.
    destruct (gt (get greenTimes m) (get greenTimes b)) eqn:E.
    + exists m, pre, (post ++ [b])%list. split; [reflexivity|]. split.
      * rewrite app_comm_cons, Hsplit, <- app_assoc. reflexivity.
      * intros Hnum. destruct Hord as [Hpre Hpost].
        { intros x Hx. apply Hnum. rewrite app_comm_cons, in_app_iff. now left. }
        split; [assumption|].
        intros x Hx. apply in_app_iff in Hx. destruct Hx as [Hx|[<-|[]]]; auto.
    + exists b, (pre ++ m :: post)%list, []. split; [reflexivity|]. split.
      * rewrite app_comm_cons, Hsplit. reflexivity.
      * intros Hnum. destruct Hord as [Hpre Hpost].
        { intros x Hx. apply Hnum. rewrite app_comm_cons, in_app_iff. now left. }
        assert (Hm : exists q, get greenTimes m = Num q).
        { apply Hnum. rewrite app_comm_cons, Hsplit.
          rewrite !in_app_iff. simpl. tauto. }
        assert (Hb : exists q, get greenTimes b = Num q).
        { apply Hnum. rewrite app_comm_cons, in_app_iff. simpl. tauto. }
        destruct Hm as (qm & Hqm), Hb as (qb & Hqb).
        rewrite Hqm, Hqb in E. apply lt_false_num in E.
        split; [|intros x []].
        intros x Hx. rewrite Hqb. apply in_app_iff in Hx.
        destruct Hx as [Hx|[<-|Hx]].
        -- apply Hpre in Hx. rewrite Hqm in Hx. apply le_true in Hx.
           destruct Hx as (u & v & -> & [= <-] & Huv).
           apply le_true. exists u, qb. repeat split; lra.
        -- rewrite Hqm. apply le_true. exists qm, qb. repeat split; lra.
        -- apply Hpost in Hx. rewrite Hqm in Hx. apply lt_true in Hx.
           destruct Hx as (u & v & -> & [= <-] & Huv).
           apply le_true. exists u, qb. repeat split; lra.
Qed.

End Signals.

Section SignalSnapshot.

Import Simulator.

(** C6 (amended).  For every allocation whose keys are the four lanes, in
    whatever order, [_computeSignals] returns a snapshot with the same keys
    in the same order in which exactly one lane [m] is GREEN and every
    other lane is RED.  When the allocations are numbers, [m] has the
    largest one, and among lanes that tie for the largest it is the one
    that comes last in the key order of the allocation object: every key
    before [m] has an allocation no larger, every key after [m] one
    strictly smaller. *)
Theorem computeSignals_one_green (greenTimes : obj value) :
  Spec.same_lanes (keys greenTimes) Spec.lane_names = true ->
  exists m pre post signals,
    _computeSignals greenTimes = Ok signals /\
    keys greenTimes = (pre ++ m :: post)%list /\
    keys signals = keys greenTimes /\
    lookup signals m = Some GREEN /\
    (forall k, In k (keys greenTimes) -> k <> m -> lookup signals k = Some RED) /\
    (forallb Spec.is_num (values greenTimes) = true ->
     (forall k, In k pre -> le (get greenTimes k) (get greenTimes m) = true) /\
     (forall k, In k post -> lt (get greenTimes k) (get greenTimes m) = true)).
Proof.
  intros Hk.
  assert (Hnum : forallb Spec.is_num (values greenTimes) = true ->
                 forall lane, In lane Spec.lane_names ->
                              exists q, get greenTimes lane = Num q).
  { intros Hv. apply numeric_over_lanes_get.
    unfold Spec.numeric_over_lanes. now rewrite Hk, Hv. }
  apply same_lanes_true in Hk. destruct Hk as [Hnd Hk].
  unfold _computeSignals, maxLane.
  destruct (keys greenTimes) as [|k ks] eqn:Eks.
  { exfalso. apply (proj2 (Hk "north")). simpl. tauto. }
  destruct (reduce_picks_last_maximum greenTimes ks k)
    as (m & pre & post & <- & Hsplit & Hord).
  assert (Hm : In m (k :: ks)).
  { rewrite Hsplit, in_app_iff. simpl. tauto. }
  assert (Hkeys : keys (fold_left (fun o lane => set o lane RED) (k :: ks) [])
                  = k :: ks).
  { now rewrite (build_keys_nodup (fun _ : string => RED)). }
  exists m, pre, post. eexists. split; [reflexivity|].
  split; [assumption|]. split; [|split; [|split]].
  - rewrite keys_set_present; [assumption|]. now rewrite Hkeys.
  - apply lookup_set_same.
  - intros x Hx Hne. rewrite lookup_set_other by congruence.
    now rewrite (build_lookup (fun _ : string => RED)).
  - intros Hv. apply Hord. intros x Hx. apply (Hnum Hv), Hk, Hx.
Qed.

(** An allocation with a tie for the maximum: north 15, south 10, east 15,
    west 10.  East, the later of the two, is GREEN. *)
Lemma computeSignals_one_green_witness :
  _computeSignals (Examples.readings 15 10 15 10)
  = Ok [("north", RED); ("south", RED); ("east", GREEN); ("west", RED)] /\
  exists m pre post signals,
    _computeSignals (Examples.readings 15 10 15 10) = Ok signals /\
    keys (Examples.readings 15 10 15 10) = (pre ++ m :: post)%list /\
    keys signals = keys (Examples.readings 15 10 15 10) /\
    lookup signals m = Some GREEN /\
    (forall k, In k (keys (Examples.readings 15 10 15 10)) -> k <> m ->
               lookup signals k = Some RED) /\
    (forallb Spec.is_num (values (Examples.readings 15 10 15 10)) = true ->
     (forall k, In k pre ->
        le (get (Examples.readings 15 10 15 10) k)
           (get (Examples.readings 15 10 15 10) m) = true) /\
     (forall k, In k post ->
        lt (get (Examples.readings 15 10 15 10) k)
           (get (Examples.readings 15 10 15 10) m) = true)).
Proof.
  split; [reflexivity|].
  apply (computeSignals_one_green (Examples.readings 15 10 15 10)).
  vm_compute. reflexivity.
Defined.

End SignalSnapshot.

(** ** Sums and whole numbers *)

Section SumFacts.

Lemma whole_inject (z : Z) : Spec.whole (inject_Z z).
Proof. exists z. reflexivity. Qed.

Lemma whole_eq (x y : Q) : x == y -> Spec.whole x -> Spec.whole y.
Proof. intros Hxy (z & Hz). exists z. now rewrite <- Hxy. Qed.

Lemma whole_plus (x y : Q) : Spec.whole x -> Spec.whole y -> Spec.whole (x + y).
Proof.
  intros (a & Ha) (b & Hb). exists (a + b)%Z.
  now rewrite inject_Z_plus, Ha, Hb.
Qed.

Lemma whole_opp (x : Q) : Spec.whole x -> Spec.whole (- x).
Proof. intros (a & Ha). exists (- a)%Z. now rewrite inject_Z_opp, Ha. Qed.

Lemma whole_minus (x y : Q) : Spec.whole x -> Spec.whole y -> Spec.whole (x - y).
Proof. intros Hx Hy. apply whole_plus; [assumption | now apply whole_opp]. Qed.

Lemma whole_mult (x y : Q) : Spec.whole x -> Spec.whole y -> Spec.whole (x * y).
Proof.
  intros (a & Ha) (b & Hb). exists (a * b)%Z.
  now rewrite inject_Z_mult, Ha, Hb.
Qed.

(** A positive whole number is at least 1, a negative one at most -1. *)
Lemma whole_pos (x : Q) : Spec.whole x -> 0 < x -> 1 <= x.
Proof.
  intros (z & Hz) Hpos. rewrite Hz in *.
  change 0 with (inject_Z 0) in Hpos. change 1 with (inject_Z 1).
  rewrite <- Zlt_Qlt in Hpos. rewrite <- Zle_Qle. lia.
Qed.

Lemma whole_neg (x : Q) : Spec.whole x -> x < 0 -> x <= -1.
Proof.
  intros (z & Hz) Hneg. rewrite Hz in *.
  change 0 with (inject_Z 0) in Hneg. change (-1) with (inject_Z (-1)).
  rewrite <- Zlt_Qlt in Hneg. rewrite <- Zle_Qle. lia.
Qed.

Lemma is_int_true (v : value) :
  Spec.is_int v = true -> exists q, v = Num q /\ Spec.whole q.
Proof.
  destruct v as [| |q]; simpl; try discriminate.
  intros H. apply Qeq_bool_iff in H. exists q. split; [reflexivity|].
  exists (Qfloor q). now symmetry.
Qed.

Lemma is_int_whole (q : Q) : Spec.whole q -> Spec.is_int (Num q) = true.
Proof.
  intros (z & Hz). simpl. apply Qeq_bool_iff.
  rewrite Hz at 2. rewrite (Qfloor_comp _ _ Hz), Qfloor_Z. reflexivity.
Qed.

Lemma qsum_set (g : obj value) (k : string) (old new : Q) :
  lookup g k = Some (Num old) ->
  Spec.qsum (set g k (Num new)) == Spec.qsum g - old + new.
Proof.
  induction g as [|[k0 v0] g IH]; simpl; [discriminate|].
  destruct (String.eqb k0 k).
  - intros [= ->]. simpl. lra.
  - intros H. specialize (IH H). destruct v0; simpl; lra.
Qed.

Lemma sum_denotes (g : obj value) : forall (acc : value) (aq : Q),
  Forall (fun kv => Spec.is_num (snd kv) = true) g ->
  Spec.denotes acc aq ->
  Spec.denotes (fold_left (fun sum x => add sum x) (values g) acc)
               (aq + Spec.qsum g).
Proof.
  induction g as [|[k v] g IH]; intros acc aq Hg Hacc; simpl.
  - apply (denotes_eq acc aq); [assumption | lra].
  - inversion Hg as [|? ? Hv Hg']; subst. simpl in Hv.
    apply is_num_true in Hv. destruct Hv as (q & ->).
    apply (denotes_eq _ (aq + q + Spec.qsum g)); [|lra].
    apply IH; [assumption|].
    apply denotes_add; [assumption | apply denotes_num].
Qed.

Lemma sum_values_denotes (g : obj value) :
  Forall (fun kv => Spec.is_num (snd kv) = true) g ->
  Spec.denotes (AdaptiveController.sum_values g) (Spec.qsum g).
Proof.
  intros Hg. apply (denotes_eq _ (0 + Spec.qsum g)); [|lra].
  apply sum_denotes; [assumption | apply denotes_num].
Qed.

Lemma qsum_whole (g : obj value) :
  Forall (fun kv => Spec.is_int (snd kv) = true) g -> Spec.whole (Spec.qsum g).
Proof.
  induction 1 as [|[k v] g Hv Hg IH]; simpl.
  - apply (whole_inject 0).
  - simpl in Hv. apply is_int_true in Hv. destruct Hv as (q & -> & Hq).
    now apply whole_plus.
Qed.

Lemma Math_sign_cases (dq : Q) :
  ~ dq == 0 ->
  (dq < 0 /\ Math_sign (Num dq) = Num (-1)) \/
  (0 < dq /\ Math_sign (Num dq) = Num 1).
Proof.
  intros Hne. simpl. destruct (dq ?= 0) eqn:E.
  - apply Qeq_alt in E. contradiction.
  - left. split; [now apply Qlt_alt | reflexivity].
  - right. split; [now apply Qgt_alt | reflexivity].
Qed.

End SumFacts.

(** ** The sum of the allocation *)

Section RedistributionSum.

Import AdaptiveController.

Variable c : controller.

Lemma get_num_lookup (g : obj value) (k : string) (q : Q) :
  get g k = Num q -> lookup g k = Some (Num q).
Proof.
  unfold get. destruct (lookup g k); [now intros -> | discriminate].
Qed.

(** One adjustment of the loop: the lane moves by [adj], the remaining
    difference shrinks by [adj]. *)
Lemma guard_passed (g : obj value) (lane : string) (adj : Q) :
  ge (add (get g lane) (Num adj)) (minGreen c)
  && le (add (get g lane) (Num adj)) (maxGreen c) = true ->
  exists old, lookup g lane = Some (Num old) /\
              add (get g lane) (Num adj) = Num (Qred (old + adj)).
Proof.
  intros G. apply andb_true_iff in G. destruct G as [G _].
  unfold ge in G. apply le_true in G. destruct G as (x & y & _ & Hy & _).
  pose proof Hy as Hy'. apply add_num_inv in Hy'.
  destruct Hy' as (old & a & Hold & _).
  exists old. split; [now apply get_num_lookup|]. now rewrite Hold.
Qed.

(** A walk of the loop started with a whole difference [dq] ends with a
    difference between 0 and [dq], and has moved the sum by exactly what it
    took off the difference. *)
Lemma redistribute_loop_toward (ls : list string) : forall (g : obj value) (dq : Q),
  Spec.whole dq ->
  exists dq1,
    snd (redistribute_loop c ls g (Num dq)) = Num dq1 /\
    Spec.qsum (fst (redistribute_loop c ls g (Num dq))) + dq1 == Spec.qsum g + dq /\
    ((0 <= dq1 /\ dq1 <= dq) \/ (dq <= dq1 /\ dq1 <= 0)).
Proof.
  induction ls as [|lane ls IH]; intros g dq Hw.
  - exists dq. simpl. split; [reflexivity|]. split; [reflexivity|].
    destruct (Qlt_le_dec dq 0); [right | left]; lra.
  - cbn [redistribute_loop].
    destruct (strict_eq (Num dq) (Num 0)) eqn:E0.
    + simpl in E0. apply Qeq_bool_iff in E0.
      exists dq. simpl. split; [reflexivity|]. split; [reflexivity|]. left. lra.
    + simpl in E0. apply Qeq_bool_neq in E0.
      destruct (Math_sign_cases dq E0) as [[Hs ->]|[Hs ->]].
      * destruct (ge (add (get g lane) (Num (-1))) (minGreen c)
                  && le (add (get g lane) (Num (-1))) (maxGreen c)) eqn:G.
        -- destruct (guard_passed g lane (-1) G) as (old & Hold & ->).
           simpl sub. unfold num.
           pose proof (Qred_correct (old + -1)) as R1.
           pose proof (Qred_correct (dq - -1)) as R2.
           destruct (IH (set g lane (Num (Qred (old + -1)))) (Qred (dq - -1)))
             as (dq1 & H1 & H2 & H3).
           { apply (whole_eq (dq - -1)); [now symmetry|].
             apply whole_minus; [assumption | apply (whole_inject (-1))]. }
           pose proof (qsum_set g lane old (Qred (old + -1)) Hold) as S.
           pose proof (whole_neg dq Hw Hs) as Hle.
           exists dq1. split; [exact H1|]. split; [lra|]. right. lra.
        -- destruct (IH g dq Hw) as (dq1 & H1 & H2 & H3). exists dq1. auto.
      * destruct (ge (add (get g lane) (Num 1)) (minGreen c)
                  && le (add (get g lane) (Num 1)) (maxGreen c)) eqn:G.
        -- destruct (guard_passed g lane 1 G) as (old & Hold & ->).
           simpl sub. unfold num.
           pose proof (Qred_correct (old + 1)) as R1.
           pose proof (Qred_correct (dq - 1)) as R2.
           destruct (IH (set g lane (Num (Qred (old + 1)))) (Qred (dq - 1)))
             as (dq1 & H1 & H2 & H3).
           { apply (whole_eq (dq - 1)); [now symmetry|].
             apply whole_minus; [assumption | apply (whole_inject 1)]. }
           pose proof (qsum_set g lane old (Qred (old + 1)) Hold) as S.
           pose proof (whole_pos dq Hw Hs) as Hle.
           exists dq1. split; [exact H1|]. split; [lra|]. left. lra.
        -- destruct (IH g dq Hw) as (dq1 & H1 & H2 & H3). exists dq1. auto.
Qed.

End RedistributionSum.

Section AllocationSum.

Import AdaptiveController.

Lemma within_is_num (c : controller) (g : obj value) :
  Forall (fun kv => Spec.within_green c (snd kv) = true) g ->
  Forall (fun kv => Spec.is_num (snd kv) = true) g.
Proof.
  apply Forall_impl. intros [k v] H. simpl in *.
  unfold Spec.within_green in H. apply andb_true_iff in H. destruct H as [H _].
  apply le_true in H. destruct H as (x & y & _ & -> & _). reflexivity.
Qed.

Lemma redistribute_balanced (c : controller) (g : obj value) (a : Q)
      (d : obj value) :
  strict_eq (sum_values g) (Num a) = true ->
  _redistribute c g (Num a) d = (c, g).
Proof.
  unfold _redistribute.
  destruct (sum_values g) as [| |s]; cbn [strict_eq]; try discriminate.
  intros H. apply Qeq_bool_iff in H.
  change (sub (Num a) (Num s)) with (Num (Qred (a - s))).
  change (strict_eq (Num (Qred (a - s))) (Num 0))
    with (Qeq_bool (Qred (a - s)) 0).
  assert (E : Qeq_bool (Qred (a - s)) 0 = true).
  { apply Qeq_bool_iff. rewrite Qred_correct. lra. }
  now rewrite E.
Qed.

Lemma redistribute_sum (c : controller) (g : obj value) (a : Q) (d : obj value) :
  Forall (fun kv => Spec.is_num (snd kv) = true) g ->
  Forall (fun kv => Spec.is_int (snd kv) = true) g ->
  Spec.whole a ->
  (Spec.qsum g <= Spec.qsum (snd (_redistribute c g (Num a) d)) /\
   Spec.qsum (snd (_redistribute c g (Num a) d)) <= a)
  \/ (a <= Spec.qsum (snd (_redistribute c g (Num a) d)) /\
      Spec.qsum (snd (_redistribute c g (Num a) d)) <= Spec.qsum g).
Proof.
  intros Hnum Hint Ha.
  destruct (sum_values_denotes g Hnum) as (s & Hs & Hsq).
  pose proof (qsum_whole g Hint) as Hw.
  unfold _redistribute. rewrite Hs. simpl sub. unfold num.
  pose proof (Qred_correct (a - s)) as R.
  destruct (strict_eq (Num (Qred (a - s))) (Num 0)) eqn:E.
  - cbn [strict_eq] in E. apply Qeq_bool_iff in E. cbn [snd]. left. lra.
  - cbn [snd].
    destruct (redistribute_loop_toward
                (mkController (cycleLength c) (minGreen c) (maxGreen c)
                   (yellowTime c) (allRedTime c)
                   (sort (by_density_desc d) (lanes c)))
                (sort (by_density_desc d) (lanes c)) g (Qred (a - s)))
      as (dq1 & _ & H2 & H3).
    { apply (whole_eq (a - s)); [now symmetry|].
      apply whole_minus; [assumption|].
      apply (whole_eq (Spec.qsum g)); [now symmetry | assumption]. }
    lra.
Qed.

Lemma availableTime_whole (c : controller) :
  Spec.whole_seconds c = true ->
  exists a, availableTime c = Num a /\ Spec.whole a.
Proof.
  unfold Spec.whole_seconds. intros H.
  repeat (apply andb_true_iff in H; destruct H as [H ?]).
  repeat match goal with
         | X : Spec.is_int _ = true |- _ =>
             apply is_int_true in X; destruct X as (? & ? & ?)
         end.
  unfold availableTime, lanes_length, of_nat.
  repeat match goal with X : _ c = Num _ |- _ => rewrite X; clear X end.
  simpl. unfold num. eexists. split; [reflexivity|].
  eapply whole_eq; [symmetry; apply Qred_correct|].
  apply whole_minus; [assumption|].
  eapply whole_eq; [symmetry; apply Qred_correct|].
  apply whole_mult; [apply whole_inject|].
  eapply whole_eq; [symmetry; apply Qred_correct|].
  now apply whole_plus.
Qed.

Lemma clamp_whole (m M w : Q) :
  Spec.whole m -> Spec.whole M ->
  Spec.is_int (Math_max (Num m) (Math_min (Num M) (Math_floor (Num w)))) = true.
Proof.
  intros Hm HM. simpl.
  destruct (Qle_bool M (inject_Z (Qfloor w)));
    match goal with |- context [Qle_bool ?x ?y] => destruct (Qle_bool x y) end;
    apply is_int_whole; auto using whole_inject.
Qed.

Lemma constrained_whole (c : controller) (raw : obj value) :
  Spec.whole_seconds c = true ->
  (forall lane, In lane (lanes c) -> exists w, get raw lane = Num w) ->
  Forall (fun kv => Spec.is_int (snd kv) = true) (constrained c raw).
Proof.
  intros Hc Hraw. unfold constrained.
  apply (build_Forall _ (fun v => Spec.is_int v = true)); [|constructor].
  intros lane Hlane. destruct (Hraw lane Hlane) as (w & ->).
  unfold Spec.whole_seconds in Hc.
  repeat (apply andb_true_iff in Hc; destruct Hc as [Hc ?]).
  repeat match goal with
         | X : Spec.is_int _ = true |- _ =>
             apply is_int_true in X; destruct X as (? & ? & ?)
         end.
  repeat match goal with X : _ c = Num _ |- _ => rewrite X; clear X end.
  now apply clamp_whole.
Qed.

End AllocationSum.

(* ------------------------------------------------------------------ *)
(** * Further properties of the code *)

(** ** The sum of the allocation *)

Section AllocationSumTheorem.

Import AdaptiveController.

(** X24.  For every configuration that satisfies the invariant and every
    reading set of numbers over the four lanes, [computeGreenTimes]
    returns an allocation such that:
    - when the total demand is exactly zero, every lane gets [minGreen];
    - when it is not and the clamped proportional allocation already sums
      to [availableTime], that allocation is returned unchanged, so the
      sum is exactly [availableTime];
    - when it is not and the configuration is in whole seconds, the sum of
      the allocation lies between the sum of the clamped allocation and
      [availableTime]: redistribution never moves the sum away from
      [availableTime] nor past it, and need not reach it. *)
Theorem allocation_sum_toward_available (c : controller) (d : obj value) :
  Spec.config_invariant c = true ->
  Spec.lanes_known c = true ->
  Spec.numeric_over_lanes d = true ->
  exists c' g,
    computeGreenTimes c (AObj d) = (c', Ok g) /\
    (strict_eq (total_density d) (Num 0) = true ->
     forall lane, In lane Spec.lane_names -> get g lane = minGreen c) /\
    (strict_eq (total_density d) (Num 0) = false ->
     (strict_eq (sum_values (constrained c (rawGreen c d (total_density d))))
                (availableTime c) = true ->
      g = constrained c (rawGreen c d (total_density d)) /\
      strict_eq (sum_values g) (availableTime c) = true) /\
     (Spec.whole_seconds c = true ->
      exists s0 s1 a,
        Spec.denotes
          (sum_values (constrained c (rawGreen c d (total_density d)))) s0 /\
        Spec.denotes (sum_values g) s1 /\
        Spec.denotes (availableTime c) a /\
        ((s0 <= s1 /\ s1 <= a) \/ (a <= s1 /\ s1 <= s0)))).
Proof.
  intros Hc Hl Hd.
  apply same_lanes_true in Hl. destruct Hl as [_ Hl].
  assert (Hget : forall lane, In lane (lanes c) -> exists q, get d lane = Num q).
  { intros lane Hlane. apply (numeric_over_lanes_get d Hd). now apply Hl. }
  assert (Hnum : forallb Spec.is_num (values d) = true).
  { unfold Spec.numeric_over_lanes in Hd. now apply andb_true_iff in Hd. }
  destruct (config_invariant_fields c Hc) as (m & M & a & Hm & HM & HmM & Ha).
  unfold computeGreenTimes.
  destruct (strict_eq (total_density d) (Num 0)) eqn:Ez.
  - eexists; eexists. split; [reflexivity|]. split; [|discriminate].
    intros _ lane Hlane. apply fallback_get. now apply Hl.
  - pose proof (constrained_within c d Hc Hget Hnum Ez) as Hcon.
    set (con := constrained c (rawGreen c d (total_density d))) in *.
    destruct (redistribute_within c con (availableTime c) d Hcon) as [Hw _].
    destruct (_redistribute c con (availableTime c) d) as [c' g] eqn:Er.
    cbn [snd] in Hw.
    exists c', g. split; [reflexivity|]. split; [discriminate|].
    intros _. split.
    + intros Hbal. rewrite Ha in Hbal, Er.
      rewrite (redistribute_balanced c con a d Hbal) in Er.
      injection Er as <- <-. rewrite Ha. auto.
    + intros Hws.
      destruct (availableTime_whole c Hws) as (a' & Ha' & Hwa).
      rewrite Ha in Ha'. injection Ha' as <-.
      assert (Hint : Forall (fun kv => Spec.is_int (snd kv) = true) con).
      { apply constrained_whole; [assumption|].
        intros lane Hlane. rewrite rawGreen_get by assumption.
        destruct (Hget lane Hlane) as (q & ->).
        destruct (fold_add_numeric (values d) 0 Hnum) as (t & Ht).
        fold (total_density d) in Ht. rewrite Ht in Ez |- *.
        destruct (div_num q t Ez) as (z & ->). rewrite Ha. apply mul_num. }
      pose proof (redistribute_sum c con a d (within_is_num c con Hcon) Hint Hwa)
        as Hsum.
      rewrite Ha in Er. rewrite Er in Hsum. cbn [snd] in Hsum.
      exists (Spec.qsum con), (Spec.qsum g), a. repeat split.
      * apply sum_values_denotes. exact (within_is_num c con Hcon).
      * apply sum_values_denotes. exact (within_is_num c g Hw).
      * rewrite Ha. apply denotes_num.
      * exact Hsum.
Qed.

(** The Main.js controller with readings 80, 20, 60, 40. *)
Lemma allocation_sum_toward_available_witness :
  exists c' g,
    computeGreenTimes Examples.main_controller
      (AObj (Examples.readings 80 20 60 40)) = (c', Ok g) /\
    (strict_eq (total_density (Examples.readings 80 20 60 40)) (Num 0) = true ->
     forall lane, In lane Spec.lane_names ->
       get g lane = minGreen Examples.main_controller) /\
    (strict_eq (total_density (Examples.readings 80 20 60 40)) (Num 0) = false ->
     (strict_eq
        (sum_values
           (constrained Examples.main_controller
              (rawGreen Examples.main_controller (Examples.readings 80 20 60 40)
                 (total_density (Examples.readings 80 20 60 40)))))
        (availableTime Examples.main_controller) = true ->
      g = constrained Examples.main_controller
            (rawGreen Examples.main_controller (Examples.readings 80 20 60 40)
               (total_density (Examples.readings 80 20 60 40))) /\
      strict_eq (sum_values g) (availableTime Examples.main_controller) = true) /\
     (Spec.whole_seconds Examples.main_controller = true ->
      exists s0 s1 a,
        Spec.denotes
          (sum_values
             (constrained Examples.main_controller
                (rawGreen Examples.main_controller (Examples.readings 80 20 60 40)
                   (total_density (Examples.readings 80 20 60 40))))) s0 /\
        Spec.denotes (sum_values g) s1 /\
        Spec.denotes (availableTime Examples.main_controller) a /\
        ((s0 <= s1 /\ s1 <= a) \/ (a <= s1 /\ s1 <= s0)))).
Proof.
  apply (allocation_sum_toward_available Examples.main_controller
           (Examples.readings 80 20 60 40)); vm_compute; reflexivity.
Defined.

End AllocationSumTheorem.

(** ** The controller's configuration *)

Section ConfigurationFacts.

Import AdaptiveController.

Lemma or_default_num (v : value) (dflt : Q) :
  ~ dflt == 0 -> exists q, or v (Num dflt) = Num q /\ ~ q == 0.
Proof.
  intros Hd. unfold or. destruct (truthy v) eqn:E.
  - destruct v as [| |q]; try discriminate. simpl in E.
    apply negb_true_iff, Qeq_bool_neq in E. eauto.
  - eauto.
Qed.

Lemma le_false_num (x y : Q) : le (Num x) (Num y) = false -> y < x.
Proof. simpl. apply Qle_bool_false. Qed.

(** What an accepted configuration of numbers satisfies. *)
Lemma validateConfig_numeric (c : controller) (cy m M y r : Q) :
  cycleLength c = Num cy -> minGreen c = Num m -> maxGreen c = Num M ->
  yellowTime c = Num y -> allRedTime c = Num r ->
  _validateConfig c = Ok tt ->
  Spec.config_invariant c = true /\ 0 < cy /\ 0 <= m /\ 0 <= M.
Proof.
  intros Hcy Hm HM Hy Hr. unfold _validateConfig, Spec.config_invariant.
  rewrite Hcy, Hm, HM, Hy, Hr. unfold lanes_length, of_nat.
  destruct (ge (Num m) (Num M)) eqn:E1; [discriminate|].
  repeat (cbn [add mul]; unfold num).
  match goal with
  | |- context [gt (Num ?x) (Num cy)] =>
      destruct (gt (Num x) (Num cy)) eqn:E2; [discriminate|]
  end.
  destruct (le (Num cy) (Num 0)) eqn:E3; [discriminate|].
  destruct (lt (Num m) (Num 0)) eqn:E4; [discriminate|].
  destruct (lt (Num M) (Num 0)) eqn:E5; [discriminate|].
  intros _. unfold ge in E1. apply le_false_num in E1.
  unfold gt in E2. apply lt_false_num in E2.
  apply le_false_num in E3. apply lt_false_num in E4. apply lt_false_num in E5.
  repeat split; try assumption.
  apply andb_true_iff. split.
  - apply lt_true. eauto.
  - apply le_true. eauto.
Qed.

(** X1.  Every controller the constructor returns satisfies the
    configuration invariant, holds the four lanes in their initial order,
    and has a positive cycle length and positive green bounds: a
    configuration value that is absent, 0 or [NaN] has been replaced by its
    default before validation. *)
Theorem constructor_establishes_invariant
        (config : option (obj value)) (c : controller) :
  constructor config = Ok c ->
  Spec.config_invariant c = true /\
  lanes c = Spec.lane_names /\
  lt (Num 0) (cycleLength c) = true /\
  lt (Num 0) (minGreen c) = true /\
  lt (Num 0) (maxGreen c) = true.
Proof.
  unfold constructor.
  set (o := match config with Some o => o | None => [] end).
  destruct (_validateConfig (defaulted o)) eqn:Ev; [|discriminate].
  destruct a. intros [= <-].
  destruct (or_default_num (get o "cycleLength") 60) as (cy & Hcy & Ncy); [lra|].
  destruct (or_default_num (get o "minGreen") 10) as (m & Hm & Nm); [lra|].
  destruct (or_default_num (get o "maxGreen") 60) as (M & HM & NM); [lra|].
  destruct (or_default_num (get o "yellowTime") 3) as (y & Hy & _); [lra|].
  destruct (or_default_num (get o "allRedTime") 2) as (r & Hr & _); [lra|].
  destruct (validateConfig_numeric (defaulted o) cy m M y r Hcy Hm HM Hy Hr Ev)
    as (Hinv & Pcy & Pm & PM).
  split; [assumption|]. split; [reflexivity|].
  cbn [cycleLength minGreen maxGreen defaulted]. rewrite Hcy, Hm, HM.
  repeat split; apply lt_true; do 2 eexists;
    (split; [reflexivity|split; [reflexivity|]]).
  - assumption.
  - destruct (Qlt_le_dec 0 m) as [H|H]; [assumption|].
    exfalso. apply Nm. lra.
  - destruct (Qlt_le_dec 0 M) as [H|H]; [assumption|].
    exfalso. apply NM. lra.
Qed.

(** The controller of Main.js. *)
Lemma constructor_establishes_invariant_witness :
  Spec.config_invariant Examples.main_controller = true /\
  lanes Examples.main_controller = Spec.lane_names /\
  lt (Num 0) (cycleLength Examples.main_controller) = true /\
  lt (Num 0) (minGreen Examples.main_controller) = true /\
  lt (Num 0) (maxGreen Examples.main_controller) = true.
Proof.
  apply (constructor_establishes_invariant
           (Some [("cycleLength", Num 60); ("minGreen", Num 10);
                  ("maxGreen", Num 60); ("yellowTime", Num 3);
                  ("allRedTime", Num 2)])).
  reflexivity.
Defined.

(** X3.  Applying the same update twice leaves the controller, and the
    outcome, as after the first application. *)
Theorem updateConfig_idempotent (c : controller) (newConfig : obj value) :
  updateConfig (fst (updateConfig c newConfig)) newConfig
  = updateConfig c newConfig.
Proof.
  assert (H : forall v old,
             set_if_defined v (set_if_defined v old) = set_if_defined v old).
  { intros v old. destruct v; reflexivity. }
  unfold updateConfig. cbn [fst].
  assert (E : merged (merged c newConfig) newConfig = merged c newConfig).
  { unfold merged. cbn [cycleLength minGreen maxGreen yellowTime allRedTime lanes].
    now rewrite !H. }
  now rewrite E.
Qed.

(** X4.  [computeGreenTimes] never changes a configuration field, whatever
    it is handed; all it can do to the controller is reorder its lane
    array. *)
Theorem computeGreenTimes_keeps_configuration (c : controller) (a : arg) :
  getConfig (fst (computeGreenTimes c a)) = getConfig c /\
  Permutation (lanes (fst (computeGreenTimes c a))) (lanes c).
Proof.
  destruct a as [v| |d]; try (split; reflexivity).
  unfold computeGreenTimes.
  destruct (strict_eq (total_density d) (Num 0)); [split; reflexivity|].
  unfold _redistribute.
  destruct (strict_eq _ (Num 0)); [split; reflexivity|].
  cbn [fst]. split; [reflexivity|]. cbn [lanes]. apply sort_permutation.
Qed.

End ConfigurationFacts.

(** ** A cycle length that is not a number *)

Section NanCycle.

Import AdaptiveController.

Lemma redistribute_loop_nan (c : controller) (ls : list string) :
  forall g : obj value, fst (redistribute_loop c ls g NaN) = g.
Proof.
  induction ls as [|lane ls IH]; intros g; [reflexivity|].
  cbn [redistribute_loop strict_eq Math_sign].
  assert (E : add (get g lane) NaN = NaN) by (destruct (get g lane); reflexivity).
  rewrite E.
  assert (G : ge NaN (minGreen c) = false)
    by (unfold ge; destruct (minGreen c); reflexivity).
  rewrite G. cbn [andb]. apply IH.
Qed.

(** X2.  [updateConfig] accepts a [cycleLength] that is [NaN] (what
    [parseInt] gives for an empty input) on every controller whose
    configuration was valid: each comparison of [_validateConfig] that
    involves it is false.  From then on every reading set with a non-zero
    total gets [NaN] as the green time of every lane. *)
Theorem updateConfig_accepts_nan_cycle (c : controller) (d : obj value) :
  _validateConfig c = Ok tt ->
  strict_eq (total_density d) (Num 0) = false ->
  snd (updateConfig c [("cycleLength", NaN)]) = Ok tt /\
  cycleLength (fst (updateConfig c [("cycleLength", NaN)])) = NaN /\
  exists g,
    snd (computeGreenTimes (fst (updateConfig c [("cycleLength", NaN)])) (AObj d))
    = Ok g /\
    forall lane, In lane (lanes c) -> get g lane = NaN.
Proof.
  intros Hv Hz.
  set (c1 := fst (updateConfig c [("cycleLength", NaN)])).
  assert (Hmin : minGreen c1 = minGreen c) by reflexivity.
  assert (Hmax : maxGreen c1 = maxGreen c) by reflexivity.
  assert (Hl : lanes c1 = lanes c) by reflexivity.
  assert (Hcy : cycleLength c1 = NaN) by reflexivity.
  split; [|split; [reflexivity|]].
  - change (_validateConfig c1 = Ok tt).
    unfold _validateConfig in *. rewrite Hmin, Hmax, Hcy.
    destruct (ge (minGreen c) (maxGreen c)); [discriminate|].
    destruct (gt _ (cycleLength c)); [discriminate|].
    destruct (le (cycleLength c) (Num 0)); [discriminate|].
    cbn [orb] in Hv.
    destruct (lt (minGreen c) (Num 0) || lt (maxGreen c) (Num 0)) eqn:E;
      [discriminate|].
    unfold gt. cbn [lt le orb]. now rewrite E.
  - assert (Ha : availableTime c1 = NaN).
    { unfold availableTime. rewrite Hcy. reflexivity. }
    assert (Hcon : forall lane, In lane (lanes c) ->
              get (constrained c1 (rawGreen c1 d (total_density d))) lane = NaN).
    { intros lane Hlane.
      rewrite constrained_get, rawGreen_get by (rewrite Hl; assumption).
      rewrite Ha.
      assert (E : forall v, mul v NaN = NaN) by (intros v; destruct v; reflexivity).
      rewrite E. cbn [Math_floor].
      assert (E1 : forall v, Math_min v NaN = NaN)
        by (intros v; destruct v; reflexivity).
      assert (E2 : forall v, Math_max v NaN = NaN)
        by (intros v; destruct v; reflexivity).
      now rewrite E1, E2. }
    unfold computeGreenTimes. rewrite Hz.
    unfold _redistribute. rewrite Ha.
    cbn [sub strict_eq fst snd].
    rewrite redistribute_loop_nan. eexists. split; [reflexivity|]. exact Hcon.
Qed.

(** The Main.js controller, then readings 80, 20, 60, 40. *)
Lemma updateConfig_accepts_nan_cycle_witness :
  snd (updateConfig Examples.main_controller [("cycleLength", NaN)]) = Ok tt /\
  cycleLength (fst (updateConfig Examples.main_controller [("cycleLength", NaN)]))
  = NaN /\
  exists g,
    snd (computeGreenTimes
           (fst (updateConfig Examples.main_controller [("cycleLength", NaN)]))
           (AObj (Examples.readings 80 20 60 40)))
    = Ok g /\
    forall lane, In lane (lanes Examples.main_controller) -> get g lane = NaN.
Proof.
  apply (updateConfig_accepts_nan_cycle Examples.main_controller
           (Examples.readings 80 20 60 40)); reflexivity.
Defined.

End NanCycle.

(** ** The order of the lane array *)

Section LaneOrder.

Import AdaptiveController.

Variable d : obj value.

Lemma no_denser_trans (a b c : string) :
  Playback.no_denser d a b -> Playback.no_denser d b c ->
  Playback.no_denser d a c.
Proof.
  unfold Playback.no_denser. intros H1 H2.
  apply le_true in H1. destruct H1 as (x1 & y1 & E1 & E2 & H1).
  apply le_true in H2. destruct H2 as (x2 & y2 & E3 & E4 & H2).
  rewrite E1, E2 in *. rewrite E3. injection E4 as <-.
  apply le_true. exists x2, y1. repeat split. lra.
Qed.

Lemma insert_sorted (x : string) (l : list string) :
  (exists q, get d x = Num q) ->
  Forall (fun y => exists q, get d y = Num q) l ->
  StronglySorted (Playback.no_denser d) l ->
  StronglySorted (Playback.no_denser d) (insert (by_density_desc d) x l).
Proof.
  intros (qx & Hx) Hnum Hs.
  induction Hs as [|y l Hs IH Hy]; cbn [insert].
  - constructor; constructor.
  - inversion Hnum as [|? ? (qy & Hqy) Hnum']; subst.
    unfold by_density_desc at 1. rewrite Hx, Hqy.
    destruct (gt (sub (Num qy) (Num qx)) (Num 0)) eqn:E.
    + unfold gt in E. apply lt_true in E.
      destruct E as (u & v & [= <-] & Ev & Huv).
      cbn [sub] in Ev. unfold num in Ev. injection Ev as <-.
      rewrite Qred_correct in Huv.
      constructor; [now apply IH|].
      apply (Permutation_Forall
               (Permutation_sym (insert_permutation (by_density_desc d) x l))).
      constructor; [|assumption].
      unfold Playback.no_denser. rewrite Hx, Hqy. apply le_true.
      exists qx, qy. repeat split. lra.
    + unfold gt in E. cbn [sub] in E. unfold num in E.
      apply lt_false_num in E. rewrite Qred_correct in E.
      assert (Hxy : Playback.no_denser d x y).
      { unfold Playback.no_denser. rewrite Hx, Hqy. apply le_true.
        exists qy, qx. repeat split. lra. }
      constructor; [now constructor|].
      constructor; [assumption|].
      eapply Forall_impl; [|exact Hy].
      intros z Hz. now apply (no_denser_trans x y z).
Qed.

Lemma sort_sorted (l : list string) :
  Forall (fun y => exists q, get d y = Num q) l ->
  StronglySorted (Playback.no_denser d) (sort (by_density_desc d) l).
Proof.
  induction 1 as [|x l Hx Hl IH]; cbn [sort]; [constructor|].
  apply insert_sorted; [assumption| |assumption].
  apply (Permutation_Forall
           (Permutation_sym (sort_permutation (by_density_desc d) l))).
  assumption.
Qed.

(** X5.  When every lane of the controller has a numeric reading, a call
    of [computeGreenTimes] leaves the lane array either untouched (zero
    total, or clamped sum already on target) or sorted by reading, densest
    first: every lane is followed only by lanes whose reading is no
    larger. *)
Theorem computeGreenTimes_sorts_lanes (c : controller) :
  forallb (fun lane => Spec.is_num (get d lane)) (lanes c) = true ->
  lanes (fst (computeGreenTimes c (AObj d))) = lanes c \/
  (Permutation (lanes (fst (computeGreenTimes c (AObj d)))) (lanes c) /\
   StronglySorted (Playback.no_denser d)
                  (lanes (fst (computeGreenTimes c (AObj d))))).
Proof.
  intros Hnum.
  assert (Hn : Forall (fun y => exists q, get d y = Num q) (lanes c)).
  { apply Forall_forall. intros y Hy. rewrite forallb_forall in Hnum.
    apply is_num_true. now apply Hnum. }
  unfold computeGreenTimes.
  destruct (strict_eq (total_density d) (Num 0)); [now left|].
  unfold _redistribute.
  destruct (strict_eq _ (Num 0)); [now left|].
  right. cbn [fst lanes]. split.
  - apply sort_permutation.
  - now apply sort_sorted.
Qed.

End LaneOrder.

Section LaneOrderWitness.

Import AdaptiveController.

(** The Main.js controller with readings 80, 20, 60, 40. *)
Lemma computeGreenTimes_sorts_lanes_witness :
  lanes (fst (computeGreenTimes Examples.main_controller
                (AObj (Examples.readings 80 20 60 40))))
  = lanes Examples.main_controller \/
  (Permutation
     (lanes (fst (computeGreenTimes Examples.main_controller
                    (AObj (Examples.readings 80 20 60 40)))))
     (lanes Examples.main_controller) /\
   StronglySorted
     (Playback.no_denser (Examples.readings 80 20 60 40))
     (lanes (fst (computeGreenTimes Examples.main_controller
                    (AObj (Examples.readings 80 20 60 40)))))).
Proof.
  apply (computeGreenTimes_sorts_lanes (Examples.readings 80 20 60 40)
           Examples.main_controller).
  reflexivity.
Defined.

End LaneOrderWitness.

(** ** How far redistribution can move the sum *)

Section RedistributionReach.

Import AdaptiveController.

Lemma inject_length_cons (A : Type) (x : A) (l : list A) :
  inject_Z (Z.of_nat (List.length (x :: l)))
  == inject_Z (Z.of_nat (List.length l)) + 1.
Proof.
  cbn [List.length]. rewrite Nat2Z.inj_succ. unfold Z.succ.
  now rewrite inject_Z_plus.
Qed.

(** One walk takes at most one unit per lane visited off the difference,
    in either direction. *)
Lemma redistribute_loop_steps (c : controller) (ls : list string) :
  forall (g : obj value) (dq : Q),
  exists dq1,
    snd (redistribute_loop c ls g (Num dq)) = Num dq1 /\
    Spec.qsum (fst (redistribute_loop c ls g (Num dq))) + dq1
    == Spec.qsum g + dq /\
    - inject_Z (Z.of_nat (List.length ls)) <= dq - dq1 /\
    dq - dq1 <= inject_Z (Z.of_nat (List.length ls)).
Proof.
  induction ls as [|lane ls IH]; intros g dq.
  - exists dq. simpl. split; [reflexivity|]. split; [reflexivity|].
    change (inject_Z 0) with 0. lra.
  - pose proof (inject_length_cons string lane ls) as L.
    assert (P : 0 <= inject_Z (Z.of_nat (List.length ls))).
    { change 0 with (inject_Z 0). rewrite <- Zle_Qle. lia. }
    cbn [redistribute_loop].
    destruct (strict_eq (Num dq) (Num 0)) eqn:E0.
    + exists dq. cbn [fst snd]. split; [reflexivity|]. split; [reflexivity|]. lra.
    + simpl in E0. apply Qeq_bool_neq in E0.
      destruct (Math_sign_cases dq E0) as [[Hs ->]|[Hs ->]].
      * destruct (ge (add (get g lane) (Num (-1))) (minGreen c)
                  && le (add (get g lane) (Num (-1))) (maxGreen c)) eqn:G.
        -- destruct (guard_passed c g lane (-1) G) as (old & Hold & ->).
           cbn [sub]. unfold num.
           pose proof (Qred_correct (old + -1)) as R1.
           pose proof (Qred_correct (dq - -1)) as R2.
           destruct (IH (set g lane (Num (Qred (old + -1)))) (Qred (dq - -1)))
             as (dq1 & H1 & H2 & H3 & H4).
           pose proof (qsum_set g lane old (Qred (old + -1)) Hold) as S.
           exists dq1. split; [exact H1|]. repeat split; lra.
        -- destruct (IH g dq) as (dq1 & H1 & H2 & H3 & H4).
           exists dq1. repeat split; try assumption; lra.
      * destruct (ge (add (get g lane) (Num 1)) (minGreen c)
                  && le (add (get g lane) (Num 1)) (maxGreen c)) eqn:G.
        -- destruct (guard_passed c g lane 1 G) as (old & Hold & ->).
           cbn [sub]. unfold num.
           pose proof (Qred_correct (old + 1)) as R1.
           pose proof (Qred_correct (dq - 1)) as R2.
           destruct (IH (set g lane (Num (Qred (old + 1)))) (Qred (dq - 1)))
             as (dq1 & H1 & H2 & H3 & H4).
           pose proof (qsum_set g lane old (Qred (old + 1)) Hold) as S.
           exists dq1. split; [exact H1|]. repeat split; lra.
        -- destruct (IH g dq) as (dq1 & H1 & H2 & H3 & H4).
           exists dq1. repeat split; try assumption; lra.
Qed.

Lemma redistribute_reach (c : controller) (g : obj value) (a : Q)
      (d : obj value) :
  Forall (fun kv => Spec.is_num (snd kv) = true) g ->
  - inject_Z (Z.of_nat (List.length (lanes c)))
  <= Spec.qsum (snd (_redistribute c g (Num a) d)) - Spec.qsum g /\
  Spec.qsum (snd (_redistribute c g (Num a) d)) - Spec.qsum g
  <= inject_Z (Z.of_nat (List.length (lanes c))).
Proof.
  intros Hnum.
  destruct (sum_values_denotes g Hnum) as (s & Hs & Hsq).
  assert (P : 0 <= inject_Z (Z.of_nat (List.length (lanes c)))).
  { change 0 with (inject_Z 0). rewrite <- Zle_Qle. lia. }
  unfold _redistribute. rewrite Hs. cbn [sub]. unfold num.
  destruct (strict_eq (Num (Qred (a - s))) (Num 0)).
  - cbn [snd]. lra.
  - cbn [snd].
    destruct (redistribute_loop_steps
                (mkController (cycleLength c) (minGreen c) (maxGreen c)
                   (yellowTime c) (allRedTime c)
                   (sort (by_density_desc d) (lanes c)))
                (sort (by_density_desc d) (lanes c)) g (Qred (a - s)))
      as (dq1 & _ & H2 & H3 & H4).
    rewrite (Permutation_length (sort_permutation (by_density_desc d) (lanes c)))
      in H3, H4.
    lra.
Qed.

Lemma lanes_known_length (c : controller) :
  Spec.lanes_known c = true -> List.length (lanes c) = 4%nat.
Proof.
  intros H. apply same_lanes_true in H. destruct H as [Hnd Hin].
  assert (Hn : NoDup Spec.lane_names).
  { apply nodupb_true. reflexivity. }
  exact (Permutation_length (NoDup_Permutation Hnd Hn Hin)).
Qed.

(** X6.  A call walks the lanes once and adjusts each by at most one
    second, so the sum of the allocation returned is within 4 of the sum of
    the clamped allocation; when [availableTime] is further away than
    that, the allocation does not sum to it. *)
Theorem redistribution_reaches_at_most_four (c : controller) (d : obj value) :
  Spec.config_invariant c = true ->
  Spec.lanes_known c = true ->
  Spec.numeric_over_lanes d = true ->
  strict_eq (total_density d) (Num 0) = false ->
  exists g s0 s1 a,
    snd (computeGreenTimes c (AObj d)) = Ok g /\
    Spec.denotes (sum_values (constrained c (rawGreen c d (total_density d)))) s0 /\
    Spec.denotes (sum_values g) s1 /\
    Spec.denotes (availableTime c) a /\
    s0 - 4 <= s1 /\ s1 <= s0 + 4 /\
    (a < s0 - 4 \/ s0 + 4 < a -> ~ s1 == a).
Proof.
  intros Hc Hl Hd Ez.
  pose proof (lanes_known_length c Hl) as Hlen.
  apply same_lanes_true in Hl. destruct Hl as [_ Hl].
  assert (Hget : forall lane, In lane (lanes c) -> exists q, get d lane = Num q).
  { intros lane Hlane. apply (numeric_over_lanes_get d Hd). now apply Hl. }
  assert (Hnum : forallb Spec.is_num (values d) = true).
  { unfold Spec.numeric_over_lanes in Hd. now apply andb_true_iff in Hd. }
  destruct (config_invariant_fields c Hc) as (m & M & a & Hm & HM & HmM & Ha).
  pose proof (constrained_within c d Hc Hget Hnum Ez) as Hcon.
  unfold computeGreenTimes. rewrite Ez.
  set (con := constrained c (rawGreen c d (total_density d))) in *.
  destruct (redistribute_within c con (availableTime c) d Hcon) as [Hw _].
  pose proof (redistribute_reach c con a d (within_is_num c con Hcon)) as Hr.
  rewrite Hlen in Hr. change (inject_Z (Z.of_nat 4)) with 4 in Hr.
  rewrite Ha in *.
  destruct (_redistribute c con (Num a) d) as [c' g].
  cbn [snd] in *.
  exists g, (Spec.qsum con), (Spec.qsum g), a.
  split; [reflexivity|].
  split; [apply sum_values_denotes; exact (within_is_num c con Hcon)|].
  split; [apply sum_values_denotes; exact (within_is_num c g Hw)|].
  split; [apply denotes_num|].
  split; [lra|]. split; [lra|].
  intros [H|H] E; lra.
Qed.

(** The README scenario: clamped sum 48, 40 available, allocation sum 46. *)
Lemma redistribution_reaches_at_most_four_witness :
  exists g s0 s1 a,
    snd (computeGreenTimes Examples.main_controller
           (AObj (Examples.readings 80 20 60 40))) = Ok g /\
    Spec.denotes
      (sum_values
         (constrained Examples.main_controller
            (rawGreen Examples.main_controller (Examples.readings 80 20 60 40)
               (total_density (Examples.readings 80 20 60 40))))) s0 /\
    Spec.denotes (sum_values g) s1 /\
    Spec.denotes (availableTime Examples.main_controller) a /\
    s0 - 4 <= s1 /\ s1 <= s0 + 4 /\
    (a < s0 - 4 \/ s0 + 4 < a -> ~ s1 == a).
Proof.
  apply (redistribution_reaches_at_most_four Examples.main_controller
           (Examples.readings 80 20 60 40)); reflexivity.
Defined.

End RedistributionReach.

(** ** The efficiency scores *)

Section EfficiencyFacts.

Lemma div_num_nonzero (x y : Q) :
  ~ y == 0 -> exists z, div (Num x) (Num y) = Num z /\ z == x / y.
Proof.
  intros Hy. cbn [div]. destruct (Qeq_bool y 0) eqn:E.
  - apply Qeq_bool_iff in E. contradiction.
  - unfold num. eexists. split; [reflexivity | apply Qred_correct].
Qed.

Lemma Qdiv_nonneg (x y : Q) : 0 <= x -> 0 < y -> 0 <= x / y.
Proof. intros Hx Hy. apply Qle_shift_div_l; [assumption | lra]. Qed.

Lemma Qdiv_pos (x y : Q) : 0 < x -> 0 < y -> 0 < x / y.
Proof. intros Hx Hy. apply Qlt_shift_div_l; [assumption | lra]. Qed.

Lemma ratio_bounds (u w : Q) :
  0 <= u -> u <= w -> 0 < w ->
  exists al, div (Num u) (Num w) = Num al /\ 0 <= al /\ al <= 1.
Proof.
  intros Hu Huw Hw.
  destruct (div_num_nonzero u w) as (al & E & Hal); [lra|].
  exists al. split; [assumption|]. rewrite Hal. split.
  - apply Qle_shift_div_l; [assumption | lra].
  - apply Qle_shift_div_r; [assumption | lra].
Qed.

(** A ratio whose numerator is at most [b] times its divisor. *)
Lemma ratio_at_most (u w b : Q) :
  0 <= u -> 0 < w -> u <= b * w ->
  exists al, div (Num u) (Num w) = Num al /\ 0 <= al /\ al <= b.
Proof.
  intros Hu Hw Hb.
  destruct (div_num_nonzero u w) as (al & E & Hal); [lra|].
  exists al. split; [assumption|]. rewrite Hal. split.
  - apply Qle_shift_div_l; lra.
  - apply Qle_shift_div_r; lra.
Qed.

Lemma min_max_num (x y : Q) :
  exists u w,
    Math_min (Num x) (Num y) = Num u /\ Math_max (Num x) (Num y) = Num w /\
    u <= x /\ u <= y /\ x <= w /\ y <= w /\ (u == x \/ u == y).
Proof.
  cbn [Math_min Math_max]. destruct (Qle_bool x y) eqn:E.
  - apply Qle_bool_iff in E. exists x, y. repeat split; lra.
  - apply Qle_bool_false in E. exists y, x. repeat split; lra.
Qed.

(** Adding scores that are numbers in [0, 1] gives a number between the
    start and the start plus the number of lanes. *)
Lemma score_sum (f : string -> value) (ls : list string) :
  (forall lane, In lane ls -> exists al, f lane = Num al /\ 0 <= al /\ al <= 1) ->
  forall t0 : Q,
  exists t,
    fold_left (fun total lane => add total (f lane)) ls (Num t0) = Num t /\
    t0 <= t /\ t <= t0 + inject_Z (Z.of_nat (List.length ls)).
Proof.
  induction ls as [|lane ls IH]; intros Hf t0.
  - exists t0. cbn. split; [reflexivity|]. change (inject_Z 0) with 0. lra.
  - pose proof (inject_length_cons string lane ls) as L.
    destruct (Hf lane (or_introl eq_refl)) as (al & E & H0 & H1).
    cbn [fold_left]. rewrite E. cbn [add]. unfold num.
    pose proof (Qred_correct (t0 + al)) as R.
    destruct (IH (fun l H => Hf l (or_intror H)) (Qred (t0 + al)))
      as (t & Et & Ht0 & Ht1).
    exists t. split; [assumption|]. lra.
Qed.

(** The same with every score at most [b]. *)
Lemma score_sum_at_most (f : string -> value) (ls : list string) (b : Q) :
  (forall lane, In lane ls -> exists al, f lane = Num al /\ 0 <= al /\ al <= b) ->
  forall t0 : Q,
  exists t,
    fold_left (fun total lane => add total (f lane)) ls (Num t0) = Num t /\
    t0 <= t /\ t <= t0 + b * inject_Z (Z.of_nat (List.length ls)).
Proof.
  induction ls as [|lane ls IH]; intros Hf t0.
  - exists t0. cbn. split; [reflexivity|]. change (inject_Z 0) with 0. lra.
  - pose proof (inject_length_cons string lane ls) as L.
    destruct (Hf lane (or_introl eq_refl)) as (al & E & H0 & H1).
    cbn [fold_left]. rewrite E. cbn [add]. unfold num.
    pose proof (Qred_correct (t0 + al)) as R.
    destruct (IH (fun l H => Hf l (or_intror H)) (Qred (t0 + al)))
      as (t & Et & Ht0 & Ht1).
    exists t. split; [assumption|]. rewrite L. lra.
Qed.

End EfficiencyFacts.

Section ControllerEfficiency.

Import AdaptiveController.

(** X7.  For a controller with its four lanes and a positive cycle length,
    non-negative densities and positive green times, the efficiency score
    of [calculateEfficiency] is a number in [0, 100]. *)
Theorem calculateEfficiency_in_range
        (c : controller) (densities greenTimes : obj value) :
  Spec.lanes_known c = true ->
  lt (Num 0) (cycleLength c) = true ->
  forallb (fun lane => le (Num 0) (get densities lane)
                       && lt (Num 0) (get greenTimes lane)) (lanes c) = true ->
  Playback.percent (calculateEfficiency c densities greenTimes) = true.
Proof.
  intros Hl Hcy Hin.
  pose proof (lanes_known_length c Hl) as Hlen.
  apply lt_true in Hcy. destruct Hcy as (z & cy & [= <-] & Ecy & Hcy).
  rewrite forallb_forall in Hin.
  unfold calculateEfficiency.
  destruct (score_sum
              (fun lane =>
                 div (Math_min (div (get densities lane) (Num 100))
                               (div (get greenTimes lane) (cycleLength c)))
                     (Math_max (div (get densities lane) (Num 100))
                               (div (get greenTimes lane) (cycleLength c))))
              (lanes c)) with (t0 := 0) as (t & Et & Ht0 & Ht1).
  { intros lane Hlane. specialize (Hin lane Hlane).
    apply andb_true_iff in Hin. destruct Hin as [Hd Hg].
    apply le_true in Hd. destruct Hd as (z0 & dq & [= <-] & -> & Hdq).
    apply lt_true in Hg. destruct Hg as (z1 & gq & [= <-] & -> & Hgq).
    rewrite Ecy.
    destruct (div_num_nonzero dq 100) as (dr & -> & Hdr); [lra|].
    destruct (div_num_nonzero gq cy) as (gr & -> & Hgr); [lra|].
    assert (Pdr : 0 <= dr) by (rewrite Hdr; apply Qdiv_nonneg; lra).
    assert (Pgr : 0 < gr) by (rewrite Hgr; apply Qdiv_pos; lra).
    destruct (min_max_num dr gr) as (u & w & -> & -> & ? & ? & ? & ? & Hu).
    apply ratio_bounds; try lra; destruct Hu as [Hu|Hu]; rewrite Hu; lra. }
  rewrite Et. unfold lanes_length, of_nat. rewrite Hlen in *.
  change (inject_Z (Z.of_nat 4)) with 4 in *.
  destruct (div_num_nonzero t 4) as (q & -> & Hq); [lra|].
  assert (Q0 : 0 <= t / 4) by (apply Qdiv_nonneg; lra).
  assert (Q1 : t / 4 <= 1) by (apply Qle_shift_div_r; lra).
  cbn [mul]. unfold num, Playback.percent.
  pose proof (Qred_correct (q * 100)) as R.
  apply andb_true_iff. split; apply le_true; do 2 eexists;
    (split; [reflexivity|split; [reflexivity|]]); lra.
Qed.

(** The README scenario and the allocation the controller returns for
    it. *)
Lemma calculateEfficiency_in_range_witness :
  Playback.percent
    (calculateEfficiency Examples.main_controller
       (Examples.readings 80 20 60 40) (Examples.readings 15 10 11 10)) = true.
Proof.
  apply (calculateEfficiency_in_range Examples.main_controller
           (Examples.readings 80 20 60 40) (Examples.readings 15 10 11 10));
    reflexivity.
Defined.

End ControllerEfficiency.

Section DashboardEfficiency.

Import Dashboard.

(** X8.  For a dashboard state whose densities are non-negative numbers
    and whose green times are numbers between 0 and the 60 s cycle the
    method assumes, on the four lanes, the dashboard's efficiency score is
    a number between 0 and 100 / 1.01 (about 99.01), so it is never 100:
    with the 0.01 added to the green ratio in the divisor, the score of a
    lane is at most greenRatio / (greenRatio + 0.01), even when the
    allocation matches the density exactly. *)
Theorem dashboard_efficiency_below_100 (d : dashboard) :
  forallb (fun lane =>
             le (Num 0) (get (Simulator.st_densities (state d)) lane)
             && le (Num 0) (get (Simulator.st_greenTimes (state d)) lane)
             && le (get (Simulator.st_greenTimes (state d)) lane) (Num 60))
          lanes = true ->
  le (Num 0) (calculateEfficiency d)
  && le (calculateEfficiency d) (Num (10000 # 101))
  && lt (calculateEfficiency d) (Num 100) = true.
Proof.
  intros Hin. rewrite forallb_forall in Hin.
  unfold calculateEfficiency.
  destruct (score_sum_at_most
              (fun lane =>
                 div (Math_min
                        (div (get (Simulator.st_densities (state d)) lane) (Num 100))
                        (div (get (Simulator.st_greenTimes (state d)) lane) (Num 60)))
                     (Math_max
                        (div (get (Simulator.st_densities (state d)) lane) (Num 100))
                        (add (div (get (Simulator.st_greenTimes (state d)) lane)
                                  (Num 60))
                             (Num (1 # 100)))))
              lanes (100 # 101)) with (t0 := 0) as (t & Et & Ht0 & Ht1).
  { intros lane Hlane. specialize (Hin lane Hlane).
    apply andb_true_iff in Hin. destruct Hin as [Hin Hg60].
    apply andb_true_iff in Hin. destruct Hin as [Hd Hg].
    apply le_true in Hd. destruct Hd as (z0 & dq & [= <-] & Ed & Hdq).
    apply le_true in Hg. destruct Hg as (z1 & gq & [= <-] & Eg & Hgq).
    rewrite Eg in Hg60. apply le_true in Hg60.
    destruct Hg60 as (gq' & z2 & [= <-] & [= <-] & Hg60).
    rewrite Ed, Eg.
    destruct (div_num_nonzero dq 100) as (dr & -> & Hdr); [lra|].
    destruct (div_num_nonzero gq 60) as (gr & -> & Hgr); [lra|].
    cbn [add]. unfold num.
    pose proof (Qred_correct (gr + (1 # 100))) as R.
    assert (Pdr : 0 <= dr) by (rewrite Hdr; apply Qdiv_nonneg; lra).
    assert (Pgr : 0 <= gr) by (rewrite Hgr; apply Qdiv_nonneg; lra).
    assert (Ugr : gr <= 1) by (rewrite Hgr; apply Qle_shift_div_r; lra).
    destruct (min_max_num dr gr) as (u & w & -> & _ & ? & ? & _ & _ & Hu).
    destruct (min_max_num dr (Qred (gr + (1 # 100))))
      as (u' & w' & _ & -> & _ & _ & ? & ? & _).
    apply ratio_at_most; try lra; destruct Hu as [Hu|Hu]; rewrite Hu; lra. }
  rewrite Et. change (of_nat (List.length lanes)) with (Num 4).
  change (inject_Z (Z.of_nat (List.length lanes))) with 4 in *.
  destruct (div_num_nonzero t 4) as (q & -> & Hq); [lra|].
  assert (Q0 : 0 <= t / 4) by (apply Qdiv_nonneg; lra).
  assert (Q1 : t / 4 <= 100 # 101) by (apply Qle_shift_div_r; lra).
  cbn [mul]. unfold num.
  pose proof (Qred_correct (q * 100)) as R.
  apply andb_true_iff. split; [apply andb_true_iff; split|].
  - apply le_true. do 2 eexists. split; [reflexivity|split; [reflexivity|]]. lra.
  - apply le_true. do 2 eexists. split; [reflexivity|split; [reflexivity|]]. lra.
  - apply lt_true. do 2 eexists. split; [reflexivity|split; [reflexivity|]]. lra.
Qed.

(** A perfect match on every lane, density 100 and the whole cycle of
    60 s green, where the plain ratio would give 100: the score is
    100 / 1.01. *)
Lemma dashboard_efficiency_below_100_witness :
  calculateEfficiency perfect_match = Num (10000 # 101) /\
  le (Num 0) (calculateEfficiency perfect_match)
  && le (calculateEfficiency perfect_match) (Num (10000 # 101))
  && lt (calculateEfficiency perfect_match) (Num 100) = true.
Proof.
  split; [reflexivity|].
  apply (dashboard_efficiency_below_100 perfect_match). reflexivity.
Defined.

End DashboardEfficiency.

(** ** The dashboard's rolling history *)

Section HistoryFacts.

Import Dashboard.

Lemma series_set_same (h : obj (list value)) (lane : string) (l : list value) :
  series (set h lane l) lane = l.
Proof. unfold series. now rewrite lookup_set_same. Qed.

Lemma series_set_other (h : obj (list value)) (lane lane' : string)
      (l : list value) :
  lane <> lane' -> series (set h lane l) lane' = series h lane'.
Proof. intros H. unfold series. now rewrite lookup_set_other. Qed.

(** A loop that rewrites the array of each lane of [ls] in turn rewrites
    each of them once and touches no other. *)
Lemma each_series (F : list value -> string -> list value) (ls : list string) :
  NoDup ls ->
  forall (h : obj (list value)) (lane : string),
    series (fold_left (fun h l => set h l (F (series h l) l)) ls h) lane
    = if in_dec string_dec lane ls then F (series h lane) lane
      else series h lane.
Proof.
  induction 1 as [|l ls Hl Hnd IH]; intros h lane; cbn [fold_left].
  - reflexivity.
  - rewrite IH.
    destruct (in_dec string_dec lane ls) as [Hin|Hout];
      destruct (in_dec string_dec lane (l :: ls)) as [Hin'|Hout'].
    + rewrite series_set_other; [reflexivity|]. intros ->. contradiction.
    + exfalso. apply Hout'. now right.
    + destruct Hin' as [->|Hin']; [|contradiction].
      apply series_set_same.
    + apply series_set_other. intros ->. apply Hout'. now left.
Qed.

Lemma lanes_nodup : NoDup lanes.
Proof. apply nodupb_true. reflexivity. Qed.

Lemma push_all_series (h : obj (list value)) (from : obj value) (lane : string) :
  In lane lanes ->
  series (push_all h from) lane = (series h lane ++ [get from lane])%list.
Proof.
  intros Hin. unfold push_all.
  rewrite (each_series (fun l lane => l ++ [get from lane])%list lanes lanes_nodup).
  destruct (in_dec string_dec lane lanes); [reflexivity | contradiction].
Qed.

Lemma shift_all_series (h : obj (list value)) (lane : string) :
  In lane lanes -> series (shift_all h) lane = tl (series h lane).
Proof.
  intros Hin. unfold shift_all.
  rewrite (each_series (fun l _ => tl l) lanes lanes_nodup).
  destruct (in_dec string_dec lane lanes); [reflexivity | contradiction].
Qed.

Lemma length_tl (A : Type) (l : list A) : List.length (tl l) = pred (List.length l).
Proof. destruct l; reflexivity. Qed.

Lemma addToHistory_aligned (d : dashboard) (n : nat) :
  aligned (hist d) n -> (n <= maxHistoryPoints)%nat ->
  aligned (hist (addToHistory d)) (Nat.min (S n) maxHistoryPoints).
Proof.
  intros (Ht & He & Hs) Hn. unfold addToHistory. cbn [hist timestamps].
  rewrite length_app, Ht. cbn [List.length].
  rewrite Forall_forall in Hs.
  destruct (Nat.ltb maxHistoryPoints (n + 1)) eqn:E.
  - apply Nat.ltb_lt in E.
    assert (En : n = maxHistoryPoints) by lia.
    unfold aligned. cbn [timestamps efficiency h_densities h_greenTimes].
    rewrite !length_tl, !length_app, Ht, He. cbn [List.length].
    repeat split; try lia.
    apply Forall_forall. intros lane Hlane. destruct (Hs lane Hlane) as [H1 H2].
    rewrite !shift_all_series, !push_all_series by assumption.
    rewrite !length_tl, !length_app, H1, H2. cbn [List.length]. lia.
  - apply Nat.ltb_ge in E.
    unfold aligned. cbn [timestamps efficiency h_densities h_greenTimes].
    rewrite !length_app, Ht, He. cbn [List.length].
    repeat split; try lia.
    apply Forall_forall. intros lane Hlane. destruct (Hs lane Hlane) as [H1 H2].
    rewrite !push_all_series by assumption.
    rewrite !length_app, H1, H2. cbn [List.length]. lia.
Qed.

Lemma constructor_aligned : aligned (hist constructor) 0.
Proof. repeat split. repeat constructor. Qed.

Lemma receive_aligned (calls : list Simulator.dashboard_call) :
  forall d : dashboard,
    (exists n, aligned (hist d) n /\ (n <= maxHistoryPoints)%nat) ->
    exists n, aligned (hist (fold_left receive calls d)) n /\
              (n <= maxHistoryPoints)%nat.
Proof.
  induction calls as [|call calls IH]; intros d Hd; [exact Hd|].
  cbn [fold_left]. apply IH. destruct call as [|st].
  - exists 0%nat. split; [apply constructor_aligned | unfold maxHistoryPoints; lia].
  - destruct Hd as (n & Hn & Hle).
    exists (Nat.min (S n) maxHistoryPoints). split; [|lia].
    unfold receive, update.
    apply (addToHistory_aligned {| state := st; hist := hist d |} n); assumption.
Qed.

(** X9.  Whatever calls a simulator makes on the dashboard, the history
    never holds more than 100 points, and its arrays stay aligned: the
    efficiency array and the density and green-time arrays of every lane
    are as long as the timestamp array. *)
Theorem history_is_bounded_and_aligned (calls : list Simulator.dashboard_call) :
  (List.length (timestamps (hist (replay calls))) <= 100)%nat /\
  List.length (efficiency (hist (replay calls)))
  = List.length (timestamps (hist (replay calls))) /\
  Forall (fun lane =>
            List.length (series (h_densities (hist (replay calls))) lane)
            = List.length (timestamps (hist (replay calls))) /\
            List.length (series (h_greenTimes (hist (replay calls))) lane)
            = List.length (timestamps (hist (replay calls)))) lanes.
Proof.
  destruct (receive_aligned calls constructor) as (n & (Ht & He & Hs) & Hn).
  { exists 0%nat. split; [apply constructor_aligned | unfold maxHistoryPoints; lia]. }
  fold (replay calls) in *. rewrite Ht, He.
  split; [exact Hn|]. split; [reflexivity|]. exact Hs.
Qed.

End HistoryFacts.

Section HistoryWindow.

Import Dashboard.

(** Appending to the last 100 of [L] and dropping the oldest when that
    makes 101 gives the last 100 of [L] with the new point. *)
Lemma roll_window (A : Type) (L : list A) (x : A) (n : nat) :
  n = List.length L ->
  (if Nat.ltb 100 (Nat.min n 100 + 1)
   then tl (skipn (n - 100) L ++ [x])
   else skipn (n - 100) L ++ [x])%list
  = skipn (n + 1 - 100) (L ++ [x]).
Proof.
  intros ->.
  assert (E : (skipn (List.length L - 100) L ++ [x])%list
              = skipn (List.length L - 100) (L ++ [x])).
  { rewrite skipn_app.
    replace (List.length L - 100 - List.length L)%nat with 0%nat by lia.
    reflexivity. }
  rewrite E.
  destruct (Nat.ltb 100 (Nat.min (List.length L) 100 + 1)) eqn:C.
  - apply Nat.ltb_lt in C.
    change (tl (skipn (List.length L - 100) (L ++ [x])))
      with (skipn 1 (skipn (List.length L - 100) (L ++ [x]))).
    rewrite skipn_skipn. f_equal. lia.
  - apply Nat.ltb_ge in C. f_equal. lia.
Qed.

(** X10.  After any number of updates of a fresh dashboard, the history
    holds the last 100 points in the order they came: the efficiency array
    is the last 100 scores, and the density and green-time arrays of each
    lane are that lane's last 100 values. *)
Theorem history_holds_last_100 (sts : list Simulator.tick_state) :
  efficiency (hist (fold_left update sts constructor))
  = skipn (List.length sts - 100)
          (map (fun st => calculateEfficiency (mkDashboard st empty_history)) sts)
  /\
  Forall
    (fun lane =>
       series (h_densities (hist (fold_left update sts constructor))) lane
       = skipn (List.length sts - 100)
               (map (fun st => get (Simulator.st_densities st) lane) sts)
       /\
       series (h_greenTimes (hist (fold_left update sts constructor))) lane
       = skipn (List.length sts - 100)
               (map (fun st => get (Simulator.st_greenTimes st) lane) sts))
    lanes.
Proof.
  assert (H : List.length (timestamps (hist (fold_left update sts constructor)))
              = Nat.min (List.length sts) 100
              /\ efficiency (hist (fold_left update sts constructor))
                 = skipn (List.length sts - 100)
                     (map (fun st => calculateEfficiency (mkDashboard st empty_history))
                          sts)
              /\ Forall
                   (fun lane =>
                      series (h_densities (hist (fold_left update sts constructor)))
                             lane
                      = skipn (List.length sts - 100)
                          (map (fun st => get (Simulator.st_densities st) lane) sts)
                      /\
                      series (h_greenTimes (hist (fold_left update sts constructor)))
                             lane
                      = skipn (List.length sts - 100)
                          (map (fun st => get (Simulator.st_greenTimes st) lane) sts))
                   lanes).
  { induction sts as [|st sts IH] using rev_ind.
    - split; [reflexivity|]. split; [reflexivity|]. repeat constructor.
    - destruct IH as (Ht & He & Hs). rewrite Forall_forall in Hs.
      rewrite fold_left_app. cbn [fold_left].
      set (d := fold_left update sts constructor) in *.
      unfold update, addToHistory.
      cbn [hist state timestamps efficiency h_densities h_greenTimes].
      rewrite !map_app. cbn [map].
      rewrite (length_app (timestamps (hist d))), Ht. cbn [List.length].
      unfold maxHistoryPoints.
      rewrite (length_app sts). cbn [List.length].
      pose proof (roll_window _
                    (map (fun st => calculateEfficiency (mkDashboard st empty_history))
                         sts)
                    (calculateEfficiency (mkDashboard st empty_history))
                    (List.length sts) (eq_sym (length_map _ sts))) as Re.
      assert (Rd : forall lane,
                 (if Nat.ltb 100 (Nat.min (List.length sts) 100 + 1)
                  then tl (skipn (List.length sts - 100)
                             (map (fun st => get (Simulator.st_densities st) lane) sts)
                           ++ [get (Simulator.st_densities st) lane])
                  else skipn (List.length sts - 100)
                         (map (fun st => get (Simulator.st_densities st) lane) sts)
                       ++ [get (Simulator.st_densities st) lane])%list
                 = skipn (List.length sts + 1 - 100)
                     (map (fun st => get (Simulator.st_densities st) lane) sts
                      ++ [get (Simulator.st_densities st) lane])).
      { intros lane. apply roll_window. symmetry. apply length_map. }
      assert (Rg : forall lane,
                 (if Nat.ltb 100 (Nat.min (List.length sts) 100 + 1)
                  then tl (skipn (List.length sts - 100)
                             (map (fun st => get (Simulator.st_greenTimes st) lane) sts)
                           ++ [get (Simulator.st_greenTimes st) lane])
                  else skipn (List.length sts - 100)
                         (map (fun st => get (Simulator.st_greenTimes st) lane) sts)
                       ++ [get (Simulator.st_greenTimes st) lane])%list
                 = skipn (List.length sts + 1 - 100)
                     (map (fun st => get (Simulator.st_greenTimes st) lane) sts
                      ++ [get (Simulator.st_greenTimes st) lane])).
      { intros lane. apply roll_window. symmetry. apply length_map. }
      destruct (Nat.ltb 100 (Nat.min (List.length sts) 100 + 1)) eqn:C;
        [apply Nat.ltb_lt in C | apply Nat.ltb_ge in C];
        cbn [timestamps efficiency h_densities h_greenTimes];
        (split; [|split]).
      + rewrite length_tl, length_app, Ht. cbn [List.length]. lia.
      + rewrite He. exact Re.
      + apply Forall_forall. intros lane Hlane.
        destruct (Hs lane Hlane) as [Hd Hg].
        rewrite !shift_all_series, !push_all_series by assumption.
        rewrite Hd, Hg, !map_app. cbn [map]. split; [apply Rd | apply Rg].
      + rewrite length_app, Ht. cbn [List.length]. lia.
      + rewrite He. exact Re.
      + apply Forall_forall. intros lane Hlane.
        destruct (Hs lane Hlane) as [Hd Hg].
        rewrite !push_all_series by assumption.
        rewrite Hd, Hg, !map_app. cbn [map]. split; [apply Rd | apply Rg]. }
  destruct H as (_ & He & Hs). split; assumption.
Qed.

End HistoryWindow.

(** ** The demand source *)

Section SensorFacts.

Import VirtualSensor.

Lemma clamp_percent_num (x : Q) :
  exists r, clamp_percent (Num x) = Num r /\ 0 <= r <= 100.
Proof. apply (clamp_within 0 100 x). lra. Qed.

(** Inside [0, 100] the clamp returns its argument. *)
Lemma clamp_percent_inside (x : Q) :
  0 <= x <= 100 -> Spec.denotes (clamp_percent (Num x)) x.
Proof.
  intros [H0 H1]. unfold clamp_percent. cbn [Math_min Math_max].
  destruct (Qle_bool 100 x) eqn:E1.
  - apply Qle_bool_iff in E1. cbn [Qle_bool Qnum Qden Z.leb Z.mul Z.compare Pos.mul].
    exists 100. split; [reflexivity | lra].
  - destruct (Qle_bool 0 x) eqn:E2.
    + apply denotes_num.
    + apply Qle_bool_false in E2. exists 0. split; [reflexivity | lra].
Qed.

Lemma peakFactor_num (hour : value) : exists pf, peakFactor hour = Num pf.
Proof.
  unfold peakFactor.
  destruct (ge hour (Num 7) && le hour (Num 9)
            || ge hour (Num 17) && le hour (Num 19)); [eauto|].
  destruct (ge hour (Num 22) || le hour (Num 5)); eauto.
Qed.

Lemma percent_true (v : value) :
  Playback.percent v = true <-> exists q, v = Num q /\ 0 <= q <= 100.
Proof.
  unfold Playback.percent. rewrite andb_true_iff, !le_true. split.
  - intros [(x & y & [= <-] & -> & H0) (x' & y' & [= <-] & [= <-] & H1)]. eauto.
  - intros (q & -> & H0 & H1). split; do 2 eexists; eauto.
Qed.

Lemma generateDensity_numeric (s : sensor) (hour randomGaussian : value) :
  Playback.numeric_sensor s = true ->
  Spec.is_num randomGaussian = true ->
  Playback.percent (snd (generateDensity s hour randomGaussian)) = true /\
  lastDensity (fst (generateDensity s hour randomGaussian))
  = snd (generateDensity s hour randomGaussian) /\
  Playback.numeric_sensor (fst (generateDensity s hour randomGaussian)) = true /\
  emaCoefficient (fst (generateDensity s hour randomGaussian)) = emaCoefficient s /\
  overrideDensity (fst (generateDensity s hour randomGaussian)) = overrideDensity s.
Proof.
  unfold Playback.numeric_sensor. intros Hs Hg.
  apply andb_true_iff in Hs. destruct Hs as [Hs Ho].
  apply andb_true_iff in Hs. destruct Hs as [He Hsm].
  apply is_num_true in He. destruct He as (e & He).
  apply is_num_true in Hg. destruct Hg as (g & ->).
  destruct (peakFactor_num hour) as (pf & Hpf).
  unfold generateDensity. cbn [fst snd lastDensity emaCoefficient overrideDensity
                                smoothedDensity].
  rewrite Hpf, He. cbn [mul]. unfold num.
  destruct (clamp_percent_num (Qred (g * pf))) as (t & -> & Ht).
  assert (Htarget : exists tq,
             match overrideDensity s with Some o => o | None => Num t end = Num tq).
  { destruct (overrideDensity s) as [o|]; [|eauto].
    apply is_num_true in Ho. exact Ho. }
  destruct Htarget as (tq & ->).
  destruct (smoothedDensity s) as [| |q]; [|discriminate Hsm|];
    cbn [add mul sub]; unfold num;
    match goal with
    | |- context [clamp_percent (Num ?n)] =>
        destruct (clamp_percent_num n) as (r & Hr & Hrange); rewrite Hr
    end;
    (repeat split;
     [ apply percent_true; eauto
     | cbn [Spec.is_num andb];
       destruct (overrideDensity s); [exact Ho | reflexivity] ]).
Qed.

(** X11.  A sensor whose state holds numbers, sampled with a numeric draw,
    returns a number in [0, 100] at any hour, records it as its last
    reading, and is left in a state that again holds numbers, with the same
    coefficient and the same override. *)
Theorem generateDensity_in_range (s : sensor) (hour randomGaussian : value) :
  Playback.numeric_sensor s = true ->
  Spec.is_num randomGaussian = true ->
  Playback.percent (snd (generateDensity s hour randomGaussian)) = true /\
  lastDensity (fst (generateDensity s hour randomGaussian))
  = snd (generateDensity s hour randomGaussian) /\
  Playback.numeric_sensor (fst (generateDensity s hour randomGaussian)) = true /\
  emaCoefficient (fst (generateDensity s hour randomGaussian)) = emaCoefficient s /\
  overrideDensity (fst (generateDensity s hour randomGaussian)) = overrideDensity s.
Proof. exact (generateDensity_numeric s hour randomGaussian). Qed.

(** The north sensor of Main.js at 8 o'clock with a draw of 90. *)
Lemma generateDensity_in_range_witness :
  Playback.percent
    (snd (generateDensity (Examples.sensor_of "north" [("initialDensity", Num 40)])
            (Num 8) (Num 90))) = true /\
  lastDensity
    (fst (generateDensity (Examples.sensor_of "north" [("initialDensity", Num 40)])
            (Num 8) (Num 90)))
  = snd (generateDensity (Examples.sensor_of "north" [("initialDensity", Num 40)])
           (Num 8) (Num 90)) /\
  Playback.numeric_sensor
    (fst (generateDensity (Examples.sensor_of "north" [("initialDensity", Num 40)])
            (Num 8) (Num 90))) = true /\
  emaCoefficient
    (fst (generateDensity (Examples.sensor_of "north" [("initialDensity", Num 40)])
            (Num 8) (Num 90)))
  = emaCoefficient (Examples.sensor_of "north" [("initialDensity", Num 40)]) /\
  overrideDensity
    (fst (generateDensity (Examples.sensor_of "north" [("initialDensity", Num 40)])
            (Num 8) (Num 90)))
  = overrideDensity (Examples.sensor_of "north" [("initialDensity", Num 40)]).
Proof.
  apply (generateDensity_in_range
           (Examples.sensor_of "north" [("initialDensity", Num 40)])
           (Num 8) (Num 90)); reflexivity.
Defined.

End SensorFacts.

Section SensorOverride.

Import VirtualSensor.

Lemma setDensity_sample_denotes (s : sensor) (v : Q) (hour randomGaussian : value) :
  Spec.is_num (emaCoefficient s) = true ->
  exists p,
    clamp_percent (Num v) = Num p /\ 0 <= p <= 100 /\
    Spec.denotes (snd (generateDensity (setDensity s (Num v)) hour randomGaussian)) p.
Proof.
  intros He. apply is_num_true in He. destruct He as (e & He).
  destruct (clamp_percent_num v) as (p & Hp & Hrange).
  exists p. split; [assumption|]. split; [assumption|].
  unfold generateDensity, setDensity.
  cbn [fst snd overrideDensity smoothedDensity emaCoefficient].
  rewrite Hp, He.
  destruct (smoothedDensity s) as [| |q].
  - apply clamp_percent_inside. exact Hrange.
  - cbn [add mul sub]. unfold num.
    pose proof (Qred_correct (p + Qred (e * Qred (p - p)))) as R1.
    pose proof (Qred_correct (e * Qred (p - p))) as R2.
    pose proof (Qred_correct (p - p)) as R3.
    assert (E : Qred (p + Qred (e * Qred (p - p))) == p).
    { rewrite R1, R2, R3. ring. }
    destruct (clamp_percent_inside (Qred (p + Qred (e * Qred (p - p)))))
      as (x & Hx & Hxe); [lra|].
    exists x. split; [assumption | lra].
  - cbn [add mul sub]. unfold num.
    pose proof (Qred_correct (p + Qred (e * Qred (p - p)))) as R1.
    pose proof (Qred_correct (e * Qred (p - p))) as R2.
    pose proof (Qred_correct (p - p)) as R3.
    assert (E : Qred (p + Qred (e * Qred (p - p))) == p).
    { rewrite R1, R2, R3. ring. }
    destruct (clamp_percent_inside (Qred (p + Qred (e * Qred (p - p)))))
      as (x & Hx & Hxe); [lra|].
    exists x. split; [assumption | lra].
Qed.

Lemma clamp_percent_cases (v p : Q) :
  clamp_percent (Num v) = Num p ->
  (v <= 0 -> p == 0) /\ (0 <= v <= 100 -> p == v) /\ (100 <= v -> p == 100).
Proof.
  intros Hp. unfold clamp_percent in Hp. cbn [Math_min Math_max] in Hp.
  destruct (Qle_bool 100 v) eqn:E1.
  - apply Qle_bool_iff in E1. injection Hp as <-. cbn. repeat split; intros; lra.
  - apply Qle_bool_false in E1. destruct (Qle_bool 0 v) eqn:E2.
    + apply Qle_bool_iff in E2. injection Hp as <-. repeat split; intros; lra.
    + apply Qle_bool_false in E2. injection Hp as <-. repeat split; intros; lra.
Qed.

(** X12.  On a sensor with a numeric coefficient, [setDensity(v)] followed
    by a sample returns [v] clamped to [0, 100], at any hour and for any
    draw, whatever the smoothing state was: the override takes effect at
    once, without a ramp. *)
Theorem setDensity_then_sample (s : sensor) (v : Q) (hour randomGaussian : value) :
  Spec.is_num (emaCoefficient s) = true ->
  (v <= 0 ->
   Spec.denotes (snd (generateDensity (setDensity s (Num v)) hour randomGaussian)) 0)
  /\
  (0 <= v <= 100 ->
   Spec.denotes (snd (generateDensity (setDensity s (Num v)) hour randomGaussian)) v)
  /\
  (100 <= v ->
   Spec.denotes (snd (generateDensity (setDensity s (Num v)) hour randomGaussian)) 100).
Proof.
  intros He.
  destruct (setDensity_sample_denotes s v hour randomGaussian He)
    as (p & Hp & _ & Hres).
  destruct (clamp_percent_cases v p Hp) as (C0 & C1 & C2).
  repeat split; intros H; apply (denotes_eq _ p); auto.
Qed.

(** A sampled north sensor, then an override of 250. *)
Lemma setDensity_then_sample_witness :
  (250 <= 0 ->
   Spec.denotes
     (snd (generateDensity
             (setDensity (fst (generateDensity (Examples.sensor_of "north" [])
                                 NaN (Num 30))) (Num 250))
             NaN (Num 10))) 0)
  /\
  (0 <= 250 <= 100 ->
   Spec.denotes
     (snd (generateDensity
             (setDensity (fst (generateDensity (Examples.sensor_of "north" [])
                                 NaN (Num 30))) (Num 250))
             NaN (Num 10))) 250)
  /\
  (100 <= 250 ->
   Spec.denotes
     (snd (generateDensity
             (setDensity (fst (generateDensity (Examples.sensor_of "north" [])
                                 NaN (Num 30))) (Num 250))
             NaN (Num 10))) 100).
Proof.
  apply (setDensity_then_sample
           (fst (generateDensity (Examples.sensor_of "north" []) NaN (Num 30)))
           250 NaN (Num 10)).
  reflexivity.
Defined.

(** X13.  With a coefficient in [0, 1] and an accumulator that holds a
    number, a sample moves the accumulator toward the target (the override
    if there is one, else the generated value) and never past it: the new
    accumulator lies between the old one and the target. *)
Theorem smoothing_moves_toward_target (s : sensor) (hour randomGaussian : value) :
  Playback.numeric_sensor s = true ->
  le (Num 0) (emaCoefficient s) && le (emaCoefficient s) (Num 1) = true ->
  Spec.is_num (smoothedDensity s) = true ->
  Spec.is_num randomGaussian = true ->
  exists old target new,
    smoothedDensity s = Num old /\
    match overrideDensity s with
    | Some o => o
    | None => clamp_percent (mul randomGaussian (peakFactor hour))
    end = Num target /\
    smoothedDensity (fst (generateDensity s hour randomGaussian)) = Num new /\
    ((old <= new /\ new <= target) \/ (target <= new /\ new <= old)).
Proof.
  unfold Playback.numeric_sensor. intros Hs He Hsm Hg.
  apply andb_true_iff in Hs. destruct Hs as [_ Ho].
  apply andb_true_iff in He. destruct He as [He0 He1].
  apply le_true in He0. destruct He0 as (z & e & [= <-] & Ee & He0).
  apply le_true in He1. destruct He1 as (e' & o1 & Ee' & [= <-] & He1).
  rewrite Ee in Ee'. injection Ee' as <-.
  apply is_num_true in Hsm. destruct Hsm as (old & Hold).
  apply is_num_true in Hg. destruct Hg as (g & ->).
  destruct (peakFactor_num hour) as (pf & Hpf).
  assert (Htarget : exists t,
             match overrideDensity s with
             | Some o => o
             | None => clamp_percent (mul (Num g) (peakFactor hour))
             end = Num t).
  { destruct (overrideDensity s) as [o|].
    - apply is_num_true in Ho. exact Ho.
    - rewrite Hpf. cbn [mul]. unfold num.
      destruct (clamp_percent_num (Qred (g * pf))) as (t & -> & _). eauto. }
  destruct Htarget as (t & Ht).
  exists old, t. eexists. split; [assumption|]. split; [assumption|].
  unfold generateDensity. cbn [fst smoothedDensity]. rewrite Ht, Hold, Ee.
  cbn [add mul sub]. unfold num. split; [reflexivity|].
  pose proof (Qred_correct (old + Qred (e * Qred (t - old)))) as R1.
  pose proof (Qred_correct (e * Qred (t - old))) as R2.
  pose proof (Qred_correct (t - old)) as R3.
  assert (E : Qred (old + Qred (e * Qred (t - old))) == old + e * (t - old)).
  { rewrite R1, R2, R3. reflexivity. }
  rewrite E.
  destruct (Qlt_le_dec t old) as [Hlt|Hle]; [right | left]; nra.
Qed.

(** A sampled north sensor (coefficient 0.7), sampled again. *)
Lemma smoothing_moves_toward_target_witness :
  exists old target new,
    smoothedDensity (fst (generateDensity (Examples.sensor_of "north" [])
                            NaN (Num 30))) = Num old /\
    match overrideDensity (fst (generateDensity (Examples.sensor_of "north" [])
                                  NaN (Num 30))) with
    | Some o => o
    | None => clamp_percent (mul (Num 80) (peakFactor (Num 8)))
    end = Num target /\
    smoothedDensity
      (fst (generateDensity
              (fst (generateDensity (Examples.sensor_of "north" []) NaN (Num 30)))
              (Num 8) (Num 80))) = Num new /\
    ((old <= new /\ new <= target) \/ (target <= new /\ new <= old)).
Proof.
  apply (smoothing_moves_toward_target
           (fst (generateDensity (Examples.sensor_of "north" []) NaN (Num 30)))
           (Num 8) (Num 80)); reflexivity.
Defined.

(** X14.  A sensor the constructor returns is for one of the four lanes,
    has a smoothing coefficient in (0, 1] (a configured 0 having become
    0.7), a last reading that is a non-zero number, no override and no
    smoothing state yet. *)
Theorem sensor_constructor_result
        (lane : string) (config : option (obj value)) (s : sensor) :
  constructor lane config = Ok s ->
  includes known_lanes lane = true /\
  VirtualSensor.lane s = lane /\
  lt (Num 0) (emaCoefficient s) && le (emaCoefficient s) (Num 1) = true /\
  truthy (lastDensity s) = true /\
  overrideDensity s = None /\
  smoothedDensity s = Undefined.
Proof.
  unfold constructor. cbv zeta.
  set (o := match config with Some o => o | None => [] end).
  destruct (includes known_lanes lane); [|discriminate]. cbn [negb].
  cbn [emaCoefficient].
  destruct (or_default_num (get o "emaCoefficient") (7 # 10)) as (e & He & Ne);
    [lra|].
  destruct (or_default_num (get o "initialDensity") 50) as (l & Hl & Nl); [lra|].
  rewrite He.
  destruct (lt (Num e) (Num 0)) eqn:E0; [discriminate|].
  destruct (gt (Num e) (Num 1)) eqn:E1; [discriminate|].
  cbn [orb]. intros [= <-].
  cbn [VirtualSensor.lane emaCoefficient lastDensity overrideDensity smoothedDensity].
  rewrite ?He, ?Hl.
  apply lt_false_num in E0. unfold gt in E1. apply lt_false_num in E1.
  repeat split.
  - apply andb_true_iff. split.
    + apply lt_true. exists 0, e. repeat split.
      destruct (Qlt_le_dec 0 e) as [H|H]; [assumption|]. exfalso. apply Ne. lra.
    + apply le_true. exists e, 1. repeat split. assumption.
  - cbn [truthy]. apply negb_true_iff.
    destruct (Qeq_bool l 0) eqn:E; [|reflexivity].
    apply Qeq_bool_iff in E. contradiction.
Qed.

(** The north sensor of Main.js. *)
Lemma sensor_constructor_result_witness :
  includes known_lanes "north" = true /\
  VirtualSensor.lane (Examples.sensor_of "north" [("initialDensity", Num 40)])
  = "north" /\
  lt (Num 0) (emaCoefficient (Examples.sensor_of "north" [("initialDensity", Num 40)]))
  && le (emaCoefficient (Examples.sensor_of "north" [("initialDensity", Num 40)]))
        (Num 1) = true /\
  truthy (lastDensity (Examples.sensor_of "north" [("initialDensity", Num 40)]))
  = true /\
  overrideDensity (Examples.sensor_of "north" [("initialDensity", Num 40)]) = None /\
  smoothedDensity (Examples.sensor_of "north" [("initialDensity", Num 40)])
  = Undefined.
Proof.
  apply (sensor_constructor_result "north" (Some [("initialDensity", Num 40)])).
  reflexivity.
Defined.

(** X15.  Once the accumulator is [NaN] (as after [setDensity(undefined)]
    and one sample), every later sample returns [NaN] and [reset()] does
    not repair it: through any sequence of samples and resets every
    reading is [NaN] and the accumulator stays [NaN]. *)
Theorem nan_accumulator_is_permanent (s : sensor) (ops : list Playback.sensor_op) :
  smoothedDensity s = NaN ->
  Forall (fun v => v = NaN) (snd (Playback.sensor_run s ops)) /\
  smoothedDensity (fst (Playback.sensor_run s ops)) = NaN.
Proof.
  revert s. induction ops as [|[hour g|] ops IH]; intros s Hs.
  - split; [constructor | assumption].
  - cbn [Playback.sensor_run].
    destruct (generateDensity s hour g) as [s' v] eqn:E.
    assert (Hs' : smoothedDensity s' = NaN /\ v = NaN).
    { unfold generateDensity in E. rewrite Hs in E.
      cbn [add] in E. injection E as <- <-. split; reflexivity. }
    destruct Hs' as [Hs' ->].
    destruct (IH s' Hs') as [H1 H2].
    destruct (Playback.sensor_run s' ops) as [s'' vs].
    cbn [fst snd] in *. split; [constructor; [reflexivity | assumption] | assumption].
  - cbn [Playback.sensor_run]. apply IH. exact Hs.
Qed.

(** The north sensor after [setDensity(undefined)] and one sample; then a
    sample, a reset and a sample. *)
Lemma nan_accumulator_is_permanent_witness :
  Forall (fun v => v = NaN)
    (snd (Playback.sensor_run
            (fst (generateDensity (setDensity (Examples.sensor_of "north" []) Undefined)
                    NaN (Num 50)))
            [Playback.Sample NaN (Num 60); Playback.SensorReset;
             Playback.Sample (Num 8) (Num 70)])) /\
  smoothedDensity
    (fst (Playback.sensor_run
            (fst (generateDensity (setDensity (Examples.sensor_of "north" []) Undefined)
                    NaN (Num 50)))
            [Playback.Sample NaN (Num 60); Playback.SensorReset;
             Playback.Sample (Num 8) (Num 70)])) = NaN.
Proof.
  apply (nan_accumulator_is_permanent
           (fst (generateDensity (setDensity (Examples.sensor_of "north" []) Undefined)
                   NaN (Num 50)))).
  reflexivity.
Defined.

End SensorOverride.

(** ** The scheduler's ticks *)

Section TickFacts.

Import Simulator.

Lemma redistribute_keys (c : AdaptiveController.controller) (g : obj value)
      (target : value) (d : obj value) (x : string) :
  In x (keys g) ->
  In x (keys (snd (AdaptiveController._redistribute c g target d))).
Proof.
  intros Hx. unfold AdaptiveController._redistribute.
  destruct (strict_eq _ (Num 0)); cbn [snd]; [assumption|].
  now apply redistribute_loop_keys.
Qed.

Lemma computeGreenTimes_object (c : AdaptiveController.controller) (d : obj value) :
  exists c' g,
    AdaptiveController.computeGreenTimes c (AObj d) = (c', Ok g) /\
    incl (AdaptiveController.lanes c) (keys g).
Proof.
  unfold AdaptiveController.computeGreenTimes.
  destruct (strict_eq (AdaptiveController.total_density d) (Num 0)).
  - eexists; eexists. split; [reflexivity|].
    intros lane Hlane. apply build_keys. now right.
  - pose proof (fun x =>
                  redistribute_keys c
                    (AdaptiveController.constrained c
                       (AdaptiveController.rawGreen c d
                          (AdaptiveController.total_density d)))
                    (AdaptiveController.availableTime c) d x) as Hk.
    destruct (AdaptiveController._redistribute c _ _ d) as [c' g].
    exists c', g. split; [reflexivity|].
    intros lane Hlane. apply Hk. unfold AdaptiveController.constrained.
    apply build_keys. now right.
Qed.

Lemma computeSignals_nonempty (g : obj value) :
  keys g <> [] -> exists signals, _computeSignals g = Ok signals.
Proof.
  intros Hne. unfold _computeSignals, maxLane.
  destruct (keys g) as [|k ks]; [congruence|]. eauto.
Qed.

(** What the dashboard has received after an update. *)
Lemma dashboard_update_received (d : sink) (st : tick_state) :
  received (fst (dashboard_update d st)) = (received d ++ [DashUpdate st])%list.
Proof. reflexivity. Qed.

(** A sample is never [undefined]. *)
Lemma generateDensity_defined (sensor : VirtualSensor.sensor)
      (hour randomGaussian : value) :
  snd (VirtualSensor.generateDensity sensor hour randomGaussian) <> Undefined.
Proof.
  unfold VirtualSensor.generateDensity. cbn [snd].
  unfold VirtualSensor.clamp_percent at 1.
  match goal with
  | |- Math_max (Num 0) (Math_min (Num 100) ?v) <> Undefined =>
      destruct v; cbn [Math_max Math_min]; discriminate
  end.
Qed.

(** The readings of a sampling round give every sensor's lane a value. *)
Lemma sample_defined (rand : string -> value) (ss : obj VirtualSensor.sensor) :
  forall (acc : obj value) (lane : string),
    In lane (keys ss) \/ get acc lane <> Undefined ->
    get (snd (sample rand ss acc)) lane <> Undefined.
Proof.
  induction ss as [|[k sensor] rest IH]; intros acc lane H.
  - cbn [sample snd]. destruct H as [[]|H]. exact H.
  - cbn [sample].
    destruct (VirtualSensor.generateDensity sensor NaN (rand k)) as [sensor' d]
      eqn:Eg.
    pose proof (generateDensity_defined sensor NaN (rand k)) as Hd.
    rewrite Eg in Hd. cbn [snd] in Hd.
    specialize (IH (set acc k d) lane).
    destruct (sample rand rest (set acc k d)) as [rest' dens]. cbn [snd] in *.
    apply IH. destruct (string_dec k lane) as [->|Hne].
    + right. unfold get. now rewrite lookup_set_same.
    + cbn [keys map fst In] in H.
      destruct H as [[H|H]|H]; [congruence | now left | right].
      unfold get. now rewrite lookup_set_other.
Qed.

(** Sampling keeps every sensor under its key. *)
Lemma sample_keys (rand : string -> value) (ss : obj VirtualSensor.sensor) :
  forall acc : obj value, keys (fst (sample rand ss acc)) = keys ss.
Proof.
  induction ss as [|[k sensor] rest IH]; intros acc; [reflexivity|].
  cbn [sample].
  destruct (VirtualSensor.generateDensity sensor NaN (rand k)) as [sensor' d].
  specialize (IH (set acc k d)).
  destruct (sample rand rest (set acc k d)) as [rest' dens].
  cbn [fst keys map] in *. now rewrite IH.
Qed.

(** [update] returns on a record that has a reading for each of the
    dashboard's four lanes. *)
Lemma update_outcome_ok (tableBody : bool) (st : tick_state) :
  (forall lane, In lane dashboard_lanes -> get (st_densities st) lane <> Undefined) ->
  update_outcome tableBody st = Ok tt.
Proof.
  intros H. unfold update_outcome.
  destruct (values (st_densities st)) as [|v vs] eqn:Ev.
  - exfalso. apply (H "north"); [now left|].
    unfold values in Ev. apply map_eq_nil in Ev. now rewrite Ev.
  - destruct (existsb _ dashboard_lanes) eqn:E; [|now rewrite andb_false_r].
    exfalso. apply existsb_exists in E. destruct E as (lane & Hlane & Hu).
    apply (H lane Hlane). now destruct (get (st_densities st) lane).
Qed.

(** With a sensor on each of the four lanes, the [update] of a tick
    returns. *)
Lemma sensed_update_returns (s : simulator) (now : value) (rand : string -> value)
      (g : obj value) (signals : obj signal) :
  Playback.every_lane_sensed (sensors s) = true ->
  snd (dashboard_update (dashboard s)
         (Playback.record s now (snd (sample rand (sensors s) [])) g signals))
  = Ok tt.
Proof.
  intros Hs. cbn [dashboard_update snd]. apply update_outcome_ok.
  intros lane Hlane. cbn [Playback.record st_densities].
  apply sample_defined. left.
  exact (subset_true _ _ Hs lane Hlane).
Qed.

(** What a tick does when it is not a no-op and the duration has not run
    out: the record is handed over, and the cycle is counted when
    [update] returns. *)
Lemma tick_running (s : simulator) (now : value) (rand : string -> value) :
  isRunning s = true -> isPaused s = false ->
  Playback.duration_reached s now = false ->
  AdaptiveController.lanes (controller s) <> [] ->
  exists c' g signals,
    AdaptiveController.computeGreenTimes
      (controller s) (AObj (snd (sample rand (sensors s) []))) = (c', Ok g) /\
    _computeSignals g = Ok signals /\
    tick s now rand
    = {| sensors := fst (sample rand (sensors s) []);
         controller := c';
         dashboard :=
           fst (dashboard_update (dashboard s)
                  (Playback.record s now (snd (sample rand (sensors s) []))
                                   g signals));
         isPaused := false; isRunning := true;
         speedMultiplier := speedMultiplier s; tickInterval := tickInterval s;
         intervalId := intervalId s;
         cycleCount :=
           Playback.counted s
             (Playback.record s now (snd (sample rand (sensors s) [])) g signals);
         simulationDurationSeconds := simulationDurationSeconds s;
         simulationStartTime := simulationStartTime s;
         elapsedTimeSeconds := Playback.elapsed_at s now;
         pausedAtSeconds := pausedAtSeconds s |}.
Proof.
  intros Hr Hp Hd Hl.
  unfold Playback.duration_reached, Playback.elapsed_at in Hd.
  unfold tick. rewrite Hr, Hp. cbn [negb orb]. rewrite Hd.
  destruct (sample rand (sensors s) []) as [ss dens]. cbn [fst snd].
  destruct (computeGreenTimes_object (controller s) dens) as (c' & g & E & Hincl).
  rewrite E.
  destruct (computeSignals_nonempty g) as (signals & Es).
  { intros Hk. destruct (AdaptiveController.lanes (controller s)) as [|l ls];
      [congruence|].
    specialize (Hincl l (or_introl eq_refl)). rewrite Hk in Hincl. exact Hincl. }
  rewrite Es. exists c', g, signals.
  split; [reflexivity|]. split; [assumption|].
  unfold Playback.counted, Playback.record, Playback.elapsed_at.
  cbn [dashboard_update fst snd].
  destruct (update_outcome _ _) as [[]|e]; reflexivity.
Qed.



(** X17.  A tick of a running, unpaused simulator whose finite duration
    has run out stops it: the simulator is neither running nor paused, the
    timer is cleared, no sensor is sampled, no record is emitted and no
    cycle is counted; and every later tick leaves it as it is. *)
Theorem tick_stops_when_duration_reached (s : simulator) (now : value)
        (rand : string -> value) :
  isRunning s = true ->
  isPaused s = false ->
  Playback.duration_reached s now = true ->
  isRunning (tick s now rand) = false /\
  isPaused (tick s now rand) = false /\
  intervalId (tick s now rand) = None /\
  dashboard (tick s now rand) = dashboard s /\
  cycleCount (tick s now rand) = cycleCount s /\
  sensors (tick s now rand) = sensors s /\
  controller (tick s now rand) = controller s /\
  elapsedTimeSeconds (tick s now rand) = Playback.elapsed_at s now /\
  forall (now' : value) (rand' : string -> value),
    tick (tick s now rand) now' rand' = tick s now rand.
Proof.
  intros Hr Hp Hd.
  unfold Playback.duration_reached, Playback.elapsed_at in Hd.
  assert (E : tick s now rand
              = stop {| sensors := sensors s; controller := controller s;
                        dashboard := dashboard s;
                        isPaused := isPaused s; isRunning := isRunning s;
                        speedMultiplier := speedMultiplier s;
                        tickInterval := tickInterval s;
                        intervalId := intervalId s; cycleCount := cycleCount s;
                        simulationDurationSeconds := simulationDurationSeconds s;
                        simulationStartTime := simulationStartTime s;
                        elapsedTimeSeconds := Playback.elapsed_at s now;
                        pausedAtSeconds := pausedAtSeconds s |}).
  { unfold tick. rewrite Hr, Hp. cbn [negb orb]. rewrite Hd. reflexivity. }
  rewrite E. repeat split.
Qed.

(** The Main.js simulator started for 10 s, ticking at 12 s. *)
Lemma tick_stops_when_duration_reached_witness :
  isRunning (tick (start Examples.main_simulator (Num 0) (Num 10)) (Num 12000)
                  Examples.draws) = false /\
  isPaused (tick (start Examples.main_simulator (Num 0) (Num 10)) (Num 12000)
                 Examples.draws) = false /\
  intervalId (tick (start Examples.main_simulator (Num 0) (Num 10)) (Num 12000)
                   Examples.draws) = None /\
  dashboard (tick (start Examples.main_simulator (Num 0) (Num 10)) (Num 12000)
                  Examples.draws)
  = dashboard (start Examples.main_simulator (Num 0) (Num 10)) /\
  cycleCount (tick (start Examples.main_simulator (Num 0) (Num 10)) (Num 12000)
                   Examples.draws)
  = cycleCount (start Examples.main_simulator (Num 0) (Num 10)) /\
  sensors (tick (start Examples.main_simulator (Num 0) (Num 10)) (Num 12000)
                Examples.draws)
  = sensors (start Examples.main_simulator (Num 0) (Num 10)) /\
  controller (tick (start Examples.main_simulator (Num 0) (Num 10)) (Num 12000)
                   Examples.draws)
  = controller (start Examples.main_simulator (Num 0) (Num 10)) /\
  elapsedTimeSeconds (tick (start Examples.main_simulator (Num 0) (Num 10))
                           (Num 12000) Examples.draws)
  = Playback.elapsed_at (start Examples.main_simulator (Num 0) (Num 10)) (Num 12000) /\
  forall (now' : value) (rand' : string -> value),
    tick (tick (start Examples.main_simulator (Num 0) (Num 10)) (Num 12000)
               Examples.draws) now' rand'
    = tick (start Examples.main_simulator (Num 0) (Num 10)) (Num 12000)
           Examples.draws.
Proof.
  apply (tick_stops_when_duration_reached
           (start Examples.main_simulator (Num 0) (Num 10)) (Num 12000)
           Examples.draws); reflexivity.
Defined.

End TickFacts.

(** ** The playback state machine *)

Section PlaybackFacts.

Import Simulator.

Lemma tick_flags (s : simulator) (now : value) (rand : string -> value) :
  (isPaused (tick s now rand) = isPaused s /\
   isRunning (tick s now rand) = isRunning s /\
   intervalId (tick s now rand) = intervalId s)
  \/ (isPaused (tick s now rand) = false /\
      isRunning (tick s now rand) = false /\
      intervalId (tick s now rand) = None).
Proof.
  unfold tick.
  destruct (isPaused s || negb (isRunning s)); [left; repeat split|].
  destruct (gt (simulationDurationSeconds s) (Num 0) && _);
    [right; repeat split|].
  destruct (sample rand (sensors s) []) as [ss dens].
  destruct (AdaptiveController.computeGreenTimes (controller s) (AObj dens))
    as [c' [g|e]]; [|left; repeat split].
  destruct (_computeSignals g); [|left; repeat split].
  cbn [dashboard_update]. destruct (update_outcome _ _); left; repeat split.
Qed.

Lemma apply_keeps_invariants (s : simulator) (o : Playback.op) :
  implb (isPaused s) (isRunning s) = true /\ Playback.timer_live s = isRunning s ->
  implb (isPaused (Playback.apply s o)) (isRunning (Playback.apply s o)) = true /\
  Playback.timer_live (Playback.apply s o) = isRunning (Playback.apply s o).
Proof.
  unfold Playback.timer_live. intros [H1 H2].
  destruct o as [now d|now rand| |now| | |m|now rand]; cbn [Playback.apply].
  - unfold start.
    destruct (isRunning s) eqn:Er, (isPaused s) eqn:Ep;
      cbn [andb negb isPaused isRunning intervalId implb] in *;
      rewrite ?Er, ?Ep; cbn [implb]; auto; discriminate.
  - destruct (tick_flags s now rand) as [(-> & -> & ->)|(-> & -> & ->)]; auto.
  - unfold pause. destruct (isRunning s) eqn:Er;
      cbn [negb isPaused isRunning intervalId implb]; rewrite ?Er; auto.
  - unfold resume. destruct (isRunning s) eqn:Er, (isPaused s) eqn:Ep;
      cbn [negb orb isPaused isRunning intervalId implb] in *;
      rewrite ?Er, ?Ep; cbn [implb]; auto.
  - split; reflexivity.
  - split; reflexivity.
  - unfold setSpeed. destruct (le m (Num 0) || gt m (Num 10)); cbn [fst]; auto.
    cbn [isPaused isRunning intervalId]. split; [assumption|].
    destruct (isRunning s) eqn:Er, (isPaused s) eqn:Ep;
      cbn [andb negb] in *; auto; discriminate.
  - unfold step.
    destruct (negb (isPaused s) || negb (isRunning s)); [auto|].
    destruct (tick_flags s now rand) as [(-> & -> & ->)|(-> & -> & ->)]; auto.
Qed.

(** X18.  Whatever sequence of calls a freshly constructed simulator
    receives (start, tick, pause, resume, stop, reset, setSpeed, step, with
    any arguments), it is never paused without being running, and its
    timer is live exactly when it is running: no tick can fire after a
    stop or a reset, and a new start never finds an old timer. *)
Theorem playback_invariants
        (sensors : obj VirtualSensor.sensor)
        (controller : AdaptiveController.controller)
        (dashboard : sink) (ops : list Playback.op) :
  implb (isPaused (Playback.run (constructor sensors controller dashboard) ops))
        (isRunning (Playback.run (constructor sensors controller dashboard) ops))
  = true /\
  Playback.timer_live (Playback.run (constructor sensors controller dashboard) ops)
  = isRunning (Playback.run (constructor sensors controller dashboard) ops).
Proof.
  unfold Playback.run.
  assert (H : forall s,
             implb (isPaused s) (isRunning s) = true /\
             Playback.timer_live s = isRunning s ->
             implb (isPaused (fold_left Playback.apply ops s))
                   (isRunning (fold_left Playback.apply ops s)) = true /\
             Playback.timer_live (fold_left Playback.apply ops s)
             = isRunning (fold_left Playback.apply ops s)).
  { induction ops as [|o ops IH]; intros s Hs; [exact Hs|].
    cbn [fold_left]. apply IH. now apply apply_keeps_invariants. }
  apply H. split; reflexivity.
Qed.

Lemma tick_elapsed (s : simulator) (now : value) (rand : string -> value) :
  isRunning s = true -> isPaused s = false ->
  elapsedTimeSeconds (tick s now rand) = Playback.elapsed_at s now.
Proof.
  intros Hr Hp. unfold tick, Playback.elapsed_at. rewrite Hr, Hp. cbn [negb orb].
  destruct (gt (simulationDurationSeconds s) (Num 0) && _); [reflexivity|].
  destruct (sample rand (sensors s) []) as [ss dens].
  destruct (AdaptiveController.computeGreenTimes (controller s) (AObj dens))
    as [c' [g|e]]; [|reflexivity].
  destruct (_computeSignals g); [|reflexivity].
  cbn [dashboard_update]. destruct (update_outcome _ _); reflexivity.
Qed.

Lemma denotes_div (a b : value) (x y : Q) :
  Spec.denotes a x -> Spec.denotes b y -> ~ y == 0 ->
  Spec.denotes (div a b) (x / y).
Proof.
  intros (x' & -> & Hx) (y' & -> & Hy) Hne.
  destruct (div_num_nonzero x' y') as (z & -> & Hz).
  { rewrite Hy. assumption. }
  exists z. split; [reflexivity|]. now rewrite Hz, Hx, Hy.
Qed.

(** X19.  After [resume()] at instant [now], the tick at instant [now']
    computes the elapsed time ((now' - now) / 1000 + pausedAt) * speed,
    where [pausedAt] is the elapsed time recorded by [pause()]: the time
    spent paused is left out, and the time recorded at the pause is
    multiplied by the speed once more, so the elapsed time is continuous
    across the pause exactly when the speed multiplier is 1 (or the
    recorded time is 0). *)
Theorem resume_then_tick_elapsed
        (s : simulator) (now now' pausedAt speed : Q) (rand : string -> value) :
  isRunning s = true ->
  isPaused s = true ->
  pausedAtSeconds s = Num pausedAt ->
  speedMultiplier s = Num speed ->
  Spec.denotes
    (elapsedTimeSeconds (tick (resume s (Num now)) (Num now') rand))
    (((now' - now) / 1000 + pausedAt) * speed).
Proof.
  intros Hr Hp Hpa Hsp.
  assert (E : resume s (Num now)
              = {| sensors := sensors s; controller := controller s;
                   dashboard := dashboard s;
                   isPaused := false; isRunning := true;
                   speedMultiplier := Num speed; tickInterval := tickInterval s;
                   intervalId := intervalId s; cycleCount := cycleCount s;
                   simulationDurationSeconds := simulationDurationSeconds s;
                   simulationStartTime :=
                     Some (sub (Num now) (mul (Num pausedAt) (Num 1000)));
                   elapsedTimeSeconds := elapsedTimeSeconds s;
                   pausedAtSeconds := Num pausedAt |}).
  { unfold resume. rewrite Hr, Hp, Hpa, Hsp. reflexivity. }
  rewrite E, tick_elapsed by reflexivity.
  unfold Playback.elapsed_at.
  cbn [startTime_number simulationStartTime speedMultiplier].
  eapply denotes_eq.
  - apply denotes_mul; [|apply denotes_num].
    apply denotes_div; [|apply denotes_num|].
    + apply denotes_sub; [apply denotes_num|].
      apply denotes_sub; [apply denotes_num|].
      apply denotes_mul; apply denotes_num.
    + lra.
  - field.
Qed.

(** The Main.js simulator paused after its tick at 2 s, resumed at 10 s,
    ticking at 12 s. *)
Lemma resume_then_tick_elapsed_witness :
  Spec.denotes
    (elapsedTimeSeconds
       (tick (resume Examples.paused_after_one_tick (Num 10000)) (Num 12000)
             Examples.draws))
    (((12000 - 10000) / 1000 + 2) * 1).
Proof.
  apply (resume_then_tick_elapsed Examples.paused_after_one_tick
           10000 12000 2 1 Examples.draws); reflexivity.
Defined.

(** X20.  [setSpeed] on a paused simulator stores the new multiplier but
    does not reschedule the timer, and neither [resume()] nor [start()]
    does afterwards: the simulator runs on with the timer period of the
    old speed. *)
Theorem setSpeed_while_paused_keeps_timer
        (s : simulator) (m now d : value) :
  isRunning s = true ->
  isPaused s = true ->
  le m (Num 0) || gt m (Num 10) = false ->
  snd (setSpeed s m) = Ok tt /\
  speedMultiplier (resume (fst (setSpeed s m)) now) = m /\
  intervalId (resume (fst (setSpeed s m)) now) = intervalId s /\
  isPaused (resume (fst (setSpeed s m)) now) = false /\
  speedMultiplier (start (fst (setSpeed s m)) now d) = m /\
  intervalId (start (fst (setSpeed s m)) now d) = intervalId s /\
  isPaused (start (fst (setSpeed s m)) now d) = false.
Proof.
  intros Hr Hp Hm. unfold setSpeed. rewrite Hm. cbn [fst snd].
  unfold resume, start.
  cbn [isRunning isPaused speedMultiplier intervalId].
  rewrite Hr, Hp. cbn [andb negb orb]. repeat split.
Qed.

(** The Main.js simulator paused after one tick; speed set to 2. *)
Lemma setSpeed_while_paused_keeps_timer_witness :
  snd (setSpeed Examples.paused_after_one_tick (Num 2)) = Ok tt /\
  speedMultiplier (resume (fst (setSpeed Examples.paused_after_one_tick (Num 2)))
                          (Num 10000)) = Num 2 /\
  intervalId (resume (fst (setSpeed Examples.paused_after_one_tick (Num 2)))
                     (Num 10000))
  = intervalId Examples.paused_after_one_tick /\
  isPaused (resume (fst (setSpeed Examples.paused_after_one_tick (Num 2)))
                   (Num 10000)) = false /\
  speedMultiplier (start (fst (setSpeed Examples.paused_after_one_tick (Num 2)))
                         (Num 10000) Undefined) = Num 2 /\
  intervalId (start (fst (setSpeed Examples.paused_after_one_tick (Num 2)))
                    (Num 10000) Undefined)
  = intervalId Examples.paused_after_one_tick /\
  isPaused (start (fst (setSpeed Examples.paused_after_one_tick (Num 2)))
                  (Num 10000) Undefined) = false.
Proof.
  apply (setSpeed_while_paused_keeps_timer Examples.paused_after_one_tick
           (Num 2) (Num 10000) Undefined); reflexivity.
Defined.

End PlaybackFacts.

(** ** A whole cycle *)

Section WholeCycle.

Import Simulator.

Lemma sample_snd_cons (rand : string -> value) (lane : string)
      (sensor : VirtualSensor.sensor) (rest : obj VirtualSensor.sensor)
      (acc : obj value) :
  snd (sample rand ((lane, sensor) :: rest) acc)
  = snd (sample rand rest
           (set acc lane
                (snd (VirtualSensor.generateDensity sensor NaN (rand lane))))).
Proof.
  cbn [sample].
  destruct (VirtualSensor.generateDensity sensor NaN (rand lane)) as [s' d].
  cbn [snd].
  destruct (sample rand rest (set acc lane d)) as [rest' dens]. reflexivity.
Qed.

(** The readings of one sampling round: one per sensor, under the sensor's
    key, each in [0, 100]. *)
Lemma sample_readings (rand : string -> value) (ss : obj VirtualSensor.sensor) :
  forall acc : obj value,
    Forall (fun kv => Playback.numeric_sensor (snd kv) = true) ss ->
    (forall lane, In lane (keys ss) -> Spec.is_num (rand lane) = true) ->
    Forall (fun kv => Playback.percent (snd kv) = true) acc ->
    NoDup (keys ss) ->
    (forall x, In x (keys ss) -> ~ In x (keys acc)) ->
    Forall (fun kv => Playback.percent (snd kv) = true) (snd (sample rand ss acc)) /\
    keys (snd (sample rand ss acc)) = (keys acc ++ keys ss)%list.
Proof.
  induction ss as [|[lane sensor] rest IH]; intros acc Hs Hr Hacc Hnd Hdisj.
  - cbn [sample snd keys map]. rewrite app_nil_r. auto.
  - rewrite sample_snd_cons.
    inversion Hs as [|? ? Hsensor Hrest]; subst. cbn [snd] in Hsensor.
    cbn [keys map fst] in Hnd, Hdisj, Hr |- *.
    inversion Hnd as [|? ? Hnotin Hnd']; subst.
    destruct (generateDensity_numeric sensor NaN (rand lane) Hsensor
                (Hr lane (or_introl eq_refl))) as (Hp & _).
    destruct (IH (set acc lane
                      (snd (VirtualSensor.generateDensity sensor NaN (rand lane)))))
      as [H1 H2].
    + assumption.
    + intros l Hl. apply Hr. now right.
    + apply (set_Forall (fun v => Playback.percent v = true)); assumption.
    + assumption.
    + intros x Hx Hin. apply in_keys_set in Hin. destruct Hin as [->|Hin].
      * contradiction.
      * apply (Hdisj x); [now right | assumption].
    + split; [assumption|]. rewrite H2.
      rewrite keys_set_absent by (apply Hdisj; now left).
      now rewrite <- app_assoc.
Qed.

Lemma computeGreenTimes_within_lanes
      (c : AdaptiveController.controller) (d : obj value) :
  Spec.config_invariant c = true ->
  Spec.lanes_known c = true ->
  Spec.numeric_over_lanes d = true ->
  forall c' g,
    AdaptiveController.computeGreenTimes c (AObj d) = (c', Ok g) ->
    forall lane, In lane Spec.lane_names ->
                 Spec.within_green c (get g lane) = true.
Proof.
  intros Hc Hl Hd c' g E lane Hlane.
  apply same_lanes_true in Hl. destruct Hl as [_ Hl].
  assert (Hget : forall lane, In lane (AdaptiveController.lanes c) ->
                              exists q, get d lane = Num q).
  { intros l Hl'. apply (numeric_over_lanes_get d Hd). now apply Hl. }
  assert (Hnum : forallb Spec.is_num (values d) = true).
  { unfold Spec.numeric_over_lanes in Hd. now apply andb_true_iff in Hd. }
  destruct (config_invariant_fields c Hc) as (m & M & a & Hm & HM & HmM & Ha).
  unfold AdaptiveController.computeGreenTimes in E.
  destruct (strict_eq (AdaptiveController.total_density d) (Num 0)) eqn:Ez.
  - injection E as <- <-. rewrite fallback_get by now apply Hl.
    rewrite Hm. eapply within_green_num; eauto. lra.
  - pose proof (constrained_within c d Hc Hget Hnum Ez) as Hcon.
    destruct (redistribute_within c _ (AdaptiveController.availableTime c) d Hcon)
      as [Hw Hk].
    destruct (AdaptiveController._redistribute c _ _ d) as [c'' g''].
    injection E as <- <-. cbn [snd] in Hw, Hk.
    apply within_get; [assumption|]. apply Hk.
    unfold AdaptiveController.constrained. apply build_keys. right. now apply Hl.
Qed.

(** X21.  One whole cycle.  A running, unpaused simulator whose duration
    has not run out, with a controller that satisfies the configuration
    invariant, one sensor per lane whose state holds numbers, and numeric
    draws, emits a record in which the readings are numbers over the four
    lanes, each in [0, 100], and the green time of every lane is in
    [minGreen, maxGreen]. *)
Theorem tick_record_is_well_formed
        (s : simulator) (now : value) (rand : string -> value) :
  isRunning s = true ->
  isPaused s = false ->
  Playback.duration_reached s now = false ->
  Spec.config_invariant (controller s) = true ->
  Spec.lanes_known (controller s) = true ->
  Spec.same_lanes (keys (sensors s)) Spec.lane_names = true ->
  forallb Playback.numeric_sensor (values (sensors s)) = true ->
  forallb (fun lane => Spec.is_num (rand lane)) Spec.lane_names = true ->
  exists st,
    received (dashboard (tick s now rand))
    = (received (dashboard s) ++ [DashUpdate st])%list /\
    Spec.numeric_over_lanes (st_densities st) = true /\
    Forall (fun lane =>
              Playback.percent (get (st_densities st) lane) = true /\
              Spec.within_green (controller s) (get (st_greenTimes st) lane) = true)
           Spec.lane_names.
Proof.
  intros Hr Hp Hd Hc Hl Hk Hs Hrand.
  destruct (tick_running s now rand Hr Hp Hd) as (c' & g & signals & E & Es & Et).
  { pose proof (lanes_known_length (controller s) Hl) as Hlen.
    intros Hnil. rewrite Hnil in Hlen. discriminate. }
  pose proof Hk as Hk'. apply same_lanes_true in Hk'. destruct Hk' as [Hnd Hin].
  destruct (sample_readings rand (sensors s) []) as [Hperc Hkeys].
  { apply Forall_forall. intros [k v] Hkv. rewrite forallb_forall in Hs.
    apply Hs. unfold values. change v with (snd (k, v)). now apply in_map. }
  { intros lane Hlane. rewrite forallb_forall in Hrand. apply Hrand. now apply Hin. }
  { constructor. }
  { assumption. }
  { intros x _ []. }
  cbn [keys map app] in Hkeys.
  set (dens := snd (sample rand (sensors s) [])) in *.
  assert (Hnum : Spec.numeric_over_lanes dens = true).
  { unfold Spec.numeric_over_lanes. fold (keys dens). rewrite Hkeys, Hk.
    cbn [andb]. apply forallb_forall. intros v Hv.
    unfold values in Hv. apply in_map_iff in Hv. destruct Hv as ([k v'] & <- & Hkv).
    rewrite Forall_forall in Hperc. specialize (Hperc _ Hkv). cbn [snd] in *.
    apply percent_true in Hperc. destruct Hperc as (q & -> & _). reflexivity. }
  rewrite Et. eexists. split; [apply dashboard_update_received|].
  cbn [Playback.record st_densities st_greenTimes]. split; [assumption|].
  apply Forall_forall. intros lane Hlane. split.
  - assert (Hkl : In lane (keys dens)) by (rewrite Hkeys; now apply Hin).
    apply in_keys_lookup in Hkl. destruct Hkl as (v & Hv).
    unfold get. rewrite Hv. apply lookup_some_in in Hv.
    rewrite Forall_forall in Hperc. exact (Hperc _ Hv).
  - exact (computeGreenTimes_within_lanes (controller s) dens Hc Hl Hnum c' g E
             lane Hlane).
Qed.

(** The Main.js simulator, started at instant 0, ticking at 2 s. *)
Lemma tick_record_is_well_formed_witness :
  exists st,
    received (dashboard (tick (start Examples.main_simulator (Num 0) (Num 0))
                              (Num 2000) Examples.draws))
    = (received (dashboard (start Examples.main_simulator (Num 0) (Num 0)))
       ++ [DashUpdate st])%list /\
    Spec.numeric_over_lanes (st_densities st) = true /\
    Forall (fun lane =>
              Playback.percent (get (st_densities st) lane) = true /\
              Spec.within_green
                (controller (start Examples.main_simulator (Num 0) (Num 0)))
                (get (st_greenTimes st) lane) = true)
           Spec.lane_names.
Proof.
  apply (tick_record_is_well_formed
           (start Examples.main_simulator (Num 0) (Num 0)) (Num 2000)
           Examples.draws); reflexivity.
Defined.

End WholeCycle.

(** ** The density sliders *)

Section Sliders.

Import Simulator.

Lemma sample_lookup_other (rand : string -> value) (ss : obj VirtualSensor.sensor) :
  forall (acc : obj value) (lane : string),
    ~ In lane (keys ss) ->
    lookup (snd (sample rand ss acc)) lane = lookup acc lane.
Proof.
  induction ss as [|[k s0] rest IH]; intros acc lane Hout; [reflexivity|].
  rewrite sample_snd_cons. cbn [keys map fst] in Hout.
  rewrite IH by (intros H; apply Hout; now right).
  apply lookup_set_other. intros ->. apply Hout. now left.
Qed.

(** The reading of a lane is what that lane's sensor returned. *)
Lemma sample_get (rand : string -> value) (ss : obj VirtualSensor.sensor) :
  forall (acc : obj value) (lane : string) (sensor : VirtualSensor.sensor),
    NoDup (keys ss) ->
    lookup ss lane = Some sensor ->
    get (snd (sample rand ss acc)) lane
    = snd (VirtualSensor.generateDensity sensor NaN (rand lane)).
Proof.
  induction ss as [|[k s0] rest IH]; intros acc lane sensor Hnd Hl;
    [discriminate|].
  rewrite sample_snd_cons. cbn [keys map fst] in Hnd.
  inversion Hnd as [|? ? Hk Hnd']; subst.
  cbn [lookup] in Hl. destruct (String.eqb k lane) eqn:E.
  - apply String.eqb_eq in E. subst k. injection Hl as ->.
    unfold get. rewrite sample_lookup_other by assumption.
    now rewrite lookup_set_same.
  - now apply IH.
Qed.

(** X22.  While the simulator runs, moving the density slider of a lane
    whose sensor has a numeric coefficient makes the very next record
    report, for that lane, the slider value clamped to [0, 100], whatever
    the sensor's smoothing state and whatever the draws. *)
Theorem slider_sets_next_reading
        (s : simulator) (lane : string) (v : Q) (now : value)
        (rand : string -> value) :
  isRunning s = true ->
  isPaused s = false ->
  Playback.duration_reached s now = false ->
  Spec.lanes_known (controller s) = true ->
  Spec.nodupb (keys (sensors s)) = true ->
  match lookup (sensors s) lane with
  | Some sensor => Spec.is_num (VirtualSensor.emaCoefficient sensor)
  | None => false
  end = true ->
  exists st p,
    received (dashboard (tick (InteractionManager.handleDensityChange s lane (Num v))
                              now rand))
    = (received (dashboard s) ++ [DashUpdate st])%list /\
    VirtualSensor.clamp_percent (Num v) = Num p /\
    Spec.denotes (get (st_densities st) lane) p.
Proof.
  intros Hr Hp Hd Hl Hnd He.
  destruct (lookup (sensors s) lane) as [sensor|] eqn:Elook; [|discriminate].
  destruct (clamp_percent_num v) as (p & Hclamp & Hrange).
  set (s' := InteractionManager.handleDensityChange s lane (Num v)).
  assert (Es' : sensors s'
                = set (sensors s) lane (VirtualSensor.setDensity sensor (Num p))).
  { unfold s', InteractionManager.handleDensityChange. rewrite Elook, Hclamp.
    reflexivity. }
  assert (Eflags : isRunning s' = true /\ isPaused s' = false
                   /\ Playback.duration_reached s' now = false
                   /\ controller s' = controller s /\ dashboard s' = dashboard s).
  { unfold s', InteractionManager.handleDensityChange. rewrite Elook.
    repeat split; assumption. }
  destruct Eflags as (Hr' & Hp' & Hd' & Ec & Edash).
  destruct (tick_running s' now rand Hr' Hp' Hd') as (c' & g & signals & _ & _ & Et).
  { rewrite Ec. pose proof (lanes_known_length (controller s) Hl) as Hlen.
    intros Hnil. rewrite Hnil in Hlen. discriminate. }
  rewrite Et. cbn [dashboard]. rewrite dashboard_update_received, Edash.
  eexists. exists p. split; [reflexivity|]. split; [assumption|].
  cbn [Playback.record st_densities]. rewrite Es'.
  rewrite (sample_get rand _ [] lane (VirtualSensor.setDensity sensor (Num p))).
  - destruct (setDensity_sample_denotes sensor p NaN (rand lane) He)
      as (p' & Hp'' & _ & Hres).
    apply (denotes_eq _ p'); [assumption|].
    destruct (clamp_percent_cases p p' Hp'') as (_ & C & _). now apply C.
  - rewrite keys_set_present; [now apply nodupb_true|].
    apply lookup_some_in in Elook.
    unfold keys. change lane with (fst (lane, sensor)). now apply in_map.
  - apply lookup_set_same.
Qed.

(** The Main.js simulator, started, with the north slider moved to 75. *)
Lemma slider_sets_next_reading_witness :
  exists st p,
    received
      (dashboard
         (tick (InteractionManager.handleDensityChange
                  (start Examples.main_simulator (Num 0) (Num 0)) "north" (Num 75))
               (Num 2000) Examples.draws))
    = (received (dashboard (start Examples.main_simulator (Num 0) (Num 0)))
       ++ [DashUpdate st])%list /\
    VirtualSensor.clamp_percent (Num 75) = Num p /\
    Spec.denotes (get (st_densities st) "north") p.
Proof.
  apply (slider_sets_next_reading
           (start Examples.main_simulator (Num 0) (Num 0)) "north" 75
           (Num 2000) Examples.draws); reflexivity.
Defined.

End Sliders.

(** ** The cycle counter *)

Section CycleCounter.

Import Simulator.

Lemma updates_since_reset_update (log : list dashboard_call) (st : tick_state) :
  Playback.updates_since_reset (log ++ [DashUpdate st])
  = S (Playback.updates_since_reset log).
Proof. unfold Playback.updates_since_reset. now rewrite fold_left_app. Qed.

Lemma updates_since_reset_reset (log : list dashboard_call) :
  Playback.updates_since_reset (log ++ [DashReset]) = 0%nat.
Proof. unfold Playback.updates_since_reset. now rewrite fold_left_app. Qed.

(** With a sensor on each lane, a tick either does nothing to the
    dashboard and the counter, or hands over one record and counts one
    cycle. *)
Lemma tick_counts (s : simulator) (now : value) (rand : string -> value) :
  Playback.every_lane_sensed (sensors s) = true ->
  (dashboard (tick s now rand) = dashboard s /\
   cycleCount (tick s now rand) = cycleCount s)
  \/ (exists st,
        received (dashboard (tick s now rand))
        = (received (dashboard s) ++ [DashUpdate st])%list /\
        cycleCount (tick s now rand) = add (cycleCount s) (Num 1)).
Proof.
  intros Hs.
  pose proof (fun g signals => sensed_update_returns s now rand g signals Hs) as Hu.
  unfold Playback.record, Playback.elapsed_at in Hu. cbn [dashboard_update snd] in Hu.
  unfold tick.
  destruct (isPaused s || negb (isRunning s)); [left; split; reflexivity|].
  destruct (gt (simulationDurationSeconds s) (Num 0) && _);
    [left; split; reflexivity|].
  destruct (sample rand (sensors s) []) as [ss dens]. cbn [snd] in Hu.
  destruct (AdaptiveController.computeGreenTimes (controller s) (AObj dens))
    as [c' [g|e]]; [|left; split; reflexivity].
  destruct (_computeSignals g) as [signals|e]; [|left; split; reflexivity].
  cbn [dashboard_update]. rewrite Hu.
  right. eexists. split; reflexivity.
Qed.

(** No call adds, removes or renames a sensor. *)
Lemma apply_keeps_sensor_keys (s : simulator) (o : Playback.op) :
  keys (sensors (Playback.apply s o)) = keys (sensors s).
Proof.
  assert (Htick : forall now rand, keys (sensors (tick s now rand)) = keys (sensors s)).
  { intros now rand. pose proof (sample_keys rand (sensors s) []) as Hk.
    unfold tick.
    destruct (isPaused s || negb (isRunning s)); [reflexivity|].
    destruct (gt (simulationDurationSeconds s) (Num 0) && _); [reflexivity|].
    destruct (sample rand (sensors s) []) as [ss dens]. cbn [fst] in Hk.
    destruct (AdaptiveController.computeGreenTimes (controller s) (AObj dens))
      as [c' [g|e]]; [|exact Hk].
    destruct (_computeSignals g) as [signals|e]; [|exact Hk].
    cbn [dashboard_update]. destruct (update_outcome _ _); exact Hk. }
  destruct o as [now d|now rand| |now| | |m|now rand]; cbn [Playback.apply].
  - unfold start. destruct (isRunning s && negb (isPaused s)); [reflexivity|].
    destruct (isPaused s); reflexivity.
  - apply Htick.
  - unfold pause. destruct (negb (isRunning s)); reflexivity.
  - unfold resume. destruct (negb (isRunning s) || negb (isPaused s)); reflexivity.
  - reflexivity.
  - cbn [reset sensors]. unfold keys. now rewrite map_map.
  - unfold setSpeed. destruct (le m (Num 0) || gt m (Num 10)); reflexivity.
  - unfold step. destruct (negb (isPaused s) || negb (isRunning s));
      [reflexivity | apply Htick].
Qed.

Lemma counted_step (s : simulator) (o : Playback.op) :
  Playback.every_lane_sensed (sensors s) = true ->
  Spec.denotes (cycleCount s)
    (inject_Z (Z.of_nat (Playback.updates_since_reset (received (dashboard s))))) ->
  Spec.denotes (cycleCount (Playback.apply s o))
    (inject_Z (Z.of_nat (Playback.updates_since_reset
                           (received (dashboard (Playback.apply s o)))))).
Proof.
  intros Hs H.
  assert (Htick : forall now rand,
             Spec.denotes (cycleCount (tick s now rand))
               (inject_Z (Z.of_nat (Playback.updates_since_reset
                                      (received (dashboard (tick s now rand))))))).
  { intros now rand.
    destruct (tick_counts s now rand Hs) as [[-> ->]|(st & -> & ->)]; [assumption|].
    rewrite updates_since_reset_update, Nat2Z.inj_succ. unfold Z.succ.
    eapply denotes_eq; [apply denotes_add; [exact H | apply denotes_num]|].
    now rewrite inject_Z_plus. }
  destruct o as [now d|now rand| |now| | |m|now rand]; cbn [Playback.apply].
  - unfold start. destruct (isRunning s && negb (isPaused s)); [assumption|].
    destruct (isPaused s); [exact H|].
    cbn [cycleCount dashboard dashboard_reset received].
    rewrite updates_since_reset_reset. apply denotes_num.
  - apply Htick.
  - unfold pause. destruct (negb (isRunning s)); exact H.
  - unfold resume. destruct (negb (isRunning s) || negb (isPaused s)); exact H.
  - exact H.
  - cbn [reset cycleCount dashboard dashboard_reset received].
    rewrite updates_since_reset_reset. apply denotes_num.
  - unfold setSpeed. destruct (le m (Num 0) || gt m (Num 10)); exact H.
  - unfold step. destruct (negb (isPaused s) || negb (isRunning s));
      [exact H | apply Htick].
Qed.

(** X23.  A simulator constructed with a sensor on each of the four lanes
    and a fresh dashboard, in a page with or without the status table:
    through any sequence of calls, the cycle counter equals the number of
    records the dashboard has received since it was last reset.  A cycle
    is counted exactly when its record is handed over, and [start] and
    [reset] clear both. *)
Theorem cycle_counter_counts_records
        (sensors : obj VirtualSensor.sensor)
        (controller : AdaptiveController.controller) (tableBody : bool)
        (ops : list Playback.op) :
  Playback.every_lane_sensed sensors = true ->
  Spec.denotes
    (cycleCount
       (Playback.run (constructor sensors controller (mkSink [] tableBody)) ops))
    (inject_Z
       (Z.of_nat
          (Playback.updates_since_reset
             (received
                (dashboard
                   (Playback.run (constructor sensors controller
                                    (mkSink [] tableBody)) ops)))))).
Proof.
  intros Hs. unfold Playback.run.
  assert (H : forall s,
             Playback.every_lane_sensed (Simulator.sensors s) = true ->
             Spec.denotes (cycleCount s)
               (inject_Z (Z.of_nat (Playback.updates_since_reset
                                      (received (dashboard s))))) ->
             Spec.denotes (cycleCount (fold_left Playback.apply ops s))
               (inject_Z
                  (Z.of_nat
                     (Playback.updates_since_reset
                        (received (dashboard (fold_left Playback.apply ops s))))))).
  { induction ops as [|o ops IH]; intros s Hsensed Hcount; [exact Hcount|].
    cbn [fold_left]. apply IH.
    - unfold Playback.every_lane_sensed in *.
      now rewrite apply_keeps_sensor_keys.
    - now apply counted_step. }
  apply H; [exact Hs | apply denotes_num].
Qed.

(** The Main.js simulator through a start, two ticks, a pause with a step,
    a resume and a third tick: three records, three cycles. *)
Lemma cycle_counter_counts_records_witness :
  cycleCount
    (Playback.run
       (constructor Examples.main_sensors Examples.main_controller (mkSink [] true))
       [Playback.Start (Num 0) (Num 0); Playback.Tick (Num 2000) Examples.draws;
        Playback.Tick (Num 4000) Examples.draws; Playback.Pause;
        Playback.Step (Num 5000) Examples.draws; Playback.Resume (Num 6000);
        Playback.Tick (Num 8000) Examples.draws]) = Num 3 /\
  Spec.denotes
    (cycleCount
       (Playback.run
          (constructor Examples.main_sensors Examples.main_controller
             (mkSink [] true))
          [Playback.Start (Num 0) (Num 0); Playback.Tick (Num 2000) Examples.draws;
           Playback.Tick (Num 4000) Examples.draws; Playback.Pause;
           Playback.Step (Num 5000) Examples.draws; Playback.Resume (Num 6000);
           Playback.Tick (Num 8000) Examples.draws]))
    (inject_Z
       (Z.of_nat
          (Playback.updates_since_reset
             (received
                (dashboard
                   (Playback.run
                      (constructor Examples.main_sensors Examples.main_controller
                         (mkSink [] true))
                      [Playback.Start (Num 0) (Num 0);
                       Playback.Tick (Num 2000) Examples.draws;
                       Playback.Tick (Num 4000) Examples.draws; Playback.Pause;
                       Playback.Step (Num 5000) Examples.draws;
                       Playback.Resume (Num 6000);
                       Playback.Tick (Num 8000) Examples.draws])))))).
Proof.
  split; [vm_compute; reflexivity|].
  apply (cycle_counter_counts_records Examples.main_sensors
           Examples.main_controller true); reflexivity.
Defined.

End CycleCounter.
